(** * Starhaven: a shallow embedding of the text adventure in [Strarhaven.py]

    The game is a single class [Game] whose methods mutate one object, print
    through [say], and end the process with [SystemExit].  The embedding keeps
    that shape: a record for every dataclass, insertion-ordered association
    lists for the dictionaries, and a small monad that threads the game
    object, collects the arguments of [say] and stops at the first exit. *)

From Stdlib Require Import String Ascii List ZArith Lia Bool Arith Permutation.
From Stdlib Require Import DecimalString.
Import ListNotations.
Local Open Scope string_scope.
Local Open Scope list_scope.

(** ** Python strings

    A [str] is modelled by its UTF-8 encoding, one [ascii] per byte.  Every
    name and identifier the world tables hold is plain ASCII; what the player
    types is any text.  In UTF-8 the bytes of a Unicode separator, or of a
    letter, never begin inside another character, so the functions below go
    through the bytes and look for the encodings they need. *)
Module Py.

Definition is_upper (c : ascii) : bool :=
  let n := nat_of_ascii c in (65 <=? n)%nat && (n <=? 90)%nat.

Definition is_lower (c : ascii) : bool :=
  let n := nat_of_ascii c in (97 <=? n)%nat && (n <=? 122)%nat.

Definition lower_char (c : ascii) : ascii :=
  if is_upper c then ascii_of_nat (nat_of_ascii c + 32) else c.

Definition upper_char (c : ascii) : ascii :=
  if is_lower c then ascii_of_nat (nat_of_ascii c - 32) else c.

Fixpoint map_string (f : ascii -> ascii) (s : string) : string :=
  match s with
  | EmptyString => EmptyString
  | String c r => String (f c) (map_string f r)
  end.

(** [s] begins with the bytes [p]. *)
Fixpoint starts_with (p : list nat) (s : string) : bool :=
  match p, s with
  | [], _ => true
  | b :: p', String c r => (nat_of_ascii c =? b)%nat && starts_with p' r
  | _ :: _, EmptyString => false
  end.

Fixpoint of_bytes (p : list nat) : string :=
  match p with
  | [] => EmptyString
  | b :: p' => String (ascii_of_nat b) (of_bytes p')
  end.

(** The two characters outside ASCII whose lowercase holds an ASCII letter:
    U+212A KELVIN SIGN, which [str.lower()] turns into [k], and U+0130, which
    it turns into [i] followed by U+0307. *)
Definition kelvin_sign : list nat := [226; 132; 170].
Definition dotted_capital_i : list nat := [196; 176].
Definition combining_dot : list nat := [204; 135].

(** [s.lower()].  [skip] counts the bytes still to pass of a character
    already lowered.  The letters A to Z and the two characters above are
    lowered as [str.lower()] lowers them.  The other letters outside ASCII,
    which [str.lower()] turns into text outside ASCII again, are left as they
    are: the program does nothing with a lowered text but compare it with the
    ASCII names, identifiers and command words, and it differs from all of
    them either way. *)
Fixpoint lower_aux (s : string) (skip : nat) : string :=
  match s with
  | EmptyString => EmptyString
  | String c r =>
      match skip with
      | S k => lower_aux r k
      | O =>
          if starts_with kelvin_sign s then String "k" (lower_aux r 2)
          else if starts_with dotted_capital_i s
               then String "i" (of_bytes combining_dot ++ lower_aux r 1)
               else String (lower_char c) (lower_aux r 0)
      end
  end.

Definition lower (s : string) : string := lower_aux s 0.

(** [s.upper()], which the program applies to the authored room names
    only: ASCII text. *)
Definition upper (s : string) : string := map_string upper_char s.

(** The separators of [str.split()] and [str.strip()] without arguments:
    the 29 characters for which [str.isspace()] holds, in UTF-8.  They are
    U+0009 to U+000D, U+001C to U+0020, U+0085, U+00A0, U+1680, U+2000 to
    U+200A, U+2028, U+2029, U+202F, U+205F and U+3000. *)
Definition separators : list (list nat) :=
  [ [9]; [10]; [11]; [12]; [13]; [28]; [29]; [30]; [31]; [32];
    [194; 133]; [194; 160]; [225; 154; 128];
    [226; 128; 128]; [226; 128; 129]; [226; 128; 130]; [226; 128; 131];
    [226; 128; 132]; [226; 128; 133]; [226; 128; 134]; [226; 128; 135];
    [226; 128; 136]; [226; 128; 137]; [226; 128; 138];
    [226; 128; 168]; [226; 128; 169]; [226; 128; 175];
    [226; 129; 159]; [227; 128; 128] ].

(** The number of bytes of the separator [s] begins with, 0 when it begins
    with none. *)
Definition sep_len (s : string) : nat :=
  match find (fun p => starts_with p s) separators with
  | Some p => length p
  | None => 0
  end.

(** [s], once [skip] bytes are passed, is made of separators only. *)
Fixpoint only_seps (s : string) (skip : nat) : bool :=
  match s with
  | EmptyString => true
  | String c r =>
      match skip with
      | S k => only_seps r k
      | O =>
          match sep_len s with
          | O => false
          | S k => only_seps r k
          end
      end
  end.

(** [s.split()]: the maximal runs of non-separator characters, in order.
    [cur] holds the run being read, [skip] counts the bytes still to pass of
    the separator being read. *)
Fixpoint split_aux (s : string) (cur : string) (skip : nat) : list string :=
  match s with
  | EmptyString => if (cur =? "") then [] else [cur]
  | String c r =>
      match skip with
      | S k => split_aux r cur k
      | O =>
          match sep_len s with
          | O => split_aux r (cur ++ String c "") 0
          | S k => if (cur =? "") then split_aux r "" k else cur :: split_aux r "" k
          end
      end
  end.

Definition split (s : string) : list string := split_aux s "" 0.

Fixpoint lstrip_aux (s : string) (skip : nat) : string :=
  match s with
  | EmptyString => EmptyString
  | String c r =>
      match skip with
      | S k => lstrip_aux r k
      | O =>
          match sep_len s with
          | O => s
          | S k => lstrip_aux r k
          end
      end
  end.

Definition lstrip (s : string) : string := lstrip_aux s 0.

(** The text is cut where nothing but separators follows. *)
Fixpoint rstrip (s : string) : string :=
  match s with
  | EmptyString => EmptyString
  | String c r => if only_seps s 0 then EmptyString else String c (rstrip r)
  end.

(** [s.strip()]. *)
Definition strip (s : string) : string := rstrip (lstrip s).

(** [sep.join(l)]. *)
Fixpoint join (sep : string) (l : list string) : string :=
  match l with
  | [] => ""
  | [a] => a
  | a :: r => a ++ sep ++ join sep r
  end.

(** [s[:n]]. *)
Fixpoint take_prefix (n : nat) (s : string) : string :=
  match n, s with
  | S n', String c r => String c (take_prefix n' r)
  | _, _ => EmptyString
  end.

(** [str(z)] for an [int], as an f-string prints it. *)
Definition str_of_int (z : Z) : string := NilZero.string_of_int (Z.to_int z).

(** [x in l] for a list of strings. *)
Definition mem (x : string) (l : list string) : bool :=
  existsb (String.eqb x) l.

(** [l.remove(x)]: drops the first occurrence; Python raises [ValueError] when
    there is none, here [None]. *)
Fixpoint remove (x : string) (l : list string) : option (list string) :=
  match l with
  | [] => None
  | a :: r =>
      if (a =? x) then Some r
      else match remove x r with
           | Some r' => Some (a :: r')
           | None => None
           end
  end.

(** The double quote and the newline, which the messages contain. *)
Definition dq : string := String (ascii_of_nat 34) EmptyString.
Definition nl : string := String (ascii_of_nat 10) EmptyString.

(** *** Dictionaries

    A [dict] keeps its keys in insertion order and holds each key once:
    assignment to a present key replaces the value where it stands and
    assignment to a new key appends. *)
Definition dict (V : Type) : Type := list (string * V).

Fixpoint get {V} (d : dict V) (k : string) : option V :=
  match d with
  | [] => None
  | (k', v) :: r => if (k' =? k) then Some v else get r k
  end.

Fixpoint set {V} (d : dict V) (k : string) (v : V) : dict V :=
  match d with
  | [] => [(k, v)]
  | (k', v') :: r => if (k' =? k) then (k', v) :: r else (k', v') :: set r k v
  end.

Definition keys {V} (d : dict V) : list string := map fst d.
Definition values {V} (d : dict V) : list V := map snd d.

End Py.

(** ** The dataclasses *)
Module Item.
Record t : Type := mk {
  id : string;
  name : string;
  desc : string;
  portable : bool
}.
End Item.

Module Room.
Record t : Type := mk {
  id : string;
  name : string;
  desc : string;
  x : Z;
  y : Z;
  items : list string;
  npcs : list string;
  passable : bool
}.

(** [r.items = l] and [r.npcs = l]. *)
Definition set_items (r : t) (l : list string) : t :=
  mk (id r) (name r) (desc r) (x r) (y r) l (npcs r) (passable r).
Definition set_npcs (r : t) (l : list string) : t :=
  mk (id r) (name r) (desc r) (x r) (y r) (items r) l (passable r).
End Room.

Module NPC.
Record t : Type := mk {
  id : string;
  name : string;
  title : string;
  room : string;
  alibi : string;
  truth_when_innocent : string;
  lie_when_guilty : string;
  cooperative : bool;
  arrested : bool
}.

Definition set_room (n : t) (r : string) : t :=
  mk (id n) (name n) (title n) r (alibi n) (truth_when_innocent n)
     (lie_when_guilty n) (cooperative n) (arrested n).
Definition set_cooperative (n : t) (b : bool) : t :=
  mk (id n) (name n) (title n) (room n) (alibi n) (truth_when_innocent n)
     (lie_when_guilty n) b (arrested n).
Definition set_arrested (n : t) (b : bool) : t :=
  mk (id n) (name n) (title n) (room n) (alibi n) (truth_when_innocent n)
     (lie_when_guilty n) (cooperative n) b.
End NPC.

(** ** The random generator

    [random.Random] is an oracle: the sequence of numbers it will hand out is
    fixed by the seed, and each call reads the next one. *)
Module Rng.
Record t : Type := mk { pos : nat; draws : nat -> nat }.

Definition next (r : t) : t := mk (S (pos r)) (draws r).

(** [_randbelow(n)]: a number below [n]. *)
Definition randbelow (n : nat) (r : t) : nat * t :=
  (Nat.modulo (draws r (pos r)) n, next r).

(** [random() < 0.25]: one call, true for a quarter of the outcomes. *)
Definition random_lt_quarter (r : t) : bool * t :=
  (Nat.eqb (Nat.modulo (draws r (pos r)) 4) 0, next r).
End Rng.

(** ** The save record

    [save] dumps one dictionary through [json.dump] and [load] reads it back
    through [json.load]; integers, booleans, strings, lists and string-keyed
    dictionaries come back as they went in, so the file is modelled by the
    dictionary itself. *)
Module Save.
(** [dict(items=r.items, npcs=r.npcs)] *)
Module RoomEntry.
Record t : Type := mk { items : list string; npcs : list string }.
End RoomEntry.
(** [dict(room=n.room, arrested=n.arrested, coop=n.cooperative)] *)
Module NpcEntry.
Record t : Type := mk { room : string; arrested : bool; coop : bool }.
End NpcEntry.
Record data : Type := mk {
  time : Z;
  player_room : string;
  inv : list string;
  rooms : Py.dict RoomEntry.t;
  npcs : Py.dict NpcEntry.t;
  killer : string;
  killer_evidence : Py.dict (list string)
}.
End Save.

(** ** The game object *)
Module Game.
Import Py.

Record t : Type := mk {
  rng : Rng.t;
  time : Z;
  rooms : dict Room.t;
  items : dict Item.t;
  npcs : dict NPC.t;
  player_room : string;
  inv : list string;
  killer_id : string;
  killer_evidence : dict (list string);
  brigrm : string;
  cmdrm : string
}.

Definition set_rng (g : t) (v : Rng.t) : t :=
  mk v (time g) (rooms g) (items g) (npcs g) (player_room g) (inv g)
     (killer_id g) (killer_evidence g) (brigrm g) (cmdrm g).
Definition set_time (g : t) (v : Z) : t :=
  mk (rng g) v (rooms g) (items g) (npcs g) (player_room g) (inv g)
     (killer_id g) (killer_evidence g) (brigrm g) (cmdrm g).
Definition set_rooms (g : t) (v : dict Room.t) : t :=
  mk (rng g) (time g) v (items g) (npcs g) (player_room g) (inv g)
     (killer_id g) (killer_evidence g) (brigrm g) (cmdrm g).
Definition set_items (g : t) (v : dict Item.t) : t :=
  mk (rng g) (time g) (rooms g) v (npcs g) (player_room g) (inv g)
     (killer_id g) (killer_evidence g) (brigrm g) (cmdrm g).
Definition set_npcs (g : t) (v : dict NPC.t) : t :=
  mk (rng g) (time g) (rooms g) (items g) v (player_room g) (inv g)
     (killer_id g) (killer_evidence g) (brigrm g) (cmdrm g).
Definition set_player_room (g : t) (v : string) : t :=
  mk (rng g) (time g) (rooms g) (items g) (npcs g) v (inv g)
     (killer_id g) (killer_evidence g) (brigrm g) (cmdrm g).
Definition set_inv (g : t) (v : list string) : t :=
  mk (rng g) (time g) (rooms g) (items g) (npcs g) (player_room g) v
     (killer_id g) (killer_evidence g) (brigrm g) (cmdrm g).
Definition set_killer_id (g : t) (v : string) : t :=
  mk (rng g) (time g) (rooms g) (items g) (npcs g) (player_room g) (inv g)
     v (killer_evidence g) (brigrm g) (cmdrm g).
Definition set_killer_evidence (g : t) (v : dict (list string)) : t :=
  mk (rng g) (time g) (rooms g) (items g) (npcs g) (player_room g) (inv g)
     (killer_id g) v (brigrm g) (cmdrm g).

(** *** How a method can end

    [SystemExit] is raised in two places, after the victory text and after the
    loss text; the tag tells them apart.  The other three are the exceptions
    a lookup, an index or a library call raises, which nothing catches. *)
Inductive exit : Type :=
| Win
| Loss
| KeyError (k : string)
| IndexError
| ValueError.

Inductive res (A : Type) : Type :=
| Ok (a : A)
| Raise (e : exit).
Arguments Ok {A} a.
Arguments Raise {A} e.

(** A method takes the object and gives back how it ended, the object as it
    left it (mutations survive an exception) and the arguments of [say] in
    the order of the calls. *)
Definition M (A : Type) : Type := t -> res A * t * list string.

Definition ret {A} (a : A) : M A := fun g => (Ok a, g, []).

Definition bind {A B} (c : M A) (k : A -> M B) : M B :=
  fun g =>
    match c g with
    | (Ok a, g1, o1) =>
        match k a g1 with
        | (r, g2, o2) => (r, g2, o1 ++ o2)
        end
    | (Raise e, g1, o1) => (Raise e, g1, o1)
    end.

Notation "x <- c ;; k" := (bind c (fun x => k))
  (at level 61, c at next level, right associativity).
Notation "c ;; k" := (bind c (fun _ => k))
  (at level 61, right associativity).

Definition raise {A} (e : exit) : M A := fun g => (Raise e, g, []).
Definition self : M t := fun g => (Ok g, g, []).
Definition modify (f : t -> t) : M unit := fun g => (Ok tt, f g, []).

(** [say(s)] *)
Definition say (s : string) : M unit := fun g => (Ok tt, g, [s]).

(** [d[k]] *)
Definition getitem {V} (d : dict V) (k : string) : M V :=
  match get d k with
  | Some v => ret v
  | None => raise (KeyError k)
  end.

(** [for a in l: body(a)] *)
Fixpoint for_each {A} (l : list A) (body : A -> M unit) : M unit :=
  match l with
  | [] => ret tt
  | a :: r => body a ;; for_each r body
  end.

(** [self.rooms[rid].<field> = ...]: the room object stored under [rid] is
    changed where it stands; [KeyError] when there is none. *)
Definition upd_room (rid : string) (f : Room.t -> Room.t) : M unit :=
  g <- self ;;
  r <- getitem (rooms g) rid ;;
  modify (fun g => set_rooms g (set (rooms g) rid (f r))).

(** [self.npcs[nid].<field> = ...] *)
Definition upd_npc (nid : string) (f : NPC.t -> NPC.t) : M unit :=
  g <- self ;;
  n <- getitem (npcs g) nid ;;
  modify (fun g => set_npcs g (set (npcs g) nid (f n))).

(** [[f(a) for a in l]] where [f] may raise. *)
Fixpoint map_m {A B} (f : A -> M B) (l : list A) : M (list B) :=
  match l with
  | [] => ret []
  | a :: r => b <- f a ;; bs <- map_m f r ;; ret (b :: bs)
  end.

(** [self.rng.choice(seq)]: [seq[_randbelow(len(seq))]], [IndexError] on an
    empty sequence. *)
Definition choice {A} (seq : list A) : M A :=
  match seq with
  | [] => raise IndexError
  | _ =>
      g <- self ;;
      let (j, r) := Rng.randbelow (length seq) (rng g) in
      modify (fun g => set_rng g r) ;;
      match nth_error seq j with
      | Some a => ret a
      | None => raise IndexError
      end
  end.

(** [pool[j] = v] for an index in range. *)
Fixpoint list_set {A} (l : list A) (j : nat) (v : A) : list A :=
  match l, j with
  | [], _ => []
  | _ :: r, O => v :: r
  | a :: r, S j' => a :: list_set r j' v
  end.

(** The loop of [random.sample] for a population of at most 21 elements:
    [j = randbelow(n-i); result[i] = pool[j]; pool[j] = pool[n-i-1]], where
    [m] is [n-i] and [k] counts the draws that remain. *)
Fixpoint sample_loop {A} (pool : list A) (m k : nat) : M (list A) :=
  match k with
  | O => ret []
  | S k' =>
      g <- self ;;
      let (j, r) := Rng.randbelow m (rng g) in
      modify (fun g => set_rng g r) ;;
      match nth_error pool j, nth_error pool (m - 1) with
      | Some a, Some b =>
          rest <- sample_loop (list_set pool j b) (m - 1) k' ;;
          ret (a :: rest)
      | _, _ => raise IndexError
      end
  end.

(** [self.rng.sample(population, k)]; [ValueError] when the sample is larger
    than the population. *)
Definition sample {A} (population : list A) (k : nat) : M (list A) :=
  if (k <=? length population)%nat
  then sample_loop population (length population) k
  else raise ValueError.

(** *** World setup *)
Definition _add_room (id name desc : string) (x y : Z)
    (items npcs : list string) : M unit :=
  modify (fun g =>
    set_rooms g (set (rooms g) id (Room.mk id name desc x y items npcs true))).

Definition _add_item (id name desc : string) (portable : bool) : M unit :=
  modify (fun g => set_items g (set (items g) id (Item.mk id name desc portable))).

Definition _add_npc (id name title room alibi truth lie : string) : M unit :=
  modify (fun g =>
    set_npcs g (set (npcs g) id (NPC.mk id name title room alibi truth lie true false))).

Definition _build_world : M unit :=
  _add_room "atrium" "Grand Atrium"
    "A vaulted hub of glass and brass. Guests murmur beneath a holographic sun."
    2 1 ["cuffs"] [] ;;
  _add_room "gala" "Gala Dome"
    "A crystal hemisphere with a view of the star. Tables abandoned mid-toast."
    2 0 ["cufflink"; "manifest"] [] ;;
  _add_room "labs" "Bio-Labs"
    "Sterile corridors and nutrient fog. Security panels blink amber."
    1 0 ["stimulant"; "overwritten_log"] [] ;;
  _add_room "hangar" "Shuttle Hangar"
    "Docked skiffs hum softly. The escape shuttle is locked behind red bars."
    4 1 ["forged_card"] [] ;;
  _add_room "command" "Command Deck"
    "Tiered consoles and a captain’s chair. The Master Console awaits."
    3 0 ["thruster_invoice"] [] ;;
  _add_room "brig" "Security Brig"
    "Energy bars and cold benches. An arrest field projector hums."
    0 1 [] [] ;;
  _add_room "gardens" "Starlight Gardens"
    "Bioluminescent vines wind around art installations."
    1 2 ["dna_fiber"] [] ;;
  _add_room "suites" "VIP Suites"
    "Private doors, hush-fields, and the perfume of old money."
    3 2 ["weapon_garrote"] [] ;;
  _add_room "service" "Service Ducts"
    "Tight passages. The station’s veins and secrets."
    4 2 ["maintenance_key"] [] ;;
  _add_room "observ" "Observatory"
    "A darkened lens toward eternity. One pane bears a smeared print."
    0 0 ["smeared_print"] [] ;;
  _add_item "cuffs" "Restraint Cuffs"
    "Security-issue restraints. Required to arrest." true ;;
  _add_item "weapon_garrote" "Monofilament Garrote"
    "A deadly, almost invisible wire." true ;;
  _add_item "forged_card" "Forged Access Card"
    "Fake credentials to restricted areas." true ;;
  _add_item "overwritten_log" "Overwritten Maint Log"
    "Someone scrubbed a schedule entry." true ;;
  _add_item "cufflink" "Bloodied Cufflink"
    "A luxury cufflink marred by blood." true ;;
  _add_item "stimulant" "Stimulant Vial"
    "Keeps one wired through the night." true ;;
  _add_item "thruster_invoice" "Thruster Fuel Invoice"
    "Large purchase to adjust trajectory." true ;;
  _add_item "manifest" "Shuttle Manifest"
    "Lists who booked hangar access windows." true ;;
  _add_item "dna_fiber" "Microscopic Fiber"
    "Matches a rare weave—if tested." true ;;
  _add_item "smeared_print" "Smeared Fingerprint"
    "Partial, odd—like gel gloves were used." true ;;
  _add_item "maintenance_key" "Maintenance Master Key"
    "Opens service panels." true ;;
  _add_item "codes_token" "Master Codes Token"
    "Decryption seed for trajectory lockout. Found only on the killer." false ;;
  _add_npc "voss" "Dr. Selene Voss" "biotech magnate" "labs"
    "Was calibrating gene arrays in Bio-Labs."
    "You can ask the lab AI—my access badge logged me in at 23:10."
    "I never left the gala. Dozens saw me." ;;
  _add_npc "rourke" "Admiral Kade Rourke" "retired fleet" "observ"
    "Consulting star charts in the Observatory."
    "An ensign pinged me there; check the telescope usage logs."
    "I was in my suite polishing medals; no one saw me." ;;
  _add_npc "chen" "Minister Lira Chen" "trade minister" "gala"
    "Negotiating a treaty in the Gala Dome."
    "Security holo shows me on the dais at 23:40."
    "Alone in prayer in the gardens; no recordings." ;;
  _add_npc "vale" "Orin Vale" "media baron" "suites"
    "Interview prep in the VIP Suites."
    "My producer ping records prove I stayed in-suite."
    "I toured the labs with permission—routine stuff." ;;
  _add_npc "das" "Prof. Mira Das" "AI ethicist" "atrium"
    "Debating sentience law by the atrium sculpture."
    "The sculpture’s mic captured the debate; timestamped."
    "I took a quiet walk in the unmonitored ducts." ;;
  _add_npc "pax" "Pax Morita" "chief engineer" "service"
    "Inspecting service ducts after an anomaly."
    "Maintenance drone #7 tagged me on route S-Delta."
    "Chatting with donors in the Dome all evening.".

Definition evidence_pool : dict (list string) :=
  [ ("voss", ["dna_fiber"; "stimulant"; "forged_card"]);
    ("rourke", ["cufflink"; "smeared_print"; "thruster_invoice"]);
    ("chen", ["manifest"; "forged_card"; "weapon_garrote"]);
    ("vale", ["cufflink"; "manifest"; "stimulant"]);
    ("das", ["overwritten_log"; "dna_fiber"; "smeared_print"]);
    ("pax", ["maintenance_key"; "overwritten_log"; "thruster_invoice"]) ].

(** [{k: v for ...}]: the pairs are inserted one after the other. *)
Definition dict_of {V} (l : list (string * V)) : dict V :=
  fold_left (fun d kv => set d (fst kv) (snd kv)) l [].

(** [self.rooms[rid].items.append(iid)] *)
Definition room_append_item (rid iid : string) : M unit :=
  upd_room rid (fun r => Room.set_items r (Room.items r ++ [iid])).

Definition _seed_case : M unit :=
  g <- self ;;
  let suspects := keys (npcs g) in
  k <- choice suspects ;;
  modify (fun g => set_killer_id g k) ;;
  ev <- map_m (fun sus =>
                 pool <- getitem evidence_pool sus ;;
                 s <- sample pool 3 ;;
                 ret (sus, s)) suspects ;;
  modify (fun g => set_killer_evidence g (dict_of ev)) ;;
  g <- self ;;
  let movable :=
    map fst (filter (fun e => Item.portable (snd e) && negb (fst e =? "codes_token"))
                    (items g)) in
  let drop_rooms :=
    filter (fun rid => negb (mem rid [brigrm g; cmdrm g])) (keys (rooms g)) in
  for_each movable (fun iid =>
    g <- self ;;
    let placed := existsb (fun r => mem iid (Room.items r)) (values (rooms g)) in
    if placed then ret tt
    else rid <- choice drop_rooms ;; room_append_item rid iid).

(** The assignments of [__init__] that come before the two setup calls. *)
Definition blank (r : Rng.t) : t :=
  mk r 60 [] [] [] "atrium" [] "" [] "brig" "command".

Definition __init__ : M unit := _build_world ;; _seed_case.

(** *** Core loop helpers *)
Definition DIRS : dict (Z * Z) :=
  [ ("n", (0, -1)%Z); ("s", (0, 1)%Z); ("e", (1, 0)%Z); ("w", (-1, 0)%Z) ].

Definition room_at_xy (g : t) (x y : Z) : option Room.t :=
  find (fun r => (Room.x r =? x)%Z && (Room.y r =? y)%Z && Room.passable r)
       (values (rooms g)).

Definition current_room : M Room.t :=
  g <- self ;; getitem (rooms g) (player_room g).

Definition spend (minutes : Z) : M unit :=
  modify (fun g => set_time g (Z.max 0 (time g - minutes))) ;;
  g <- self ;;
  if (time g =? 0)%Z
  then say (nl ++ "The station groans as safeties fail. Starhaven kisses the sun. All goes white.") ;;
       raise Loss
  else ret tt.

(** [", ".join(tbl[i].name for i in l)] before the join. *)
Definition item_names (l : list string) : M (list string) :=
  g <- self ;;
  map_m (fun i => it <- getitem (items g) i ;; ret (Item.name it)) l.

Definition npc_names (l : list string) : M (list string) :=
  g <- self ;;
  map_m (fun i => n <- getitem (npcs g) i ;; ret (NPC.name n)) l.

Definition nonempty {A} (l : list A) : bool :=
  match l with [] => false | _ => true end.

Definition is_some {A} (o : option A) : bool :=
  match o with Some _ => true | None => false end.

(** *** I/O *)
Definition look : M unit :=
  r <- current_room ;;
  say (nl ++ Room.name r ++ nl ++ Room.desc r) ;;
  (if nonempty (Room.items r)
   then ns <- item_names (Room.items r) ;; say ("Items here: " ++ join ", " ns)
   else ret tt) ;;
  (if nonempty (Room.npcs r)
   then ns <- npc_names (Room.npcs r) ;; say ("You see: " ++ join ", " ns)
   else ret tt) ;;
  g <- self ;;
  let exits :=
    map fst (filter (fun e => let '(dx, dy) := snd e in
                              is_some (room_at_xy g (Room.x r + dx) (Room.y r + dy)))
                    DIRS) in
  say (if nonempty exits then "Exits: " ++ join ", " exits else "No exits.") ;;
  spend 0.

(** [max(l)]: [ValueError] on an empty list. *)
Definition py_max (l : list Z) : M Z :=
  match l with
  | [] => raise ValueError
  | a :: r => ret (fold_left Z.max r a)
  end.

(** The position [l[i]] names: negative indices count from the end. *)
Definition index (len : nat) (i : Z) : option nat :=
  if ((0 <=? i) && (i <? Z.of_nat len))%Z then Some (Z.to_nat i)
  else if ((- Z.of_nat len <=? i) && (i <? 0))%Z then Some (Z.to_nat (Z.of_nat len + i))
  else None.

(** [grid[y][x] = v] *)
Definition grid_set (grid : list (list string)) (y x : Z) (v : string)
  : M (list (list string)) :=
  match index (length grid) y with
  | None => raise IndexError
  | Some yi =>
      match nth_error grid yi with
      | None => raise IndexError
      | Some row =>
          match index (length row) x with
          | None => raise IndexError
          | Some xi => ret (list_set grid yi (list_set row xi v))
          end
      end
  end.

Fixpoint label_rooms (rs : list Room.t) (grid : list (list string))
  : M (list (list string)) :=
  match rs with
  | [] => ret grid
  | r :: rest =>
      match split (Room.name r) with
      | [] => raise IndexError
      | w :: _ =>
          grid' <- grid_set grid (Room.y r) (Room.x r) (upper (take_prefix 3 w)) ;;
          label_rooms rest grid'
      end
  end.

Definition show_map : M unit :=
  g <- self ;;
  mx <- py_max (map Room.x (values (rooms g))) ;;
  my <- py_max (map Room.y (values (rooms g))) ;;
  let W := (mx + 1)%Z in
  let H := (my + 1)%Z in
  let grid := repeat (repeat "   " (Z.to_nat W)) (Z.to_nat H) in
  grid <- label_rooms (values (rooms g)) grid ;;
  r <- current_room ;;
  grid <- grid_set grid (Room.y r) (Room.x r) "[X]" ;;
  say (nl ++ "STARHAVEN DECK PLAN:") ;;
  for_each grid (fun row => say (join " " row)) ;;
  spend 0.

Definition show_time : M unit :=
  g <- self ;;
  say ("Time to solar impact: " ++ str_of_int (time g) ++ " minutes.") ;;
  spend 0.

Definition inv_show : M unit :=
  g <- self ;;
  (if nonempty (inv g)
   then ns <- item_names (inv g) ;; say ("You carry: " ++ join ", " ns)
   else say "You carry nothing.") ;;
  spend 0.

(** *** Actions *)

(** [[nid for nid,n in self.npcs.items() if n.room==rid and not n.arrested]] *)
Definition visible_npcs (ns : dict NPC.t) (rid : string) : list string :=
  map fst (filter (fun e => (NPC.room (snd e) =? rid) && negb (NPC.arrested (snd e))) ns).

Definition _sync_npcs_in_room : M unit :=
  g <- self ;;
  for_each (keys (rooms g)) (fun rid =>
    g <- self ;;
    upd_room rid (fun r => Room.set_npcs r (visible_npcs (npcs g) rid))).

Definition move (d : string) : M unit :=
  let d := lower d in
  match get DIRS d with
  | None => say "Use: go n/e/s/w"
  | Some (dx, dy) =>
      r <- current_room ;;
      g <- self ;;
      match room_at_xy g (Room.x r + dx) (Room.y r + dy) with
      | None => say "Access denied or bulkhead sealed."
      | Some target =>
          modify (fun g => set_player_room g (Room.id target)) ;;
          _sync_npcs_in_room ;;
          look ;;
          spend 2
      end
  end.

(** [if not iid]: [None] and the empty string both count as false. *)
Definition truthy (o : option string) : option string :=
  match o with
  | Some s => if (s =? "") then None else Some s
  | None => None
  end.

(** [for i in coll: if self.items[i].name.lower()==name or i==name: iid = i; break] *)
Fixpoint find_item (tbl : dict Item.t) (name : string) (coll : list string)
  : M (option string) :=
  match coll with
  | [] => ret None
  | i :: r =>
      it <- getitem tbl i ;;
      if (lower (Item.name it) =? name) || (i =? name) then ret (Some i)
      else find_item tbl name r
  end.

(** [for nid in coll: n = self.npcs[nid]; if n.name.lower()==who or nid==who: ...; break] *)
Fixpoint find_npc (tbl : dict NPC.t) (who : string) (coll : list string)
  : M (option string) :=
  match coll with
  | [] => ret None
  | nid :: r =>
      n <- getitem tbl nid ;;
      if (lower (NPC.name n) =? who) || (nid =? who) then ret (Some nid)
      else find_npc tbl who r
  end.

(** [l.remove(x)] inside a method. *)
Definition list_remove (x : string) (l : list string) : M (list string) :=
  match remove x l with
  | Some l' => ret l'
  | None => raise ValueError
  end.

(** [self.current_room().items = l], the list object of the room the player
    stands in. *)
Definition set_current_items (l : list string) : M unit :=
  g <- self ;;
  upd_room (player_room g) (fun r => Room.set_items r l).

Definition take (args : list string) : M unit :=
  match args with
  | [] => say "Take what?"
  | _ =>
      let name := lower (join " " args) in
      r <- current_room ;;
      g <- self ;;
      iid <- find_item (items g) name (Room.items r) ;;
      match truthy iid with
      | None => say "Not here."
      | Some iid =>
          it <- getitem (items g) iid ;;
          if negb (Item.portable it) then say "It’s fixed in place."
          else
            l <- list_remove iid (Room.items r) ;;
            set_current_items l ;;
            modify (fun g => set_inv g (inv g ++ [iid])) ;;
            say ("You take the " ++ Item.name it ++ ".") ;;
            spend 1
      end
  end.

Definition drop (args : list string) : M unit :=
  match args with
  | [] => say "Drop what?"
  | _ =>
      let name := lower (join " " args) in
      g <- self ;;
      iid <- find_item (items g) name (inv g) ;;
      match truthy iid with
      | None => say "You don’t have that."
      | Some iid =>
          l <- list_remove iid (inv g) ;;
          modify (fun g => set_inv g l) ;;
          r <- current_room ;;
          set_current_items (Room.items r ++ [iid]) ;;
          it <- getitem (items g) iid ;;
          say ("You drop the " ++ Item.name it ++ ".") ;;
          spend 1
      end
  end.

Definition inspect (args : list string) : M unit :=
  match args with
  | [] => say "Inspect what?"
  | _ =>
      let name := lower (join " " args) in
      r <- current_room ;;
      g <- self ;;
      let pool := inv g ++ Room.items r in
      found <- find_item (items g) name pool ;;
      match found with
      | Some i =>
          it <- getitem (items g) i ;;
          ev <- getitem (killer_evidence g) (killer_id g) ;;
          let detail : string :=
            (if mem i ev
             then Item.desc it ++ " (Something about this ties uncomfortably close to the killer.)"
             else Item.desc it)%string in
          say detail ;;
          spend 1
      | None =>
          person <- find_npc (npcs g) name (Room.npcs r) ;;
          match person with
          | Some nid =>
              n <- getitem (npcs g) nid ;;
              say (NPC.name n ++ ", " ++ NPC.title n ++ ". "
                   ++ (if NPC.cooperative n then "Calm" else "Guarded") ++ ".") ;;
              spend 1
          | None => say "You find nothing notable."
          end
      end
  end.

Definition talk (args : list string) : M unit :=
  match args with
  | [] => say "Talk to whom?"
  | _ =>
      let who := lower (join " " args) in
      r <- current_room ;;
      g <- self ;;
      target <- find_npc (npcs g) who (Room.npcs r) ;;
      match truthy target with
      | None => say "They aren’t here."
      | Some target_id =>
          n <- getitem (npcs g) target_id ;;
          let guilty := (target_id =? killer_id g) in
          let line := if guilty then NPC.lie_when_guilty n else NPC.truth_when_innocent n in
          say (NPC.name n ++ ": " ++ dq ++ line ++ dq) ;;
          (if guilty then ret tt
           else
             let (b, r') := Rng.random_lt_quarter (rng g) in
             modify (fun g => set_rng g r') ;;
             if b
             then upd_npc target_id (fun n => NPC.set_cooperative n true)
             else ret tt) ;;
          spend 2
      end
  end.

Definition accuse (args : list string) : M unit :=
  match args with
  | [] => say "Accuse whom?"
  | _ =>
      let who := lower (join " " args) in
      g <- self ;;
      let matches :=
        map fst (filter (fun e => lower (NPC.name (snd e)) =? who) (npcs g)) in
      let resolved :=
        if mem who (keys (npcs g)) then Some who
        else match matches with
             | [] => None
             | m :: _ => Some m
             end in
      match resolved with
      | None => say "Not a listed guest."
      | Some who =>
          let guilty := (who =? killer_id g) in
          tips <- getitem (killer_evidence g) (killer_id g) ;;
          n <- getitem (npcs g) who ;;
          say ("You lay out your case against " ++ NPC.name n ++ ".") ;;
          (if guilty
           then say "They blanch. A vein ticks. The room chills." ;;
                ns <- item_names tips ;;
                say ("Key tells: " ++ join ", " ns ++ ".")
           else say "They sneer. Those 'clues' don’t hold up. Doubt creeps in.") ;;
          spend 3
      end
  end.

Definition arrest (args : list string) : M unit :=
  match args with
  | [] => say "Arrest whom?"
  | _ =>
      let who := lower (join " " args) in
      g <- self ;;
      if negb (mem "cuffs" (inv g)) then say "You need Restraint Cuffs to arrest."
      else
        r <- current_room ;;
        target <- find_npc (npcs g) who (Room.npcs r) ;;
        match truthy target with
        | None => say "They aren’t here."
        | Some target_id =>
            n <- getitem (npcs g) target_id ;;
            if NPC.arrested n then say "Already restrained."
            else
              upd_npc target_id
                (fun n => NPC.set_room (NPC.set_arrested n true) (brigrm g)) ;;
              _sync_npcs_in_room ;;
              (if (target_id =? killer_id g)
               then
                 g <- self ;;
                 brig <- getitem (rooms g) (brigrm g) ;;
                 if negb (mem "codes_token" (Room.items brig))
                 then room_append_item (brigrm g) "codes_token"
                 else ret tt
               else ret tt) ;;
              say ("You restrain " ++ NPC.name n
                   ++ ". Security drones escort them to the Brig.") ;;
              spend 3
        end
  end.

Definition use_console : M unit :=
  g <- self ;;
  if negb (player_room g =? cmdrm g)
  then say "You must be at the Master Console on the Command Deck."
  else
    killer <- getitem (npcs g) (killer_id g) ;;
    let kname := NPC.name killer in
    brig <- getitem (rooms g) (brigrm g) ;;
    let codes_here := mem "codes_token" (Room.items brig) in
    if codes_here
    then
      say "You splice in the Master Codes Token from the Brig. The lockout shudders…" ;;
      say "Trajectory control restored. Starhaven veers away from the sun." ;;
      say ("The killer was " ++ kname ++ ". Justice will follow.") ;;
      say (nl ++ "YOU WIN.") ;;
      raise Win
    else
      say "Console flashes: 'DECRYPTION SEED REQUIRED — (ARREST PERPETRATOR)'." ;;
      (if existsb NPC.arrested (values (npcs g))
       then say "Someone is in the Brig… but the console rejects their credentials." ;;
            say "If you grabbed the wrong person, time is running out."
       else ret tt) ;;
      spend 1.

(** *** Persistence *)

(** The dictionary [save] builds and dumps. *)
Definition save_data (g : t) : Save.data :=
  Save.mk (time g) (player_room g) (inv g)
    (dict_of (map (fun e => (fst e, Save.RoomEntry.mk (Room.items (snd e))
                                                      (Room.npcs (snd e))))
                  (rooms g)))
    (dict_of (map (fun e => (fst e, Save.NpcEntry.mk (NPC.room (snd e))
                                                     (NPC.arrested (snd e))
                                                     (NPC.cooperative (snd e))))
                  (npcs g)))
    (killer_id g) (killer_evidence g).

(** [save()]: the value returned is what the file holds afterwards. *)
Definition save : M Save.data :=
  g <- self ;;
  let data := save_data g in
  say "Saved." ;;
  ret data.

(** [load()] on a disk where the save file is absent ([None]) or holds
    [data]. *)
Definition load (file : option Save.data) : M unit :=
  match file with
  | None => say "No save found."
  | Some data =>
      modify (fun g => set_time g (Save.time data)) ;;
      modify (fun g => set_player_room g (Save.player_room data)) ;;
      modify (fun g => set_inv g (Save.inv data)) ;;
      for_each (Save.rooms data) (fun e =>
        let (rid, stuff) := e in
        upd_room rid (fun r =>
          Room.set_npcs (Room.set_items r (Save.RoomEntry.items stuff))
                        (Save.RoomEntry.npcs stuff))) ;;
      for_each (Save.npcs data) (fun e =>
        let (nid, stuff) := e in
        upd_npc nid (fun n =>
          NPC.set_cooperative
            (NPC.set_arrested (NPC.set_room n (Save.NpcEntry.room stuff))
                              (Save.NpcEntry.arrested stuff))
            (Save.NpcEntry.coop stuff))) ;;
      modify (fun g => set_killer_id g (Save.killer data)) ;;
      modify (fun g => set_killer_evidence g (Save.killer_evidence data)) ;;
      say "Loaded."
  end.

(** *** Parser *)

(** How one pass through the body of the [while] loop leaves it: [break],
    [continue], or by reaching the reminder at its end. *)
Inductive ctl : Type := Break | Skip | Fall.

Definition disk : Type := option Save.data.

(** The [if]/[elif] chain of [run]. *)
Definition command (cmd : string) (args : list string) (d : disk) : M (ctl * disk) :=
  if mem cmd ["quit"; "exit"] then say "Goodbye." ;; ret (Break, d)
  else if (cmd =? "help") then
    say "Commands: help, look, map, go n/e/s/w, take [item], drop [item], inv, inspect [thing]," ;;
    say "          talk [name], accuse [name], arrest [name], use console, time, save, load, quit" ;;
    ret (Fall, d)
  else if (cmd =? "look") then look ;; ret (Fall, d)
  else if (cmd =? "map") then show_map ;; ret (Fall, d)
  else if (cmd =? "time") then show_time ;; ret (Fall, d)
  else if mem cmd ["go"; "move"] then
    match args with
    | [] => say "Go where? n/e/s/w" ;; ret (Skip, d)
    | a :: _ => move a ;; ret (Fall, d)
    end
  else if (cmd =? "take") then take args ;; ret (Fall, d)
  else if (cmd =? "drop") then drop args ;; ret (Fall, d)
  else if mem cmd ["inv"; "inventory"] then inv_show ;; ret (Fall, d)
  else if (cmd =? "inspect") then inspect args ;; ret (Fall, d)
  else if (cmd =? "talk") then talk args ;; ret (Fall, d)
  else if (cmd =? "accuse") then accuse args ;; ret (Fall, d)
  else if (cmd =? "arrest") then arrest args ;; ret (Fall, d)
  else if (cmd =? "use")
          && match args with a :: _ => (lower a =? "console") | [] => false end
  then use_console ;; ret (Fall, d)
  else if (cmd =? "save") then data <- save ;; ret (Fall, Some data)
  else if (cmd =? "load") then load d ;; ret (Fall, d)
  else say "Unrecognized. Try 'help'." ;; ret (Fall, d).

(** The soft reminder that closes the loop body. *)
Definition reminder : M unit :=
  g <- self ;;
  if ((time g <=? 15) && (0 <? time g))%Z
  then say ("(Alarms intensify: " ++ str_of_int (time g) ++ " minutes left.)")
  else ret tt.

(** One pass through the loop body on the line [input] returned; the boolean
    tells whether the loop goes on to read another line. *)
Definition step (line : string) (d : disk) : M (bool * disk) :=
  let cmdline := strip line in
  if (cmdline =? "") then ret (true, d)
  else
    match split cmdline with
    | [] => raise IndexError
    | p :: args =>
        r <- command (lower p) args d ;;
        match fst r with
        | Break => ret (false, snd r)
        | Skip => ret (true, snd r)
        | Fall => reminder ;; ret (true, snd r)
        end
    end.

(** The [while True] loop on the lines the player types; when they run out
    [input] raises [EOFError]. *)
Fixpoint loop (lines : list string) (d : disk) : M disk :=
  match lines with
  | [] => say (nl ++ "Goodbye.") ;; ret d
  | l :: rest =>
      r <- step l d ;;
      if fst r then loop rest (snd r) else ret (snd r)
  end.

Definition run (lines : list string) (d : disk) : M disk :=
  say "Welcome to STARHAVEN. Type 'help' for commands." ;;
  look ;;
  loop lines d.

(** [game = Game(); game.run()] with the generator [r], the typed lines and
    the disk as found. *)
Definition main (r : Rng.t) (lines : list string) (d : disk)
  : res disk * t * list string :=
  (__init__ ;; run lines d) (blank r).

End Game.

(** ** The number-guessing script, [guess_the_number.py]

    The script reads its guesses with [int(input(...))]: each read gives an
    integer, or raises [ValueError] on a text [int] rejects, or [EOFError]
    when the input has ended. The typed input is the list of these reads,
    [None] standing for a rejected text; neither exception is caught. As in
    the game, the output is the list of the arguments of [print]; the
    prompts of [input] are left out. *)
Module Guess.

(** [random.randint(a, b)]: [a + _randbelow(b - a + 1)]. *)
Definition randint (a b : Z) (r : Rng.t) : Z * Rng.t :=
  let (j, r') := Rng.randbelow (Z.to_nat (b - a + 1)) r in
  ((a + Z.of_nat j)%Z, r').

(** How the script ends: the loop is left after the right guess, or one of
    the two exceptions leaves it. *)
Inductive ending : Type :=
| Guessed
| ValueError
| EOFError.

(** The [while not guessed] loop with the guesses made so far. *)
Fixpoint loop (number_to_guess number_of_guesses : Z) (inputs : list (option Z))
  : ending * list string :=
  match inputs with
  | [] => (EOFError, [])
  | None :: _ => (ValueError, [])
  | Some guess :: rest =>
      let number_of_guesses := (number_of_guesses + 1)%Z in
      if (guess <? number_to_guess)%Z then
        let (e, o) := loop number_to_guess number_of_guesses rest in
        (e, "Too low!" :: o)
      else if (guess >? number_to_guess)%Z then
        let (e, o) := loop number_to_guess number_of_guesses rest in
        (e, "Too high!" :: o)
      else
        (Guessed,
         [("Congratulations! You've guessed the number "
           ++ Py.str_of_int number_to_guess ++ " in "
           ++ Py.str_of_int number_of_guesses ++ " guesses!")%string])
  end.

Definition guess_the_number (r : Rng.t) (inputs : list (option Z))
  : ending * list string :=
  let (number_to_guess, _) := randint 1 100 r in
  let (e, o) := loop number_to_guess 0 inputs in
  (e, "Welcome to Guess the Number!" :: o).

End Guess.


(** ** Vocabulary of the properties *)

(** The three components of what a method returns. *)
Definition result {A} (x : Game.res A * Game.t * list string) : Game.res A := fst (fst x).
Definition state {A} (x : Game.res A * Game.t * list string) : Game.t := snd (fst x).
Definition output {A} (x : Game.res A * Game.t * list string) : list string := snd x.

(** What a method printed before, put in front of what the rest prints. *)
Definition prepend {A} (o : list string) (x : Game.res A * Game.t * list string)
  : Game.res A * Game.t * list string :=
  let '(r, g, o') := x in (r, g, o ++ o').

(** Everything [main] does before it reads the first line. *)
Definition boot : Game.M unit :=
  Game.bind Game.__init__ (fun _ =>
  Game.bind (Game.say "Welcome to STARHAVEN. Type 'help' for commands.") (fun _ =>
  Game.look)).

(** The tables [_build_world] leaves behind. *)
Definition built : Game.t :=
  state (Game._build_world (Game.blank (Rng.mk 0 (fun _ => 0%nat)))).
Definition world_rooms : Py.dict Room.t := Eval vm_compute in Game.rooms built.
Definition world_items : Py.dict Item.t := Eval vm_compute in Game.items built.
Definition world_npcs : Py.dict NPC.t := Eval vm_compute in Game.npcs built.

(** The fields of a room and of an NPC that no method assigns. *)
Definition room_static (r : Room.t) : Room.t :=
  Room.set_npcs (Room.set_items r []) [].
Definition npc_static (n : NPC.t) : NPC.t :=
  NPC.set_cooperative (NPC.set_arrested (NPC.set_room n "") false) true.
Definition statics {V} (f : V -> V) (d : Py.dict V) : Py.dict V :=
  map (fun e => (fst e, f (snd e))) d.

Definition static_ok (g : Game.t) : Prop :=
  statics room_static (Game.rooms g) = statics room_static world_rooms
  /\ Game.items g = world_items
  /\ statics npc_static (Game.npcs g) = statics npc_static world_npcs
  /\ Game.brigrm g = "brig"
  /\ Game.cmdrm g = "command".

(** Every item identifier of every room, in the order of the rooms. *)
Definition all_items (g : Game.t) : list string :=
  flat_map Room.items (Py.values (Game.rooms g)).

Definition known {V} (d : Py.dict V) (l : list string) : Prop :=
  Forall (fun k => Py.get d k <> None) l.

(** Every identifier the state mentions names an entry of its table. *)
Definition ids_ok (g : Game.t) : Prop :=
  (forall rid r, Py.get (Game.rooms g) rid = Some r ->
     known (Game.items g) (Room.items r) /\ known (Game.npcs g) (Room.npcs r))
  /\ known (Game.items g) (Game.inv g)
  /\ Py.get (Game.rooms g) (Game.player_room g) <> None
  /\ Py.get (Game.npcs g) (Game.killer_id g) <> None.

(** [nid] carries the arrested flag. *)
Definition is_arrested (g : Game.t) (nid : string) : Prop :=
  exists n, Py.get (Game.npcs g) nid = Some n /\ NPC.arrested n = true.

(** No room lists an NPC whose arrested flag is set. *)
Definition arrested_hidden (g : Game.t) : Prop :=
  forall rid r nid, Py.get (Game.rooms g) rid = Some r ->
    In nid (Room.npcs r) -> ~ is_arrested g nid.

Definition token_in_brig (g : Game.t) : Prop :=
  exists brig, Py.get (Game.rooms g) (Game.brigrm g) = Some brig
               /\ In "codes_token" (Room.items brig).

(** The token is in the detention room exactly when the culprit is
    arrested, and it is nowhere else. *)
Definition token_ok (g : Game.t) : Prop :=
  (is_arrested g (Game.killer_id g) <-> token_in_brig g)
  /\ ~ In "codes_token" (Game.inv g)
  /\ (forall rid r, Py.get (Game.rooms g) rid = Some r ->
        In "codes_token" (Room.items r) -> rid = Game.brigrm g).

(** What holds of the game object whenever the loop is at its prompt. *)
Record Inv (g : Game.t) : Prop := mkInv {
  inv_static : static_ok g;
  inv_time : (0 < Game.time g)%Z;
  inv_ids : ids_ok g;
  inv_hidden : arrested_hidden g;
  inv_token : token_ok g;
  inv_nodup : NoDup (Game.inv g ++ all_items g);
  inv_evidence : Py.get (Game.killer_evidence g) (Game.killer_id g) <> None
}.

(** The save file is absent or holds what [save] wrote at a prompt. *)
Definition disk_ok (d : Game.disk) : Prop :=
  match d with
  | None => True
  | Some data => exists g0, Inv g0 /\ data = Game.save_data g0
  end.

(** The states in which the loop reads a line, paired with the content of the
    save file: a run starts on a disk without a save file or on the disk some
    earlier run left, and goes from prompt to prompt by [step]. *)
Inductive reachable : Game.t -> Game.disk -> Prop :=
| reach_fresh : forall r g o,
    boot (Game.blank r) = (Game.Ok tt, g, o) ->
    reachable g None
| reach_again : forall r g o g0 d0,
    reachable g0 d0 ->
    boot (Game.blank r) = (Game.Ok tt, g, o) ->
    reachable g d0
| reach_step : forall g d line g' d' o,
    reachable g d ->
    Game.step line d g = (Game.Ok (true, d'), g', o) ->
    reachable g' d'.

(** The state a list of typed lines leads to from a fresh start, when none
    of them ends the game. *)
Fixpoint play (lines : list string) (d : Game.disk) (g : Game.t)
  : option (Game.t * Game.disk) :=
  match lines with
  | [] => Some (g, d)
  | l :: rest =>
      match Game.step l d g with
      | (Game.Ok (true, d'), g', _) => play rest d' g'
      | _ => None
      end
  end.

(** The line asks for [load]. *)
Definition is_load (line : string) : bool :=
  match Py.split (Py.strip line) with
  | p :: _ => (Py.lower p =? "load")
  | [] => false
  end.

Definition start (r : Rng.t) : option Game.t :=
  match boot (Game.blank r) with
  | (Game.Ok _, g, _) => Some g
  | _ => None
  end.

(** [keeps ok_only R c]: the object [c] leaves is related by [R] to the one it
    found; with [ok_only = false] however [c] ends, with [ok_only = true] in
    the runs that return. *)
Definition is_ok {A} (r : Game.res A) : bool :=
  match r with Game.Ok _ => true | Game.Raise _ => false end.

Definition keeps (ok_only : bool) (R : Game.t -> Game.t -> Prop) {A}
    (c : Game.M A) : Prop :=
  forall g, (ok_only = true -> is_ok (result (c g)) = true) -> R g (state (c g)).

(** What no method but [load] disturbs: the culprit, the evidence, the
    authored tables, and a timer that only runs down. *)
Definition steady (g g' : Game.t) : Prop :=
  Game.killer_id g' = Game.killer_id g
  /\ Game.killer_evidence g' = Game.killer_evidence g
  /\ ((0 <= Game.time g)%Z -> (0 <= Game.time g' <= Game.time g)%Z)
  /\ statics room_static (Game.rooms g') = statics room_static (Game.rooms g)
  /\ Game.items g' = Game.items g
  /\ statics npc_static (Game.npcs g') = statics npc_static (Game.npcs g)
  /\ Game.brigrm g' = Game.brigrm g
  /\ Game.cmdrm g' = Game.cmdrm g.

(** What the methods that only report leave alone: rooms, inventory and
    position, and of the NPCs everything but the cooperative flag. *)
Definition coop_erased (n : NPC.t) : NPC.t := NPC.set_cooperative n true.

Definition quiet (g g' : Game.t) : Prop :=
  Game.rooms g' = Game.rooms g
  /\ Game.inv g' = Game.inv g
  /\ Game.player_room g' = Game.player_room g
  /\ statics coop_erased (Game.npcs g') = statics coop_erased (Game.npcs g).

(** A method that returns leaves a positive timer positive. *)
Definition alive (g g' : Game.t) : Prop :=
  (0 < Game.time g)%Z -> (0 < Game.time g')%Z.

(** The two relations above together. *)
Definition calm (g g' : Game.t) : Prop := quiet g g' /\ steady g g'.

(** The test of the search loops, as a function of the identifier. *)
Definition item_matches (tbl : Py.dict Item.t) (name i : string) : bool :=
  match Py.get tbl i with
  | Some it => (Py.lower (Item.name it) =? name) || (i =? name)
  | None => false
  end.

Definition npc_matches (tbl : Py.dict NPC.t) (who nid : string) : bool :=
  match Py.get tbl nid with
  | Some n => (Py.lower (NPC.name n) =? who) || (nid =? who)
  | None => false
  end.

(** The room table once [_sync_npcs_in_room] has gone through it. *)
Definition sync_rooms (ns : Py.dict NPC.t) (rs : Py.dict Room.t) : Py.dict Room.t :=
  map (fun e => (fst e, Room.set_npcs (snd e) (Game.visible_npcs ns (fst e)))) rs.

(** The object after [_sync_npcs_in_room], after a successful [take] of
    [iid] that leaves [l] in the room [r], and after a successful [drop] of
    [iid] that leaves [l] in the inventory. *)
Definition after_sync (g : Game.t) : Game.t :=
  Game.set_rooms g (sync_rooms (Game.npcs g) (Game.rooms g)).

Definition after_take (g : Game.t) (r : Room.t) (l : list string) (iid : string)
  : Game.t :=
  Game.set_inv
    (Game.set_rooms g (Py.set (Game.rooms g) (Game.player_room g)
                              (Room.set_items r l)))
    (Game.inv g ++ [iid]).

Definition after_drop (g : Game.t) (r : Room.t) (l : list string) (iid : string)
  : Game.t :=
  Game.set_rooms (Game.set_inv g l)
    (Py.set (Game.rooms g) (Game.player_room g)
            (Room.set_items r (Room.items r ++ [iid]))).

(** The object once [arrest] has set the flag of [tid], moved them and
    recomputed the room lists; and once the token is added to the room
    object [brig]. *)
Definition cuffed (g : Game.t) (tid : string) (n : NPC.t) : Game.t :=
  after_sync
    (Game.set_npcs g
       (Py.set (Game.npcs g) tid
               (NPC.set_room (NPC.set_arrested n true) (Game.brigrm g)))).

Definition with_token (g : Game.t) (brig : Room.t) : Game.t :=
  Game.set_rooms g
    (Py.set (Game.rooms g) (Game.brigrm g)
            (Room.set_items brig (Room.items brig ++ ["codes_token"]))).

(** The lines [use_console] prints on a win and on a rejection. *)
Definition victory_text (kname : string) : list string :=
  [ "You splice in the Master Codes Token from the Brig. The lockout shudders…";
    "Trajectory control restored. Starhaven veers away from the sun.";
    ("The killer was " ++ kname ++ ". Justice will follow.")%string;
    (Py.nl ++ "YOU WIN.")%string ].

Definition rejection_text (someone_arrested : bool) : list string :=
  "Console flashes: 'DECRYPTION SEED REQUIRED — (ARREST PERPETRATOR)'."
  :: (if someone_arrested
      then [ "Someone is in the Brig… but the console rejects their credentials.";
             "If you grabbed the wrong person, time is running out." ]
      else []).

(** A method that returns keeps the invariant of the prompt. *)
Definition InvR (g g' : Game.t) : Prop := Inv g -> Inv g'.

(** The object [_build_world] leaves, and the one [__init__] leaves when
    the culprit drawn is [k] and the evidence drawn is [ev]. *)
Definition fresh_world (r : Rng.t) : Game.t :=
  Game.mk r 60 world_rooms world_items world_npcs "atrium" [] "" [] "brig" "command".

Definition opening (r : Rng.t) (k : string) (ev : Py.dict (list string)) : Game.t :=
  Game.mk r 60 world_rooms world_items world_npcs "atrium" [] k ev "brig" "command".

(** The evidence of [sus] is three distinct items of the pool of [sus]. *)
Definition evidence_of (ev : Py.dict (list string)) (sus : string) : Prop :=
  exists pool s,
    Py.get Game.evidence_pool sus = Some pool
    /\ Py.get ev sus = Some s
    /\ length s = 3%nat /\ NoDup s /\ (forall x, In x s -> In x pool).

Definition room_entry (e : string * Room.t) : string * Save.RoomEntry.t :=
  (fst e, Save.RoomEntry.mk (Room.items (snd e)) (Room.npcs (snd e))).

Definition npc_entry (e : string * NPC.t) : string * Save.NpcEntry.t :=
  (fst e, Save.NpcEntry.mk (NPC.room (snd e)) (NPC.arrested (snd e))
                           (NPC.cooperative (snd e))).

(** A method that starts from sound tables and a timer that has not run
    out leaves them so. *)
Definition sane (g : Game.t) : Prop := static_ok g /\ (0 <= Game.time g)%Z.
Definition saneR (g g' : Game.t) : Prop := sane g -> sane g'.

(** *** Sample runs

    A generator whose n-th number is n (the culprit it draws is the first
    suspect), and the game it gives after some typed lines. *)
Definition demo_rng : Rng.t := Rng.mk 0 (fun n => n).

Definition after (lines : list string) : option (Game.t * Game.disk) :=
  match start demo_rng with
  | Some g => play lines None g
  | None => None
  end.

Definition state_after (lines : list string) : Game.t :=
  match after lines with
  | Some (g, _) => g
  | None => Game.blank demo_rng
  end.

(** In the Gala Dome with the cuffs, Minister Chen in sight. *)
Definition at_gala : Game.t := Eval vm_compute in state_after ["take cuffs"; "go n"].

(** On the Command Deck with one minute left and nobody arrested. *)
Definition at_last_minute : Game.t :=
  Eval vm_compute in
    state_after (["go n"; "go e"; "take thruster_invoice"] ++ repeat "accuse das" 18).

(** The text [spend] prints when the timer runs out. *)
Definition loss_text : string :=
  (Py.nl ++ "The station groans as safeties fail. Starhaven kisses the sun. All goes white.")%string.

(** On the Command Deck after the culprit of the sample run, Dr. Voss, was
    arrested in the Bio-Labs. *)
Definition at_console : Game.t :=
  Eval vm_compute in
    state_after ["take cuffs"; "go n"; "go w"; "arrest voss"; "go e"; "go e"].

(** The two strings under which the search loops find an item, and an
    NPC. *)
Definition item_keys (e : string * Item.t) : list string :=
  [Py.lower (Item.name (snd e)); fst e].

Definition npc_keys (e : string * NPC.t) : list string :=
  [Py.lower (NPC.name (snd e)); fst e].

(** In the Gala Dome before anything was taken. *)
Definition at_gala_empty_handed : Game.t := Eval vm_compute in state_after ["go n"].

(** *** Name resolution, in the words of the specification

    A name stands for an item when it equals, case ignored, the display name
    of the item or its identifier; it resolves in a collection to the first
    identifier there it stands for. *)
Definition same_ignoring_case (a b : string) : bool :=
  (Py.lower a =? Py.lower b).

Definition names_item (tbl : Py.dict Item.t) (input i : string) : bool :=
  match Py.get tbl i with
  | Some it => same_ignoring_case input (Item.name it) || same_ignoring_case input i
  | None => false
  end.

Definition resolve (tbl : Py.dict Item.t) (input : string) (collection : list string)
  : option string :=
  find (names_item tbl input) collection.

(** What [inspect] prints for an item and for an NPC. *)
Definition item_detail (it : Item.t) (i : string) (ev : list string) : string :=
  (if Py.mem i ev
   then Item.desc it ++ " (Something about this ties uncomfortably close to the killer.)"
   else Item.desc it)%string.

Definition npc_detail (n : NPC.t) : string :=
  (NPC.name n ++ ", " ++ NPC.title n ++ ". "
   ++ (if NPC.cooperative n then "Calm" else "Guarded") ++ ".")%string.

(** In the Grand Atrium, the cuffs just taken. *)
Definition at_atrium_with_cuffs : Game.t := Eval vm_compute in state_after ["take cuffs"].

(** Whoever carries the arrested flag before still carries it after. *)
Definition still_arrested (g g' : Game.t) : Prop :=
  forall nid, is_arrested g nid -> is_arrested g' nid.

(** Minister Chen arrested in the Gala Dome and the cuffs dropped there; and
    the same arrest undone by loading the record saved just before it. *)
Definition at_gala_cuffs_dropped : Game.t :=
  Eval vm_compute in
    state_after ["take cuffs"; "go n"; "arrest chen"; "drop cuffs"].

Definition at_gala_reloaded : Game.t :=
  Eval vm_compute in
    state_after ["take cuffs"; "go n"; "save"; "arrest chen"; "load"].

(** ** Vocabulary of the further properties *)

(** The rooms a chain of moves from the atrium can lead through, and the two
    NPCs that stand in rooms outside that chain. *)
Definition walkable : list string :=
  ["atrium"; "gala"; "labs"; "command"; "brig"; "observ"].

Definition cut_off : list string := ["vale"; "pax"].

(** The room an NPC is authored into. *)
Definition home (nid : string) : option string :=
  option_map NPC.room (Py.get world_npcs nid).

(** The identifiers of the items that can be carried. *)
Definition portable_ids : list string :=
  Eval vm_compute in
    map fst (filter (fun e => Item.portable (snd e)) world_items).

(** More of what holds at every prompt. *)
Record Inv2 (g : Game.t) : Prop := mkInv2 {
  i2_room : In (Game.player_room g) walkable;
  i2_lists : forall rid r nid,
      Py.get (Game.rooms g) rid = Some r -> In nid (Room.npcs r) ->
      exists n, Py.get (Game.npcs g) nid = Some n /\ NPC.room n = rid;
  i2_home : forall nid n,
      Py.get (Game.npcs g) nid = Some n -> NPC.arrested n = false ->
      home nid = Some (NPC.room n);
  i2_jail : forall nid n,
      Py.get (Game.npcs g) nid = Some n -> NPC.arrested n = true ->
      NPC.room n = Game.brigrm g;
  i2_out : forall nid, In nid cut_off -> ~ is_arrested g nid;
  i2_coop : forall nid n,
      Py.get (Game.npcs g) nid = Some n -> NPC.cooperative n = true;
  i2_stock : forall i, In i portable_ids -> In i (Game.inv g ++ all_items g);
  i2_far : forall rid r,
      Py.get (Game.rooms g) rid = Some r -> ~ In rid walkable ->
      exists rw, Py.get world_rooms rid = Some rw /\ Room.items r = Room.items rw;
  i2_evidence : forall ev,
      Py.get (Game.killer_evidence g) (Game.killer_id g) = Some ev ->
      known world_items ev
}.

Definition Full (g : Game.t) : Prop := Inv g /\ Inv2 g.
Definition FullR (g g' : Game.t) : Prop := Full g -> Full g'.

Definition disk_full (d : Game.disk) : Prop :=
  match d with
  | None => True
  | Some data => exists g0, Full g0 /\ data = Game.save_data g0
  end.

(** The test of the branch of [command] that calls [use_console]. *)
Definition is_use_console (cmd : string) (args : list string) : bool :=
  (cmd =? "use")
  && match args with a :: _ => (Py.lower a =? "console") | [] => false end.

(** The names [look], [inv_show] and [accuse] join. *)
Definition item_name_of (g : Game.t) (i : string) : string :=
  match Py.get (Game.items g) i with
  | Some it => Item.name it
  | None => ""
  end.

Definition npc_name_of (g : Game.t) (nid : string) : string :=
  match Py.get (Game.npcs g) nid with
  | Some n => NPC.name n
  | None => ""
  end.

(** The directions [look] lists for the room [r]. *)
Definition exits_of (g : Game.t) (r : Room.t) : list string :=
  map fst (filter (fun e => let '(dx, dy) := snd e in
                            Game.is_some (Game.room_at_xy g (Room.x r + dx) (Room.y r + dy)))
                  Game.DIRS).

(** What [look] prints in the room [r]. *)
Definition look_text (g : Game.t) (r : Room.t) : list string :=
  [(Py.nl ++ Room.name r ++ Py.nl ++ Room.desc r)%string]
  ++ (if Game.nonempty (Room.items r)
      then [("Items here: " ++ Py.join ", " (map (item_name_of g) (Room.items r)))%string]
      else [])
  ++ (if Game.nonempty (Room.npcs r)
      then [("You see: " ++ Py.join ", " (map (npc_name_of g) (Room.npcs r)))%string]
      else [])
  ++ [if Game.nonempty (exits_of g r)
      then ("Exits: " ++ Py.join ", " (exits_of g r))%string
      else "No exits."].

(** The grid of [show_map] once every authored room has its label. *)
Definition deck_labels : list (list string) :=
  Eval vm_compute in
    match Game.label_rooms (Py.values world_rooms) (repeat (repeat "   " 5) 3)
                           (Game.blank (Rng.mk 0 (fun _ => 0%nat))) with
    | (Game.Ok grid, _, _) => grid
    | _ => []
    end.

(** What [show_map] prints when the player is in the cell [(x, y)]. *)
Definition deck_plan (x y : Z) : list string :=
  (Py.nl ++ "STARHAVEN DECK PLAN:")%string
  :: map (Py.join " ")
         (Game.list_set deck_labels (Z.to_nat y)
            (Game.list_set (nth (Z.to_nat y) deck_labels []) (Z.to_nat x) "[X]")).

(** What [inv_show] prints. *)
Definition inv_text (g : Game.t) : string :=
  if Game.nonempty (Game.inv g)
  then ("You carry: " ++ Py.join ", " (map (item_name_of g) (Game.inv g)))%string
  else "You carry nothing.".

(** What an NPC says when talked to. *)
Definition talk_line (g : Game.t) (nid : string) (n : NPC.t) : string :=
  (NPC.name n ++ ": " ++ Py.dq
   ++ (if (nid =? Game.killer_id g) then NPC.lie_when_guilty n
       else NPC.truth_when_innocent n)
   ++ Py.dq)%string.

(** Whom [accuse] takes a name for: the NPC with that identifier, else the
    first NPC with that display name. *)
Definition accused (g : Game.t) (who : string) : option string :=
  if Py.mem who (Py.keys (Game.npcs g)) then Some who
  else match map fst (filter (fun e => Py.lower (NPC.name (snd e)) =? who)
                             (Game.npcs g)) with
       | [] => None
       | m :: _ => Some m
       end.

(** What [accuse] prints about [w]. *)
Definition accuse_text (g : Game.t) (w : string) : list string :=
  ("You lay out your case against " ++ npc_name_of g w ++ ".")%string
  :: (if (w =? Game.killer_id g)
      then [ "They blanch. A vein ticks. The room chills.";
             ("Key tells: "
              ++ Py.join ", "
                   (map (item_name_of g)
                        (match Py.get (Game.killer_evidence g) (Game.killer_id g) with
                         | Some tips => tips
                         | None => []
                         end))
              ++ ".")%string ]
      else [ "They sneer. Those 'clues' don’t hold up. Doubt creeps in." ]).

(** How a method that ended the game in a loss left things: the timer at
    zero, at most three minutes before, and the loss text printed last. *)
Definition lost (g : Game.t) {A} (x : Game.res A * Game.t * list string) : Prop :=
  Game.time (state x) = 0%Z /\ (Game.time g <= 3)%Z
  /\ last (output x) "" = loss_text.

(** A method returns or ends the game in a loss. *)
Definition ends_lost (g : Game.t) {A} (x : Game.res A * Game.t * list string) : Prop :=
  match result x with
  | Game.Ok _ => True
  | Game.Raise e => e = Game.Loss /\ lost g x
  end.

(** How [use_console] left things when it ended the game in a win. *)
Definition won (g : Game.t) {A} (x : Game.res A * Game.t * list string) : Prop :=
  Game.player_room g = Game.cmdrm g /\ is_arrested g (Game.killer_id g)
  /\ state x = g
  /\ output x = victory_text (npc_name_of g (Game.killer_id g)).

(** A method returns or ends the game, in a win only where [console]
    allows it; no other exception leaves it. *)
Definition ends_fairly (g : Game.t) (console : bool) {A}
    (x : Game.res A * Game.t * list string) : Prop :=
  match result x with
  | Game.Ok _ => True
  | Game.Raise Game.Loss => lost g x
  | Game.Raise Game.Win => console = true /\ won g x
  | Game.Raise _ => False
  end.

(** The line is made of separators only. *)
Definition all_space (s : string) : bool := Py.only_seps s 0.

(** The line asks for [use console]. *)
Definition asks_console (line : string) : bool :=
  match Py.split (Py.strip line) with
  | p :: args => is_use_console (Py.lower p) args
  | [] => false
  end.

(** The items authored into the rooms outside the walkable ones. *)
Definition far_items : list string :=
  Eval vm_compute in
    flat_map (fun e => if Py.mem (fst e) walkable then [] else Room.items (snd e))
             world_rooms.

(** Where the culprit of the object a line leaves comes from: it is the one
    the line found, or the one of the save file. *)
Definition killer_from (d : Game.disk) (g g' : Game.t) : Prop :=
  Game.killer_id g' = Game.killer_id g
  \/ exists data, d = Some data /\ Game.killer_id g' = Save.killer data.

(** A generator that makes Orin Vale the culprit, and the game it starts:
    only its first number matters for that. *)
Definition vale_rng : Rng.t := Rng.mk 0 (fun _ => 3%nat).

Definition vale_game : Game.t :=
  Eval vm_compute in
    match start vale_rng with
    | Some g => g
    | None => Game.blank vale_rng
    end.

(** The direction that leads back. *)
Definition opposite (dir : string) : string :=
  match Py.get [("n", "s"); ("s", "n"); ("e", "w"); ("w", "e")] (Py.lower dir) with
  | Some back => back
  | None => dir
  end.

(** What [move] does in the room [r] of the object [g]. *)
Definition move_outcome (g : Game.t) (r : Room.t) (dir : string) : Prop :=
  match Py.get Game.DIRS (Py.lower dir) with
  | None => Game.move dir g = (Game.Ok tt, g, ["Use: go n/e/s/w"])
  | Some (dx, dy) =>
      match Game.room_at_xy g (Room.x r + dx) (Room.y r + dy) with
      | None =>
          Game.move dir g = (Game.Ok tt, g, ["Access denied or bulkhead sealed."])
      | Some target =>
          let g1 := after_sync (Game.set_player_room g (Room.id target)) in
          let r1 := Room.set_npcs target
                      (Game.visible_npcs (Game.npcs g) (Room.id target)) in
          Game.move dir g = prepend (look_text g1 r1) (Game.spend 2 g1)
          /\ Py.get (Game.rooms g1) (Game.player_room g1) = Some r1
          /\ Room.x target = (Room.x r + dx)%Z
          /\ Room.y target = (Room.y r + dy)%Z
          /\ In (Room.id target) walkable
      end
  end.

(** The line reaches the reminder at the end of the loop body: it is not
    blank, does not quit, and is not a [go] without a direction. *)
Definition falls_through (line : string) : bool :=
  match Py.split (Py.strip line) with
  | [] => false
  | p :: args =>
      negb (Py.mem (Py.lower p) ["quit"; "exit"])
      && negb (Py.mem (Py.lower p) ["go"; "move"]
               && match args with [] => true | _ => false end)
  end.

(** What the reminder prints for the object [g]. *)
Definition alarm_text (g : Game.t) : list string :=
  if ((Game.time g <=? 15) && (0 <? Game.time g))%Z
  then [("(Alarms intensify: " ++ Py.str_of_int (Game.time g) ++ " minutes left.)")%string]
  else [].

(** The suspect the first number of the generator picks. *)
Definition culprit_of (r : Rng.t) : string :=
  nth (Nat.modulo (Rng.draws r (Rng.pos r)) 6) (Py.keys world_npcs) "".

(** The number the script draws, the hint it gives for a wrong guess and
    the line that ends it. *)
Definition secret (r : Rng.t) : Z := fst (Guess.randint 1 100 r).

Definition hint (number guess : Z) : string :=
  if (guess <? number)%Z then "Too low!" else "Too high!".

Definition congratulation (number count : Z) : string :=
  ("Congratulations! You've guessed the number "
   ++ Py.str_of_int number ++ " in " ++ Py.str_of_int count ++ " guesses!")%string.

(** The first screen of a game: the welcome and the description of the
    atrium. *)
Definition opening_screen : list string :=
  Eval vm_compute in
    "Welcome to STARHAVEN. Type 'help' for commands."
    :: output (Game.look (fresh_world (Rng.mk 0 (fun _ => 0%nat)))).

(** Lines that win the game against the culprit [k], when [k] stands in a
    room the player can reach: fetch the cuffs, walk to the culprit, arrest,
    walk to the command room, use the console. Prof. Das has the atrium, whose
    list is empty at the start, so the player steps out and in again first. *)
Definition winning_lines (k : string) : list string :=
  if (k =? "voss") then
    ["take cuffs"; "go n"; "go w"; "arrest voss"; "go e"; "go e"; "use console"]
  else if (k =? "rourke") then
    ["take cuffs"; "go n"; "go w"; "go w"; "arrest rourke";
     "go e"; "go e"; "go e"; "use console"]
  else if (k =? "chen") then
    ["take cuffs"; "go n"; "arrest chen"; "go e"; "use console"]
  else
    ["take cuffs"; "go n"; "go s"; "arrest das"; "go n"; "go e"; "use console"].

(** ** Facts about the monad *)
Section MonadFacts.
Import Game.

Lemma bind_ok {A B} (c : M A) (k : A -> M B) g a g1 o1 :
  c g = (Ok a, g1, o1) -> bind c k g = prepend o1 (k a g1).
Proof.
  intros H. unfold bind, prepend. rewrite H.
  destruct (k a g1) as [[r g2] o2]. reflexivity.
Qed.

Lemma bind_assoc {A B C} (c : M A) (k1 : A -> M B) (k2 : B -> M C) g :
  bind (bind c k1) k2 g = bind c (fun a => bind (k1 a) k2) g.
Proof.
  unfold bind. destruct (c g) as [[[a|e] g1] o1]; [|reflexivity].
  destruct (k1 a g1) as [[[b|e] g2] o2]; [|reflexivity].
  destruct (k2 b g2) as [[r3 g3] o3]. rewrite app_assoc. reflexivity.
Qed.

Lemma prepend_prepend {A} o1 o2 (x : res A * t * list string) :
  prepend o1 (prepend o2 x) = prepend (o1 ++ o2) x.
Proof. destruct x as [[r g] o]. simpl. rewrite app_assoc. reflexivity. Qed.

Lemma prepend_nil {A} (x : res A * t * list string) : prepend [] x = x.
Proof. destruct x as [[r g] o]. reflexivity. Qed.

Lemma bind_self {B} (k : t -> M B) g : bind self k g = k g g.
Proof. rewrite (bind_ok self k g g g []); [apply prepend_nil|reflexivity]. Qed.

Lemma bind_ret {A B} (a : A) (k : A -> M B) g : bind (ret a) k g = k a g.
Proof. rewrite (bind_ok (ret a) k g a g []); [apply prepend_nil|reflexivity]. Qed.

Lemma bind_modify {B} f (k : unit -> M B) g : bind (modify f) k g = k tt (f g).
Proof. rewrite (bind_ok (modify f) k g tt (f g) []); [apply prepend_nil|reflexivity]. Qed.

Lemma bind_say {B} s (k : unit -> M B) g : bind (say s) k g = prepend [s] (k tt g).
Proof. apply bind_ok. reflexivity. Qed.

Lemma bind_raise {A B} (c : M A) (k : A -> M B) g e g1 o1 :
  c g = (Raise e, g1, o1) -> bind c k g = (Raise e, g1, o1).
Proof. intros H. unfold bind. rewrite H. reflexivity. Qed.

Lemma bind_ok_inv {A B} (c : M A) (k : A -> M B) g b g' o :
  bind c k g = (Ok b, g', o) ->
  exists a g1 o1 o2,
    c g = (Ok a, g1, o1) /\ k a g1 = (Ok b, g', o2) /\ o = o1 ++ o2.
Proof.
  unfold bind. destruct (c g) as [[[a|e] g1] o1]; [|discriminate].
  destruct (k a g1) as [[r g2] o2] eqn:Hk. intros H. inversion H; subst.
  exists a, g1, o1, o2. auto.
Qed.

End MonadFacts.

(** ** Frame reasoning *)
Section Frame.
Import Game.
Variable ok_only : bool.
Variable R : Game.t -> Game.t -> Prop.
Hypothesis R_refl : forall g, R g g.
Hypothesis R_trans : forall a b c, R a b -> R b c -> R a c.

#[local] Abbreviation keeps := (keeps ok_only R).

Lemma keeps_ret {A} (a : A) : keeps (ret a).
Proof. intros g _. apply R_refl. Qed.

Lemma keeps_say s : keeps (say s).
Proof. intros g _. apply R_refl. Qed.

Lemma keeps_self : keeps self.
Proof. intros g _. apply R_refl. Qed.

Lemma keeps_raise {A} e : keeps (@raise A e).
Proof. intros g _. apply R_refl. Qed.

Lemma keeps_getitem {V} (d : Py.dict V) k : keeps (getitem d k).
Proof. intros g _. unfold getitem. destruct (Py.get d k); apply R_refl. Qed.

Lemma keeps_modify f : (forall g, R g (f g)) -> keeps (modify f).
Proof. intros H g _. apply H. Qed.

Lemma keeps_bind {A B} (c : M A) (k : A -> M B) :
  keeps c -> (forall a, keeps (k a)) -> keeps (bind c k).
Proof.
  intros Hc Hk g. specialize (Hc g).
  destruct (c g) as [[[a|e] g1] o1] eqn:E.
  - rewrite (bind_ok _ _ _ _ _ _ E). specialize (Hk a g1).
    destruct (k a g1) as [[r2 g2] o2]. unfold state, result in *; simpl in *.
    intros Hok. eapply R_trans; [apply Hc; reflexivity|apply Hk; exact Hok].
  - rewrite (bind_raise _ _ _ _ _ _ E). exact Hc.
Qed.

Lemma keeps_for_each {A} (l : list A) (body : A -> M unit) :
  (forall a, keeps (body a)) -> keeps (for_each l body).
Proof.
  intros H. induction l as [|a l IH]; simpl.
  - apply keeps_ret.
  - apply keeps_bind; auto.
Qed.

Lemma keeps_map_m {A B} (f : A -> M B) (l : list A) :
  (forall a, keeps (f a)) -> keeps (map_m f l).
Proof.
  intros H. induction l as [|a l IH]; simpl.
  - apply keeps_ret.
  - apply keeps_bind; auto. intros b.
    apply keeps_bind; auto. intros bs. apply keeps_ret.
Qed.

Lemma keeps_find_item tbl name coll : keeps (find_item tbl name coll).
Proof.
  induction coll as [|i coll IH]; simpl.
  - apply keeps_ret.
  - apply keeps_bind; [apply keeps_getitem|]. intros it.
    destruct (_ || _); [apply keeps_ret|exact IH].
Qed.

Lemma keeps_find_npc tbl who coll : keeps (find_npc tbl who coll).
Proof.
  induction coll as [|i coll IH]; simpl.
  - apply keeps_ret.
  - apply keeps_bind; [apply keeps_getitem|]. intros it.
    destruct (_ || _); [apply keeps_ret|exact IH].
Qed.

Lemma keeps_upd_room rid f :
  (forall g r, Py.get (rooms g) rid = Some r ->
     R g (set_rooms g (Py.set (rooms g) rid (f r)))) ->
  keeps (upd_room rid f).
Proof.
  intros H g _. unfold upd_room, bind, self, getitem.
  destruct (Py.get (rooms g) rid) eqn:E; simpl.
  - apply H. exact E.
  - apply R_refl.
Qed.

Lemma keeps_upd_npc nid f :
  (forall g n, Py.get (npcs g) nid = Some n ->
     R g (set_npcs g (Py.set (npcs g) nid (f n)))) ->
  keeps (upd_npc nid f).
Proof.
  intros H g _. unfold upd_npc, bind, self, getitem.
  destruct (Py.get (npcs g) nid) eqn:E; simpl.
  - apply H. exact E.
  - apply R_refl.
Qed.

Lemma keeps_label_rooms rs grid : keeps (label_rooms rs grid).
Proof.
  revert grid. induction rs as [|r rs IH]; intros grid; simpl.
  - apply keeps_ret.
  - destruct (Py.split (Room.name r)); [apply keeps_raise|].
    apply keeps_bind; [|intros; apply IH].
    unfold grid_set.
    repeat match goal with
           | |- keeps (match ?x with _ => _ end) => destruct x
           end; (apply keeps_raise || apply keeps_ret).
Qed.

(** One step through the structure of a method. *)
Ltac frame_step :=
  match goal with
  | |- keeps (bind _ _) => apply keeps_bind; [|intros]
  | |- keeps (ret _) => apply keeps_ret
  | |- keeps (say _) => apply keeps_say
  | |- keeps self => apply keeps_self
  | |- keeps (raise _) => apply keeps_raise
  | |- keeps (getitem _ _) => apply keeps_getitem
  | |- keeps (for_each _ _) => apply keeps_for_each; intros
  | |- keeps (map_m _ _) => apply keeps_map_m; intros
  | |- keeps (find_item _ _ _) => apply keeps_find_item
  | |- keeps (find_npc _ _ _) => apply keeps_find_npc
  | |- keeps (label_rooms _ _) => apply keeps_label_rooms
  | |- keeps (match ?x with _ => _ end) => destruct x
  | |- keeps (let (_, _) := ?x in _) => destruct x
  end.

(** *** From the methods to the loop body *)
Lemma keeps_reminder : keeps reminder.
Proof. unfold reminder. repeat frame_step. Qed.

Lemma keeps_command_of cmd args d :
  keeps look -> keeps show_map -> keeps show_time ->
  (forall a, keeps (move a)) -> (forall a, keeps (take a)) ->
  (forall a, keeps (drop a)) -> keeps inv_show ->
  (forall a, keeps (inspect a)) -> (forall a, keeps (talk a)) ->
  (forall a, keeps (accuse a)) -> (forall a, keeps (arrest a)) ->
  keeps use_console -> keeps save ->
  ((cmd =? "load") = true -> keeps (load d)) ->
  keeps (command cmd args d).
Proof.
  intros. unfold command.
  repeat match goal with
         | |- keeps (if ?b then _ else _) => destruct b eqn:?
         end;
    repeat first [ frame_step | solve [auto] ].
Qed.

Lemma keeps_step_of line d :
  (forall cmd args,
     ((cmd =? "load") = true -> keeps (load d)) -> keeps (command cmd args d)) ->
  (is_load line = true -> keeps (load d)) ->
  keeps (step line d).
Proof.
  intros Hc Hload. unfold step.
  destruct (Py.strip line =? "")%string; [apply keeps_ret|].
  unfold is_load in Hload, Hc.
  destruct (Py.split (Py.strip line)) as [|p args]; [apply keeps_raise|].
  apply keeps_bind; [apply Hc; auto|].
  intros [c d']. simpl. destruct c; repeat frame_step. apply keeps_reminder.
Qed.

(** *** What a relation has to tolerate *)
Hypothesis R_spend : forall m, (0 <= m <= 3)%Z -> keeps (spend m).
Hypothesis R_rng : forall g r, R g (set_rng g r).
Hypothesis R_inv : forall g l, R g (set_inv g l).
Hypothesis R_player : forall g p, R g (set_player_room g p).
Hypothesis R_room : forall g rid r f,
  Py.get (rooms g) rid = Some r -> room_static (f r) = room_static r ->
  R g (set_rooms g (Py.set (rooms g) rid (f r))).
Hypothesis R_cuff : forall g nid n b,
  Py.get (npcs g) nid = Some n ->
  R g (set_npcs g (Py.set (npcs g) nid (NPC.set_room (NPC.set_arrested n true) b))).
Hypothesis R_coop : forall g nid n,
  Py.get (npcs g) nid = Some n ->
  R g (set_npcs g (Py.set (npcs g) nid (NPC.set_cooperative n true))).

Lemma keeps_upd_room_static rid f :
  (forall r, room_static (f r) = room_static r) -> keeps (upd_room rid f).
Proof. intros H. apply keeps_upd_room. intros g r E. apply R_room; auto. Qed.

Ltac frame :=
  repeat first
    [ frame_step
    | apply R_spend; lia
    | apply keeps_modify; intros; first [apply R_rng | apply R_inv | apply R_player]
    | apply keeps_upd_room_static; intros; reflexivity
    | apply keeps_upd_npc; intros; apply R_coop; assumption
    | apply keeps_upd_npc; intros; apply R_cuff; assumption ].

Lemma keeps_current_room : keeps current_room.
Proof. unfold current_room. frame. Qed.

Lemma keeps_item_names l : keeps (item_names l).
Proof. unfold item_names. frame. Qed.

Lemma keeps_npc_names l : keeps (npc_names l).
Proof. unfold npc_names. frame. Qed.

Lemma keeps_look : keeps look.
Proof.
  unfold look, current_room, item_names, npc_names. frame.
Qed.

Lemma keeps_show_map : keeps show_map.
Proof.
  unfold show_map, current_room, py_max, grid_set. frame.
Qed.

Lemma keeps_show_time : keeps show_time.
Proof. unfold show_time. frame. Qed.

Lemma keeps_inv_show : keeps inv_show.
Proof. unfold inv_show, item_names. frame. Qed.

Lemma keeps_sync : keeps _sync_npcs_in_room.
Proof. unfold _sync_npcs_in_room. frame. Qed.

Lemma keeps_move d : keeps (move d).
Proof.
  unfold move. frame; try apply keeps_sync; try apply keeps_look.
  unfold current_room; frame.
Qed.

Lemma keeps_take args : keeps (take args).
Proof.
  unfold take, current_room, list_remove, set_current_items. frame.
Qed.

Lemma keeps_drop args : keeps (drop args).
Proof.
  unfold drop, current_room, list_remove, set_current_items. frame.
Qed.

Lemma keeps_inspect args : keeps (inspect args).
Proof. unfold inspect, current_room. frame. Qed.

Lemma keeps_talk args : keeps (talk args).
Proof. unfold talk, current_room. frame. Qed.

Lemma keeps_accuse args : keeps (accuse args).
Proof. unfold accuse, item_names. frame. Qed.

Lemma keeps_arrest args : keeps (arrest args).
Proof.
  unfold arrest, current_room, room_append_item.
  frame; try apply keeps_sync.
Qed.

Lemma keeps_use_console : keeps use_console.
Proof. unfold use_console. frame. Qed.

Lemma keeps_save : keeps save.
Proof. unfold save. frame. Qed.

Lemma keeps_command cmd args d :
  ((cmd =? "load") = true -> keeps (load d)) ->
  keeps (command cmd args d).
Proof.
  intros Hload. apply keeps_command_of; auto using keeps_look, keeps_show_map,
    keeps_show_time, keeps_move, keeps_take, keeps_drop, keeps_inv_show,
    keeps_inspect, keeps_talk, keeps_accuse, keeps_arrest, keeps_use_console,
    keeps_save.
Qed.

Lemma keeps_step line d :
  (is_load line = true -> keeps (load d)) ->
  keeps (step line d).
Proof.
  intros Hload. apply keeps_step_of; [|exact Hload].
  intros cmd args. apply keeps_command.
Qed.

End Frame.

(** ** Dictionaries *)
Section DictFacts.
Context {V : Type}.
Implicit Types (d : Py.dict V) (k : string) (v : V).

Lemma get_set_same d k v v0 :
  Py.get d k = Some v0 -> Py.get (Py.set d k v) k = Some v.
Proof.
  induction d as [|[k' v'] d IH]; simpl; [discriminate|].
  destruct (k' =? k)%string eqn:E; simpl; rewrite E; auto.
Qed.

Lemma get_set_other d k k' v :
  k' <> k -> Py.get (Py.set d k v) k' = Py.get d k'.
Proof.
  intros Hne. induction d as [|[k0 v0] d IH]; simpl.
  - destruct (k =? k')%string eqn:E; [|reflexivity].
    apply String.eqb_eq in E. congruence.
  - destruct (k0 =? k)%string eqn:E; simpl.
    + apply String.eqb_eq in E. subst k0.
      destruct (k =? k')%string eqn:E'; [|reflexivity].
      apply String.eqb_eq in E'. congruence.
    + destruct (k0 =? k')%string; auto.
Qed.

Lemma get_set d k k' v v0 :
  Py.get d k = Some v0 ->
  Py.get (Py.set d k v) k' = if (k =? k')%string then Some v else Py.get d k'.
Proof.
  intros H. destruct (k =? k')%string eqn:E.
  - apply String.eqb_eq in E. subst. eapply get_set_same; eauto.
  - apply get_set_other. intros ->. rewrite String.eqb_refl in E. discriminate.
Qed.

Lemma keys_set d k v v0 :
  Py.get d k = Some v0 -> Py.keys (Py.set d k v) = Py.keys d.
Proof.
  induction d as [|[k' v'] d IH]; simpl; [discriminate|].
  destruct (k' =? k)%string eqn:E; simpl; auto.
  intros H. f_equal. auto.
Qed.

Lemma statics_set (f : V -> V) d k v v0 :
  Py.get d k = Some v0 -> f v = f v0 ->
  statics f (Py.set d k v) = statics f d.
Proof.
  intros H Hf. induction d as [|[k' v'] d IH]; simpl in *; [discriminate|].
  destruct (k' =? k)%string eqn:E; simpl.
  - inversion H; subst. rewrite Hf. reflexivity.
  - f_equal. auto.
Qed.

Lemma get_statics (f : V -> V) d k :
  Py.get (statics f d) k = option_map f (Py.get d k).
Proof.
  induction d as [|[k' v'] d IH]; simpl; [reflexivity|].
  destruct (k' =? k)%string; auto.
Qed.

Lemma statics_cons_inv (f : V -> V) k a d k' b d' :
  statics f ((k, a) :: d) = statics f ((k', b) :: d') ->
  k = k' /\ f a = f b /\ statics f d = statics f d'.
Proof. unfold statics. simpl. intros H. injection H. auto. Qed.

Lemma keys_statics (f : V -> V) d : Py.keys (statics f d) = Py.keys d.
Proof. unfold Py.keys, statics. rewrite map_map. reflexivity. Qed.

Lemma get_in d k v : Py.get d k = Some v -> In (k, v) d.
Proof.
  induction d as [|[k' v'] d IH]; simpl; [discriminate|].
  destruct (k' =? k)%string eqn:E.
  - apply String.eqb_eq in E. intros H; inversion H; subst. auto.
  - auto.
Qed.

Lemma in_get d k v : NoDup (Py.keys d) -> In (k, v) d -> Py.get d k = Some v.
Proof.
  induction d as [|[k' v'] d IH]; simpl; [tauto|].
  intros Hnd [H|H].
  - inversion H; subst. rewrite String.eqb_refl. reflexivity.
  - inversion Hnd; subst. destruct (k' =? k)%string eqn:E; auto.
    apply String.eqb_eq in E. subst. exfalso. apply H2.
    change k with (fst (k, v)). apply in_map. exact H.
Qed.

Lemma get_split d k v :
  Py.get d k = Some v ->
  exists d1 d2, d = d1 ++ (k, v) :: d2 /\ Py.get d1 k = None
                /\ forall v', Py.set d k v' = d1 ++ (k, v') :: d2.
Proof.
  induction d as [|[k' v'] d IH]; simpl; [discriminate|].
  destruct (k' =? k)%string eqn:E.
  - apply String.eqb_eq in E. subst. intros H; inversion H; subst.
    exists [], d. simpl. auto.
  - intros H. destruct (IH H) as (d1 & d2 & -> & Hn & Hs).
    exists ((k', v') :: d1), d2. simpl. rewrite E. split; [reflexivity|].
    split; [exact Hn|]. intros v0. rewrite Hs. reflexivity.
Qed.

Lemma get_none_keys d k : Py.get d k = None <-> ~ In k (Py.keys d).
Proof.
  induction d as [|[k' v'] d IH]; simpl; [tauto|].
  destruct (k' =? k)%string eqn:E.
  - apply String.eqb_eq in E. subst. split; [discriminate|tauto].
  - apply String.eqb_neq in E. rewrite IH. tauto.
Qed.

Lemma get_app_none d1 d2 k :
  Py.get d1 k = None -> Py.get (d1 ++ d2) k = Py.get d2 k.
Proof.
  induction d1 as [|[k' v'] d1 IH]; simpl; [reflexivity|].
  destruct (k' =? k)%string; [discriminate|auto].
Qed.

Lemma set_app_none d1 d2 k v v' :
  Py.get d1 k = None ->
  Py.set (d1 ++ (k, v) :: d2) k v' = d1 ++ (k, v') :: d2.
Proof.
  induction d1 as [|[k0 v0] d1 IH]; simpl.
  - rewrite String.eqb_refl. reflexivity.
  - destruct (k0 =? k)%string; [discriminate|]. intros H. f_equal. auto.
Qed.

End DictFacts.

(** ** The three frames *)
Lemma steady_refl g : steady g g.
Proof. unfold steady. repeat split; auto; lia. Qed.

Lemma steady_trans a b c : steady a b -> steady b c -> steady a c.
Proof.
  unfold steady. intros (?&?&?&?&?&?&?&?) (?&?&?&?&?&?&?&?).
  repeat split; try congruence; lia.
Qed.

Lemma spend_run m g :
  Game.spend m g =
    let g' := Game.set_time g (Z.max 0 (Game.time g - m)) in
    if (Z.max 0 (Game.time g - m) =? 0)%Z
    then (Game.Raise Game.Loss, g',
          [(Py.nl ++ "The station groans as safeties fail. Starhaven kisses the sun. All goes white.")%string])
    else (Game.Ok tt, g', []).
Proof.
  unfold Game.spend, Game.bind, Game.modify, Game.self, Game.say, Game.raise, Game.ret.
  simpl. destruct (Z.max 0 (Game.time g - m) =? 0)%Z; reflexivity.
Qed.

Lemma steady_spend m : (0 <= m <= 3)%Z -> keeps false steady (Game.spend m).
Proof.
  intros Hm g _. rewrite spend_run. simpl.
  destruct (_ =? _)%Z; unfold state, steady; simpl; repeat split; auto; lia.
Qed.

Lemma alive_refl g : alive g g.
Proof. unfold alive. auto. Qed.

Lemma alive_trans a b c : alive a b -> alive b c -> alive a c.
Proof. unfold alive. auto. Qed.

Lemma alive_spend m : keeps true alive (Game.spend m).
Proof.
  intros g Hok. specialize (Hok eq_refl). rewrite spend_run in *. simpl in *.
  destruct (_ =? _)%Z eqn:E; [discriminate|].
  unfold state, alive; simpl. intros _. apply Z.eqb_neq in E. lia.
Qed.

Lemma quiet_refl g : quiet g g.
Proof. unfold quiet. auto. Qed.

Lemma quiet_trans a b c : quiet a b -> quiet b c -> quiet a c.
Proof.
  unfold quiet. intros (?&?&?&?) (?&?&?&?). repeat split; congruence.
Qed.

Lemma quiet_spend m : keeps false quiet (Game.spend m).
Proof.
  intros g _. rewrite spend_run. simpl.
  destruct (_ =? _)%Z; unfold state, quiet; simpl; auto.
Qed.

Lemma steady_room g rid r f :
  Py.get (Game.rooms g) rid = Some r -> room_static (f r) = room_static r ->
  steady g (Game.set_rooms g (Py.set (Game.rooms g) rid (f r))).
Proof.
  intros H Hf. unfold steady; simpl. repeat split; auto; try lia.
  eapply statics_set; eauto.
Qed.

Lemma steady_npc g nid n f :
  Py.get (Game.npcs g) nid = Some n -> npc_static (f n) = npc_static n ->
  steady g (Game.set_npcs g (Py.set (Game.npcs g) nid (f n))).
Proof.
  intros H Hf. unfold steady; simpl. repeat split; auto; try lia.
  eapply statics_set; eauto.
Qed.

Lemma steady_setters :
  (forall g r, steady g (Game.set_rng g r))
  /\ (forall g l, steady g (Game.set_inv g l))
  /\ (forall g p, steady g (Game.set_player_room g p)).
Proof. unfold steady; simpl. repeat split; auto; lia. Qed.

Lemma alive_setters :
  (forall g r, alive g (Game.set_rng g r))
  /\ (forall g l, alive g (Game.set_inv g l))
  /\ (forall g p, alive g (Game.set_player_room g p))
  /\ (forall g v, alive g (Game.set_rooms g v))
  /\ (forall g v, alive g (Game.set_npcs g v)).
Proof. unfold alive; simpl. repeat split; auto. Qed.

Lemma quiet_coop g nid n :
  Py.get (Game.npcs g) nid = Some n ->
  quiet g (Game.set_npcs g (Py.set (Game.npcs g) nid (NPC.set_cooperative n true))).
Proof.
  intros H. unfold quiet; simpl. repeat split; auto.
  eapply statics_set; eauto.
Qed.

(** Every line that does not ask for [load] leaves the culprit, the evidence
    and the authored tables alone and never raises the timer. *)
Lemma steady_step line d :
  is_load line = false -> keeps false steady (Game.step line d).
Proof.
  intros Hl. destruct steady_setters as (H1 & H2 & H3).
  apply keeps_step;
    auto using steady_refl, steady_spend, steady_room.
  - apply steady_trans.
  - intros g nid n b H.
    apply (steady_npc g nid n (fun n => NPC.set_room (NPC.set_arrested n true) b)); auto.
  - intros g nid n H.
    apply (steady_npc g nid n (fun n => NPC.set_cooperative n true)); auto.
  - congruence.
Qed.

(** ** Running the pieces *)
Lemma getitem_some {V} (d : Py.dict V) k v g :
  Py.get d k = Some v -> Game.getitem d k g = (Game.Ok v, g, []).
Proof. intros H. unfold Game.getitem. rewrite H. reflexivity. Qed.

Lemma upd_room_run rid f g r :
  Py.get (Game.rooms g) rid = Some r ->
  Game.upd_room rid f g
  = (Game.Ok tt, Game.set_rooms g (Py.set (Game.rooms g) rid (f r)), []).
Proof.
  intros H. unfold Game.upd_room, Game.bind, Game.self, Game.getitem.
  rewrite H. reflexivity.
Qed.

Lemma upd_npc_run nid f g n :
  Py.get (Game.npcs g) nid = Some n ->
  Game.upd_npc nid f g
  = (Game.Ok tt, Game.set_npcs g (Py.set (Game.npcs g) nid (f n)), []).
Proof.
  intros H. unfold Game.upd_npc, Game.bind, Game.self, Game.getitem.
  rewrite H. reflexivity.
Qed.

Lemma known_get {V} (d : Py.dict V) l k :
  known d l -> In k l -> exists v, Py.get d k = Some v.
Proof.
  unfold known. rewrite Forall_forall. intros H Hin.
  specialize (H k Hin). destruct (Py.get d k) as [v|]; [eauto|congruence].
Qed.

Lemma find_item_run tbl name coll g :
  known tbl coll ->
  Game.find_item tbl name coll g = (Game.Ok (find (item_matches tbl name) coll), g, []).
Proof.
  induction coll as [|i coll IH]; intros Hk; simpl; [reflexivity|].
  inversion Hk as [|? ? Hi Hrest]; subst.
  unfold item_matches at 1.
  destruct (Py.get tbl i) as [it|] eqn:E; [|congruence].
  rewrite (bind_ok _ _ _ _ _ _ (getitem_some _ _ _ g E)), prepend_nil.
  destruct (_ || _); simpl; [reflexivity|].
  rewrite (IH Hrest). reflexivity.
Qed.

Lemma find_npc_run tbl who coll g :
  known tbl coll ->
  Game.find_npc tbl who coll g = (Game.Ok (find (npc_matches tbl who) coll), g, []).
Proof.
  induction coll as [|i coll IH]; intros Hk; simpl; [reflexivity|].
  inversion Hk as [|? ? Hi Hrest]; subst.
  unfold npc_matches at 1.
  destruct (Py.get tbl i) as [it|] eqn:E; [|congruence].
  rewrite (bind_ok _ _ _ _ _ _ (getitem_some _ _ _ g E)), prepend_nil.
  destruct (_ || _); simpl; [reflexivity|].
  rewrite (IH Hrest). reflexivity.
Qed.

Lemma current_room_run g r :
  Py.get (Game.rooms g) (Game.player_room g) = Some r ->
  Game.current_room g = (Game.Ok r, g, []).
Proof.
  intros H. unfold Game.current_room. rewrite bind_self.
  apply getitem_some. exact H.
Qed.

(** Rewriting a method applied to an object, one bind at a time. *)
Ltac run_with E := rewrite (bind_ok _ _ _ _ _ _ E), ?prepend_nil.
Ltac run :=
  repeat first [ rewrite bind_self | rewrite bind_ret | rewrite bind_modify
               | rewrite bind_say ].

(** [take] with the binds executed. *)
Lemma take_run g a args r :
  Py.get (Game.rooms g) (Game.player_room g) = Some r ->
  known (Game.items g) (Room.items r) ->
  Game.take (a :: args) g =
    let name := Py.lower (Py.join " " (a :: args)) in
    match Game.truthy (find (item_matches (Game.items g) name) (Room.items r)) with
    | None => (Game.Ok tt, g, ["Not here."])
    | Some iid =>
        match Py.get (Game.items g) iid with
        | None => (Game.Raise (Game.KeyError iid), g, [])
        | Some it =>
            if negb (Item.portable it) then (Game.Ok tt, g, ["It’s fixed in place."])
            else
              match Py.remove iid (Room.items r) with
              | None => (Game.Raise Game.ValueError, g, [])
              | Some l =>
                  prepend [("You take the " ++ Item.name it ++ ".")%string]
                    (Game.spend 1 (after_take g r l iid))
              end
        end
    end.
Proof.
  intros Hr Hk. unfold Game.take.
  run_with (current_room_run _ _ Hr). run.
  run_with (find_item_run _ (Py.lower (Py.join " " (a :: args))) _ g Hk).
  cbv zeta.
  destruct (Game.truthy _) as [iid|]; [|reflexivity].
  destruct (Py.get (Game.items g) iid) as [it|] eqn:Eit.
  2:{ apply bind_raise. unfold Game.getitem. rewrite Eit. reflexivity. }
  run_with (getitem_some _ _ _ g Eit).
  destruct (negb (Item.portable it)); [reflexivity|].
  unfold Game.list_remove. destruct (Py.remove iid (Room.items r)) as [l|].
  2:{ apply bind_raise. reflexivity. }
  run. unfold Game.set_current_items.
  assert (E : (Game.bind Game.self
     (fun g0 => Game.upd_room (Game.player_room g0) (fun r0 => Room.set_items r0 l))) g
     = (Game.Ok tt, Game.set_rooms g (Py.set (Game.rooms g) (Game.player_room g)
                                     (Room.set_items r l)), [])).
  { rewrite bind_self.
    exact (upd_room_run _ (fun r0 => Room.set_items r0 l) _ _ Hr). }
  run_with E. run. reflexivity.
Qed.

(** [drop] with the binds executed. *)
Lemma drop_run g a args r :
  Py.get (Game.rooms g) (Game.player_room g) = Some r ->
  known (Game.items g) (Game.inv g) ->
  Game.drop (a :: args) g =
    let name := Py.lower (Py.join " " (a :: args)) in
    match Game.truthy (find (item_matches (Game.items g) name) (Game.inv g)) with
    | None => (Game.Ok tt, g, ["You don’t have that."])
    | Some iid =>
        match Py.remove iid (Game.inv g) with
        | None => (Game.Raise Game.ValueError, g, [])
        | Some l =>
            match Py.get (Game.items g) iid with
            | None => (Game.Raise (Game.KeyError iid), after_drop g r l iid, [])
            | Some it =>
                prepend [("You drop the " ++ Item.name it ++ ".")%string]
                  (Game.spend 1 (after_drop g r l iid))
            end
        end
    end.
Proof.
  intros Hr Hk. unfold Game.drop. run.
  run_with (find_item_run _ (Py.lower (Py.join " " (a :: args))) _ g Hk).
  cbv zeta.
  destruct (Game.truthy _) as [iid|]; [|reflexivity].
  unfold Game.list_remove. destruct (Py.remove iid (Game.inv g)) as [l|].
  2:{ apply bind_raise. reflexivity. }
  run.
  assert (Hr' : Py.get (Game.rooms (Game.set_inv g l))
                       (Game.player_room (Game.set_inv g l)) = Some r) by exact Hr.
  run_with (current_room_run _ _ Hr').
  unfold Game.set_current_items.
  assert (E : (Game.bind Game.self
     (fun g0 => Game.upd_room (Game.player_room g0)
                  (fun r0 => Room.set_items r0 (Room.items r ++ [iid]))))
       (Game.set_inv g l)
     = (Game.Ok tt, after_drop g r l iid, [])).
  { rewrite bind_self.
    exact (upd_room_run _ (fun r0 => Room.set_items r0 (Room.items r ++ [iid])) _ _ Hr'). }
  run_with E.
  destruct (Py.get (Game.items g) iid) as [it|] eqn:Eit.
  2:{ apply bind_raise. unfold Game.getitem. rewrite Eit. reflexivity. }
  run_with (getitem_some _ _ _ (after_drop g r l iid) Eit). run. reflexivity.
Qed.

Lemma keys_sync ns rs : Py.keys (sync_rooms ns rs) = Py.keys rs.
Proof. unfold Py.keys, sync_rooms. rewrite map_map. reflexivity. Qed.

Lemma sync_rooms_app ns a b :
  sync_rooms ns (a ++ b) = sync_rooms ns a ++ sync_rooms ns b.
Proof. unfold sync_rooms. apply map_app. Qed.

Lemma sync_loop d2 : forall d1 g,
  Game.rooms g = sync_rooms (Game.npcs g) d1 ++ d2 ->
  NoDup (Py.keys (d1 ++ d2)) ->
  Game.for_each (Py.keys d2) (fun rid =>
      Game.bind Game.self (fun g0 =>
        Game.upd_room rid
          (fun r => Room.set_npcs r (Game.visible_npcs (Game.npcs g0) rid)))) g
  = (Game.Ok tt,
     Game.set_rooms g (sync_rooms (Game.npcs g) d1 ++ sync_rooms (Game.npcs g) d2),
     []).
Proof.
  induction d2 as [|[k r] d2 IH]; intros d1 g Hg Hnd; simpl.
  - rewrite app_nil_r in *. rewrite <- Hg. destruct g; reflexivity.
  - assert (Hk : Py.get (sync_rooms (Game.npcs g) d1) k = None).
    { apply get_none_keys. rewrite keys_sync. unfold Py.keys in *.
      rewrite map_app in Hnd. simpl in Hnd. apply NoDup_remove_2 in Hnd.
      intros Hin. apply Hnd. apply in_or_app. auto. }
    assert (Hget : Py.get (Game.rooms g) k = Some r).
    { rewrite Hg, (get_app_none _ _ _ Hk). simpl. rewrite String.eqb_refl. reflexivity. }
    assert (E : Game.bind Game.self (fun g0 =>
        Game.upd_room k
          (fun r => Room.set_npcs r (Game.visible_npcs (Game.npcs g0) k))) g
      = (Game.Ok tt,
         Game.set_rooms g (sync_rooms (Game.npcs g) (d1 ++ [(k, r)]) ++ d2), [])).
    { rewrite bind_self.
      rewrite (upd_room_run _ (fun r => Room.set_npcs r (Game.visible_npcs (Game.npcs g) k))
                 _ _ Hget).
      rewrite Hg, (set_app_none _ _ _ _ _ Hk), sync_rooms_app, <- app_assoc.
      reflexivity. }
    run_with E.
    rewrite (IH (d1 ++ [(k, r)])).
    + simpl. rewrite !sync_rooms_app, <- !app_assoc. reflexivity.
    + reflexivity.
    + rewrite <- app_assoc. exact Hnd.
Qed.

Lemma sync_run g :
  NoDup (Py.keys (Game.rooms g)) ->
  Game._sync_npcs_in_room g = (Game.Ok tt, after_sync g, []).
Proof.
  intros Hnd. unfold Game._sync_npcs_in_room. rewrite bind_self.
  rewrite (sync_loop (Game.rooms g) [] g); auto.
Qed.

(** [arrest] with the binds executed. *)
Lemma arrest_run g a args r :
  Py.get (Game.rooms g) (Game.player_room g) = Some r ->
  known (Game.npcs g) (Room.npcs r) ->
  NoDup (Py.keys (Game.rooms g)) ->
  Game.arrest (a :: args) g =
    let who := Py.lower (Py.join " " (a :: args)) in
    if negb (Py.mem "cuffs" (Game.inv g))
    then (Game.Ok tt, g, ["You need Restraint Cuffs to arrest."])
    else
      match Game.truthy (find (npc_matches (Game.npcs g) who) (Room.npcs r)) with
      | None => (Game.Ok tt, g, ["They aren’t here."])
      | Some tid =>
          match Py.get (Game.npcs g) tid with
          | None => (Game.Raise (Game.KeyError tid), g, [])
          | Some n =>
              if NPC.arrested n then (Game.Ok tt, g, ["Already restrained."])
              else
                let g2 := cuffed g tid n in
                let msg := ("You restrain " ++ NPC.name n
                            ++ ". Security drones escort them to the Brig.")%string in
                if (tid =? Game.killer_id g)%string
                then
                  match Py.get (Game.rooms g2) (Game.brigrm g) with
                  | None => (Game.Raise (Game.KeyError (Game.brigrm g)), g2, [])
                  | Some brig =>
                      if negb (Py.mem "codes_token" (Room.items brig))
                      then prepend [msg] (Game.spend 3 (with_token g2 brig))
                      else prepend [msg] (Game.spend 3 g2)
                  end
                else prepend [msg] (Game.spend 3 g2)
          end
      end.
Proof.
  intros Hr Hk Hnd. unfold Game.arrest. run. cbv zeta.
  destruct (negb (Py.mem "cuffs" (Game.inv g))); [reflexivity|].
  run_with (current_room_run _ _ Hr).
  run_with (find_npc_run _ (Py.lower (Py.join " " (a :: args))) _ g Hk).
  destruct (Game.truthy _) as [tid|]; [|reflexivity].
  destruct (Py.get (Game.npcs g) tid) as [n|] eqn:En.
  2:{ apply bind_raise. unfold Game.getitem. rewrite En. reflexivity. }
  run_with (getitem_some _ _ _ g En).
  destruct (NPC.arrested n); [reflexivity|].
  run_with (upd_npc_run tid (fun n => NPC.set_room (NPC.set_arrested n true) (Game.brigrm g))
              _ _ En).
  assert (Hnd' : NoDup (Py.keys (Game.rooms
            (Game.set_npcs g (Py.set (Game.npcs g) tid
               (NPC.set_room (NPC.set_arrested n true) (Game.brigrm g))))))) by exact Hnd.
  run_with (sync_run _ Hnd'). fold (cuffed g tid n).
  destruct (tid =? Game.killer_id g)%string.
  - rewrite bind_assoc. run. rewrite bind_assoc.
    change (Game.brigrm (cuffed g tid n)) with (Game.brigrm g).
    destruct (Py.get (Game.rooms (cuffed g tid n)) (Game.brigrm g)) as [brig|] eqn:Eb.
    2:{ apply bind_raise. unfold Game.getitem. rewrite Eb. reflexivity. }
    run_with (getitem_some _ _ _ (cuffed g tid n) Eb).
    destruct (negb (Py.mem "codes_token" (Room.items brig))).
    + unfold Game.room_append_item.
      assert (Eb' : Py.get (Game.rooms (cuffed g tid n)) (Game.brigrm g) = Some brig)
        by exact Eb.
      run_with (upd_room_run (Game.brigrm g)
                  (fun r => Room.set_items r (Room.items r ++ ["codes_token"])) _ _ Eb').
      run. reflexivity.
    + run. reflexivity.
  - run. reflexivity.
Qed.

(** [use_console] with the binds executed. *)
Lemma use_console_run g killer brig :
  Py.get (Game.npcs g) (Game.killer_id g) = Some killer ->
  Py.get (Game.rooms g) (Game.brigrm g) = Some brig ->
  Game.use_console g =
    if negb (Game.player_room g =? Game.cmdrm g)%string
    then (Game.Ok tt, g, ["You must be at the Master Console on the Command Deck."])
    else if Py.mem "codes_token" (Room.items brig)
         then (Game.Raise Game.Win, g, victory_text (NPC.name killer))
         else prepend (rejection_text (existsb NPC.arrested (Py.values (Game.npcs g))))
                      (Game.spend 1 g).
Proof.
  intros Hk Hb. unfold Game.use_console. run.
  destruct (negb _); [reflexivity|].
  run_with (getitem_some _ _ _ g Hk). run_with (getitem_some _ _ _ g Hb).
  destruct (Py.mem "codes_token" (Room.items brig)).
  - reflexivity.
  - run. unfold rejection_text.
    destruct (existsb NPC.arrested (Py.values (Game.npcs g))).
    + rewrite bind_assoc. run. rewrite prepend_prepend, prepend_prepend. reflexivity.
    + run. reflexivity.
Qed.

(** ** Consequences of the authored tables *)
Lemma statics_get_none {V} (f : V -> V) (d d' : Py.dict V) k :
  statics f d' = statics f d -> (Py.get d' k = None <-> Py.get d k = None).
Proof.
  intros H. assert (E := get_statics f d k). rewrite <- H, get_statics in E.
  destruct (Py.get d' k), (Py.get d k); simpl in E; try discriminate;
    split; intros; congruence.
Qed.

Lemma statics_known {V} (f : V -> V) (d d' : Py.dict V) l :
  statics f d' = statics f d -> known d l -> known d' l.
Proof.
  intros H. unfold known. apply Forall_impl. intros k Hk.
  rewrite (statics_get_none f d d' k H). exact Hk.
Qed.

Lemma statics_get {V} (f : V -> V) (d d' : Py.dict V) k v :
  statics f d' = statics f d -> Py.get d k = Some v ->
  exists v', Py.get d' k = Some v' /\ f v' = f v.
Proof.
  intros H Hv. assert (E := get_statics f d k). rewrite <- H, get_statics, Hv in E.
  destruct (Py.get d' k) as [v'|]; simpl in E; [|discriminate].
  exists v'. split; [reflexivity|congruence].
Qed.

Lemma static_keys_rooms g :
  static_ok g -> Py.keys (Game.rooms g) = Py.keys world_rooms.
Proof.
  intros (H & _). rewrite <- (keys_statics room_static), H.
  apply keys_statics.
Qed.

Lemma static_keys_npcs g :
  static_ok g -> Py.keys (Game.npcs g) = Py.keys world_npcs.
Proof.
  intros (_ & _ & H & _). rewrite <- (keys_statics npc_static), H.
  apply keys_statics.
Qed.

Lemma nodup_strings (l : list string) :
  (fix chk (l : list string) : bool :=
     match l with
     | [] => true
     | a :: r => negb (Py.mem a r) && chk r
     end) l = true -> NoDup l.
Proof.
  induction l as [|a l IH]; intros H; constructor.
  - apply andb_prop in H. destruct H as [H _].
    intros Hin. apply negb_true_iff in H.
    assert (Py.mem a l = true); [|congruence].
    unfold Py.mem. apply existsb_exists. exists a. split; [exact Hin|].
    apply String.eqb_refl.
  - apply IH. apply andb_prop in H. tauto.
Qed.

Lemma static_nodup_rooms g : static_ok g -> NoDup (Py.keys (Game.rooms g)).
Proof.
  intros H. rewrite (static_keys_rooms g H). apply nodup_strings. reflexivity.
Qed.

Lemma static_nodup_npcs g : static_ok g -> NoDup (Py.keys (Game.npcs g)).
Proof.
  intros H. rewrite (static_keys_npcs g H). apply nodup_strings. reflexivity.
Qed.

Lemma steady_static g g' : steady g g' -> static_ok g -> static_ok g'.
Proof.
  intros (_ & _ & _ & S4 & S5 & S6 & S7 & S8) (H1 & H2 & H3 & H4 & H5).
  unfold static_ok. rewrite S4, S5, S6, S7, S8. auto.
Qed.

Lemma coop_arrested g g' nid :
  statics coop_erased (Game.npcs g') = statics coop_erased (Game.npcs g) ->
  is_arrested g nid -> is_arrested g' nid.
Proof.
  intros H (n & Hn & Ha).
  destruct (statics_get _ _ _ _ _ H Hn) as (n' & Hn' & E).
  exists n'. split; [exact Hn'|].
  apply (f_equal NPC.arrested) in E. simpl in E. congruence.
Qed.

(** The reporting methods keep the invariant as long as time is left. *)
Lemma Inv_calm g g' :
  Inv g -> calm g g' -> (0 < Game.time g')%Z -> Inv g'.
Proof.
  intros [Hs Ht Hi Hh Htok Hnd Hev] [(Q1 & Q2 & Q3 & Q4) S] Hpos.
  assert (S' := S). destruct S' as (S1 & S2 & S3 & S4 & S5 & S6 & S7 & S8).
  constructor.
  - eapply steady_static; eauto.
  - exact Hpos.
  - destruct Hi as (I1 & I2 & I3 & I4). unfold ids_ok.
    rewrite Q1, Q2, Q3, S1, S5. repeat split.
    + apply (I1 rid r H).
    + eapply statics_known; [exact S6|]. apply (I1 rid r H).
    + exact I2.
    + exact I3.
    + rewrite (statics_get_none _ _ _ _ S6). exact I4.
  - intros rid r nid Hr Hin Ha. rewrite Q1 in Hr.
    apply (Hh rid r nid Hr Hin). eapply coop_arrested; [|exact Ha]. congruence.
  - destruct Htok as (T1 & T2 & T3). unfold token_ok, token_in_brig in *.
    rewrite Q1, Q2, S1, S7. repeat split.
    + intros Ha. apply T1. eapply coop_arrested; [|exact Ha]. congruence.
    + intros Hb. eapply coop_arrested; [exact Q4|]. apply T1. exact Hb.
    + exact T2.
    + exact T3.
  - unfold all_items. rewrite Q1, Q2. exact Hnd.
  - rewrite S1, S2. exact Hev.
Qed.

Lemma calm_refl g : calm g g.
Proof. split; [apply quiet_refl|apply steady_refl]. Qed.

Lemma calm_trans a b c : calm a b -> calm b c -> calm a c.
Proof.
  intros [? ?] [? ?]. split; [eapply quiet_trans|eapply steady_trans]; eauto.
Qed.

Lemma calm_spend m : (0 <= m <= 3)%Z -> keeps false calm (Game.spend m).
Proof.
  intros Hm g H. split; [apply quiet_spend|apply steady_spend]; auto.
Qed.

Lemma InvR_refl g : InvR g g.
Proof. unfold InvR. auto. Qed.

Lemma InvR_trans a b c : InvR a b -> InvR b c -> InvR a c.
Proof. unfold InvR. auto. Qed.

(** From the two frames of a reporting method to the invariant. *)
Lemma InvR_of_calm {A} (c : Game.M A) :
  keeps false calm c -> keeps true alive c -> keeps true InvR c.
Proof.
  intros Hc Ha g Hok HI. apply (Inv_calm g).
  - exact HI.
  - apply Hc. discriminate.
  - apply Ha; [exact Hok|]. apply (inv_time _ HI).
Qed.

(** ** Lists of identifiers *)
Lemma remove_perm x l l' : Py.remove x l = Some l' -> Permutation l (x :: l').
Proof.
  revert l'. induction l as [|a l IH]; simpl; intros l' H; [discriminate|].
  destruct (a =? x)%string eqn:E.
  - apply String.eqb_eq in E. inversion H; subst. reflexivity.
  - destruct (Py.remove x l) as [l0|]; [|discriminate].
    inversion H; subst. rewrite (IH l0 eq_refl). apply perm_swap.
Qed.

Lemma remove_first x l l' :
  Py.remove x l = Some l' ->
  exists l1 l2, l = l1 ++ x :: l2 /\ l' = l1 ++ l2 /\ ~ In x l1.
Proof.
  revert l'. induction l as [|a l IH]; simpl; intros l' H; [discriminate|].
  destruct (a =? x)%string eqn:E.
  - apply String.eqb_eq in E. inversion H; subst. exists [], l'. auto.
  - destruct (Py.remove x l) as [l0|]; [|discriminate].
    inversion H; subst. destruct (IH l0 eq_refl) as (l1 & l2 & -> & -> & Hn).
    exists (a :: l1), l2. repeat split; auto.
    intros [->|Hin]; [|tauto]. rewrite String.eqb_refl in E. discriminate.
Qed.

Lemma remove_some x l : In x l -> exists l', Py.remove x l = Some l'.
Proof.
  induction l as [|a l IH]; simpl; [tauto|].
  intros H. destruct (a =? x)%string eqn:E; [eauto|].
  destruct IH as (l' & ->); [|eauto].
  destruct H as [->|H]; [|exact H]. rewrite String.eqb_refl in E. discriminate.
Qed.

Lemma remove_absent x l : ~ In x l -> Py.remove x (l ++ [x]) = Some l.
Proof.
  induction l as [|a l IH]; simpl; intros H.
  - rewrite String.eqb_refl. reflexivity.
  - destruct (a =? x)%string eqn:E.
    + apply String.eqb_eq in E. tauto.
    + rewrite IH; tauto.
Qed.

Lemma mem_In x l : Py.mem x l = true <-> In x l.
Proof.
  unfold Py.mem. rewrite existsb_exists. split.
  - intros (y & Hy & E). apply String.eqb_eq in E. congruence.
  - intros H. exists x. split; [exact H|apply String.eqb_refl].
Qed.

Lemma find_some_in {A} (f : A -> bool) l x : find f l = Some x -> In x l.
Proof. intros H. apply find_some in H. tauto. Qed.

(** ** Updating one room *)
Lemma all_items_split g rid r :
  Py.get (Game.rooms g) rid = Some r ->
  exists A B,
    all_items g = A ++ Room.items r ++ B
    /\ forall r', all_items (Game.set_rooms g (Py.set (Game.rooms g) rid r'))
                  = A ++ Room.items r' ++ B.
Proof.
  intros H. destruct (get_split _ _ _ H) as (d1 & d2 & E & _ & Hs).
  exists (flat_map Room.items (Py.values d1)), (flat_map Room.items (Py.values d2)).
  unfold all_items, Py.values. split.
  - rewrite E, map_app, flat_map_app. reflexivity.
  - intros r'. simpl. rewrite Hs, map_app, flat_map_app. reflexivity.
Qed.

Lemma get_set_cases {V} (d : Py.dict V) k v v0 k' v' :
  Py.get d k = Some v0 ->
  Py.get (Py.set d k v) k' = Some v' ->
  (k' = k /\ v' = v) \/ (k' <> k /\ Py.get d k' = Some v').
Proof.
  intros H0 H. rewrite (get_set _ _ _ _ _ H0) in H.
  destruct (k =? k')%string eqn:E.
  - apply String.eqb_eq in E. left. split; congruence.
  - apply String.eqb_neq in E. right. split; congruence.
Qed.

Lemma static_set_room g rid r r' :
  static_ok g -> Py.get (Game.rooms g) rid = Some r ->
  room_static r' = room_static r ->
  static_ok (Game.set_rooms g (Py.set (Game.rooms g) rid r')).
Proof.
  intros (H1 & H2) Hr E. split; [|exact H2]. simpl.
  rewrite (statics_set room_static _ _ _ _ Hr E). exact H1.
Qed.

Lemma static_set_npc g nid n n' :
  static_ok g -> Py.get (Game.npcs g) nid = Some n ->
  npc_static n' = npc_static n ->
  static_ok (Game.set_npcs g (Py.set (Game.npcs g) nid n')).
Proof.
  intros (H1 & H2 & H3 & H4) Hn E. split; [exact H1|]. split; [exact H2|].
  split; [|exact H4]. simpl.
  rewrite (statics_set npc_static _ _ _ _ Hn E). exact H3.
Qed.

Lemma token_fixed g it :
  static_ok g -> Py.get (Game.items g) "codes_token" = Some it ->
  Item.portable it = false.
Proof.
  intros (_ & H & _). rewrite H. vm_compute. intros E. inversion E. reflexivity.
Qed.

Lemma Inv_set_time g t : Inv g -> (0 < t)%Z -> Inv (Game.set_time g t).
Proof. intros [? ? ? ? ? ? ?] Ht. constructor; auto. Qed.

Lemma Inv_spend g m a g' o :
  Inv g -> Game.spend m g = (Game.Ok a, g', o) -> Inv g'.
Proof.
  intros HI H. rewrite spend_run in H. cbv zeta in H.
  destruct (_ =? _)%Z eqn:E; [discriminate|]. inversion H; subst.
  apply Inv_set_time; [exact HI|]. apply Z.eqb_neq in E. lia.
Qed.

(** A successful [take] keeps the invariant. *)
Lemma Inv_after_take g r l iid it :
  Inv g ->
  Py.get (Game.rooms g) (Game.player_room g) = Some r ->
  Py.get (Game.items g) iid = Some it -> Item.portable it = true ->
  Py.remove iid (Room.items r) = Some l ->
  Inv (after_take g r l iid).
Proof.
  intros [Hs Ht Hi Hh Htok Hnd Hev] Hr Hit Hp Hrem.
  assert (Hperm := remove_perm _ _ _ Hrem).
  assert (Hsub : forall x, In x l -> In x (Room.items r)).
  { intros x Hx. apply (Permutation_in _ (Permutation_sym Hperm)). right. exact Hx. }
  assert (Hne : iid <> "codes_token").
  { intros ->. rewrite (token_fixed g it Hs Hit) in Hp. discriminate. }
  destruct Hi as (I1 & I2 & I3 & I4). destruct Htok as (T1 & T2 & T3).
  constructor.
  - apply (static_set_room g _ r); auto.
  - exact Ht.
  - repeat split.
    + simpl in H. destruct (get_set_cases _ _ _ _ _ _ Hr H) as [[-> ->]|[_ H']].
      * simpl. unfold known. rewrite Forall_forall. intros x Hx.
        destruct (I1 _ _ Hr) as [K _]. unfold known in K. rewrite Forall_forall in K.
        apply K. auto.
      * apply (I1 _ _ H').
    + simpl in H. destruct (get_set_cases _ _ _ _ _ _ Hr H) as [[-> ->]|[_ H']].
      * simpl. apply (I1 _ _ Hr).
      * apply (I1 _ _ H').
    + simpl. apply Forall_app. split; [exact I2|]. constructor; [congruence|constructor].
    + simpl. rewrite (get_set_same _ _ _ _ Hr). discriminate.
    + exact I4.
  - intros rid r0 nid H Hin. simpl in H.
    destruct (get_set_cases _ _ _ _ _ _ Hr H) as [[-> ->]|[_ H']].
    + apply (Hh _ _ nid Hr Hin).
    + apply (Hh _ _ nid H' Hin).
  - repeat split.
    + intros Ha. destruct (proj1 T1 Ha) as (brig & Hb & Hin).
      unfold token_in_brig. simpl.
      destruct (String.eqb_spec (Game.player_room g) (Game.brigrm g)) as [E|E].
      * rewrite <- E, (get_set_same _ _ _ _ Hr). eexists; split; [reflexivity|].
        simpl. rewrite <- E, Hr in Hb. inversion Hb; subst brig.
        apply (Permutation_in _ Hperm) in Hin. destruct Hin; [congruence|auto].
      * rewrite get_set_other; [|congruence]. eauto.
    + intros (brig & Hb & Hin). apply T1. simpl in Hb.
      destruct (get_set_cases _ _ _ _ _ _ Hr Hb) as [[E ->]|[_ H']].
      * exists r. split; [congruence|]. apply Hsub. exact Hin.
      * exists brig. auto.
    + simpl. rewrite in_app_iff. simpl. intros [H|[H|[]]]; [tauto|congruence].
    + intros rid r0 H Hin. simpl in H.
      destruct (get_set_cases _ _ _ _ _ _ Hr H) as [[-> ->]|[_ H']].
      * apply (T3 _ _ Hr). apply Hsub. exact Hin.
      * apply (T3 _ _ H' Hin).
  - destruct (all_items_split g _ _ Hr) as (A & B & E1 & E2).
    unfold after_take. simpl.
    change (all_items _) with
      (all_items (Game.set_rooms g (Py.set (Game.rooms g) (Game.player_room g)
                                           (Room.set_items r l)))).
    rewrite E2. simpl. rewrite E1 in Hnd.
    eapply Permutation_NoDup; [|exact Hnd].
    rewrite <- app_assoc. apply Permutation_app_head.
    rewrite Hperm. simpl.
    rewrite (Permutation_app_comm A), <- app_comm_cons.
    apply perm_skip. rewrite (Permutation_app_comm A). reflexivity.
  - exact Hev.
Qed.

(** A successful [drop] keeps the invariant. *)
Lemma Inv_after_drop g r l iid :
  Inv g ->
  Py.get (Game.rooms g) (Game.player_room g) = Some r ->
  Py.remove iid (Game.inv g) = Some l ->
  Inv (after_drop g r l iid).
Proof.
  intros [Hs Ht Hi Hh Htok Hnd Hev] Hr Hrem.
  assert (Hperm := remove_perm _ _ _ Hrem).
  assert (Hsub : forall x, In x l -> In x (Game.inv g)).
  { intros x Hx. apply (Permutation_in _ (Permutation_sym Hperm)). right. exact Hx. }
  assert (Hiid : In iid (Game.inv g)).
  { apply (Permutation_in _ (Permutation_sym Hperm)). left. reflexivity. }
  destruct Hi as (I1 & I2 & I3 & I4). destruct Htok as (T1 & T2 & T3).
  assert (Hne : iid <> "codes_token") by congruence.
  assert (Kinv := I2). unfold known in Kinv. rewrite Forall_forall in Kinv.
  constructor.
  - apply (static_set_room (Game.set_inv g l) _ r); auto.
  - exact Ht.
  - repeat split.
    + simpl in H. destruct (get_set_cases _ _ _ _ _ _ Hr H) as [[-> ->]|[_ H']].
      * simpl. apply Forall_app. split; [apply (I1 _ _ Hr)|].
        constructor; [apply Kinv; exact Hiid|constructor].
      * apply (I1 _ _ H').
    + simpl in H. destruct (get_set_cases _ _ _ _ _ _ Hr H) as [[-> ->]|[_ H']].
      * simpl. apply (I1 _ _ Hr).
      * apply (I1 _ _ H').
    + simpl. unfold known. rewrite Forall_forall. auto.
    + simpl. rewrite (get_set_same _ _ _ _ Hr). discriminate.
    + exact I4.
  - intros rid r0 nid H Hin. simpl in H.
    destruct (get_set_cases _ _ _ _ _ _ Hr H) as [[-> ->]|[_ H']].
    + apply (Hh _ _ nid Hr Hin).
    + apply (Hh _ _ nid H' Hin).
  - repeat split.
    + intros Ha. destruct (proj1 T1 Ha) as (brig & Hb & Hin).
      unfold token_in_brig. simpl.
      destruct (String.eqb_spec (Game.player_room g) (Game.brigrm g)) as [E|E].
      * rewrite <- E, (get_set_same _ _ _ _ Hr). eexists; split; [reflexivity|].
        simpl. rewrite <- E, Hr in Hb. inversion Hb; subst brig.
        apply in_or_app. auto.
      * rewrite get_set_other; [|congruence]. eauto.
    + intros (brig & Hb & Hin). apply T1. simpl in Hb.
      destruct (get_set_cases _ _ _ _ _ _ Hr Hb) as [[E ->]|[_ H']].
      * exists r. split; [congruence|]. simpl in Hin.
        apply in_app_or in Hin. destruct Hin as [Hin|[Hin|[]]]; [exact Hin|congruence].
      * exists brig. auto.
    + simpl. auto.
    + intros rid r0 H Hin. simpl in H.
      destruct (get_set_cases _ _ _ _ _ _ Hr H) as [[-> ->]|[_ H']].
      * apply (T3 _ _ Hr). simpl in Hin.
        apply in_app_or in Hin. destruct Hin as [Hin|[Hin|[]]]; [exact Hin|congruence].
      * apply (T3 _ _ H' Hin).
  - destruct (all_items_split g _ _ Hr) as (A & B & E1 & E2).
    unfold after_drop. simpl.
    change (all_items _) with
      (all_items (Game.set_rooms g (Py.set (Game.rooms g) (Game.player_room g)
                                           (Room.set_items r (Room.items r ++ [iid]))))).
    rewrite E2. simpl. rewrite E1 in Hnd.
    eapply Permutation_NoDup; [|exact Hnd].
    rewrite Hperm. simpl.
    replace (l ++ A ++ (Room.items r ++ [iid]) ++ B)
      with ((l ++ A ++ Room.items r) ++ iid :: B)
      by (rewrite <- !app_assoc; reflexivity).
    apply Permutation_cons_app. rewrite <- !app_assoc. reflexivity.
  - exact Hev.
Qed.

(** ** After [_sync_npcs_in_room] *)
Lemma get_sync ns rs rid :
  Py.get (sync_rooms ns rs) rid
  = option_map (fun r => Room.set_npcs r (Game.visible_npcs ns rid)) (Py.get rs rid).
Proof.
  induction rs as [|[k r] rs IH]; simpl; [reflexivity|].
  destruct (String.eqb_spec k rid) as [->|E]; [reflexivity|exact IH].
Qed.

Lemma get_sync_inv ns rs rid r' :
  Py.get (sync_rooms ns rs) rid = Some r' ->
  exists r, Py.get rs rid = Some r
            /\ r' = Room.set_npcs r (Game.visible_npcs ns rid).
Proof.
  rewrite get_sync. destruct (Py.get rs rid) as [r|]; simpl; [|discriminate].
  intros H. inversion H. eauto.
Qed.

Lemma all_items_sync g : all_items (after_sync g) = all_items g.
Proof.
  unfold all_items, after_sync, sync_rooms, Py.values. simpl.
  induction (Game.rooms g) as [|[k r] rs IH]; simpl; [reflexivity|].
  rewrite IH. reflexivity.
Qed.

Lemma statics_sync ns rs :
  statics room_static (sync_rooms ns rs) = statics room_static rs.
Proof.
  unfold statics, sync_rooms. rewrite map_map. apply map_ext.
  intros [k r]. reflexivity.
Qed.

Lemma visible_spec ns rid nid :
  NoDup (Py.keys ns) ->
  In nid (Game.visible_npcs ns rid) ->
  exists n, Py.get ns nid = Some n /\ NPC.room n = rid /\ NPC.arrested n = false.
Proof.
  intros Hnd Hin. unfold Game.visible_npcs in Hin.
  apply in_map_iff in Hin. destruct Hin as ([k n] & <- & Hin).
  apply filter_In in Hin. destruct Hin as [Hin Hf]. simpl in *.
  apply andb_prop in Hf. destruct Hf as [Hroom Harr].
  exists n. split; [apply in_get; auto|].
  split; [apply String.eqb_eq; exact Hroom|].
  apply negb_true_iff. exact Harr.
Qed.

Lemma visible_complete ns rid nid n :
  Py.get ns nid = Some n -> NPC.room n = rid -> NPC.arrested n = false ->
  In nid (Game.visible_npcs ns rid).
Proof.
  intros Hn Hroom Harr. unfold Game.visible_npcs.
  apply in_map_iff. exists (nid, n). split; [reflexivity|].
  apply filter_In. split; [apply get_in; exact Hn|]. simpl.
  rewrite Hroom, String.eqb_refl, Harr. reflexivity.
Qed.

Lemma hidden_after_sync g :
  NoDup (Py.keys (Game.npcs g)) -> arrested_hidden (after_sync g).
Proof.
  intros Hnd rid r nid Hr Hin (n & Hn & Ha). simpl in *.
  destruct (get_sync_inv _ _ _ _ Hr) as (r0 & _ & ->). simpl in Hin.
  destruct (visible_spec _ _ _ Hnd Hin) as (n' & Hn' & _ & Hf). congruence.
Qed.

Lemma known_visible ns rid :
  NoDup (Py.keys ns) -> known ns (Game.visible_npcs ns rid).
Proof.
  intros Hnd. unfold known. rewrite Forall_forall. intros nid Hin.
  destruct (visible_spec _ _ _ Hnd Hin) as (n & Hn & _). congruence.
Qed.

Lemma token_in_brig_sync g : token_in_brig (after_sync g) <-> token_in_brig g.
Proof.
  unfold token_in_brig. simpl. split.
  - intros (brig & Hb & Hin). destruct (get_sync_inv _ _ _ _ Hb) as (r & Hr & ->).
    exists r. auto.
  - intros (brig & Hb & Hin). rewrite get_sync, Hb. simpl. eexists; split; eauto.
Qed.

(** Recomputing the room lists restores the invariant from a state where
    everything but the lists is in order. *)
Lemma Inv_after_sync g :
  static_ok g -> (0 < Game.time g)%Z ->
  (forall rid r, Py.get (Game.rooms g) rid = Some r ->
     known (Game.items g) (Room.items r)) ->
  known (Game.items g) (Game.inv g) ->
  Py.get (Game.rooms g) (Game.player_room g) <> None ->
  Py.get (Game.npcs g) (Game.killer_id g) <> None ->
  token_ok g -> NoDup (Game.inv g ++ all_items g) ->
  Py.get (Game.killer_evidence g) (Game.killer_id g) <> None ->
  Inv (after_sync g).
Proof.
  intros Hs Ht I1 I2 I3 I4 (T1 & T2 & T3) Hnd Hev.
  assert (Hn := static_nodup_npcs g Hs).
  constructor.
  - destruct Hs as (H1 & H2). split; [|exact H2]. simpl.
    rewrite statics_sync. exact H1.
  - exact Ht.
  - repeat split.
    + simpl in H. destruct (get_sync_inv _ _ _ _ H) as (r0 & Hr0 & ->).
      simpl. apply (I1 _ _ Hr0).
    + simpl in H. destruct (get_sync_inv _ _ _ _ H) as (r0 & Hr0 & ->).
      simpl. apply known_visible. exact Hn.
    + exact I2.
    + simpl. rewrite get_sync.
      destruct (Py.get (Game.rooms g) (Game.player_room g)); [discriminate|tauto].
    + exact I4.
  - apply hidden_after_sync. exact Hn.
  - repeat split.
    + intros Ha. apply token_in_brig_sync. apply T1. exact Ha.
    + intros Hb. apply (proj1 (token_in_brig_sync g)) in Hb. apply T1. exact Hb.
    + exact T2.
    + intros rid r H Hin. simpl in H.
      destruct (get_sync_inv _ _ _ _ H) as (r0 & Hr0 & ->). apply (T3 _ _ Hr0 Hin).
  - rewrite all_items_sync. exact Hnd.
  - exact Hev.
Qed.

(** ** The methods keep the invariant *)
Lemma state_prepend {A} o (x : Game.res A * Game.t * list string) :
  state (prepend o x) = state x.
Proof. destruct x as [[r g] o']. reflexivity. Qed.

Lemma result_prepend {A} o (x : Game.res A * Game.t * list string) :
  result (prepend o x) = result x.
Proof. destruct x as [[r g] o']. reflexivity. Qed.

Lemma output_prepend {A} o (x : Game.res A * Game.t * list string) :
  output (prepend o x) = o ++ output x.
Proof. destruct x as [[r g] o']. reflexivity. Qed.

Lemma InvR_spend m : keeps true InvR (Game.spend m).
Proof.
  intros g Hok HI. specialize (Hok eq_refl).
  destruct (Game.spend m g) as [[[a|e] g'] o] eqn:E; [|discriminate].
  eapply Inv_spend; eauto.
Qed.

Lemma Inv_current_room g :
  Inv g -> exists r, Py.get (Game.rooms g) (Game.player_room g) = Some r.
Proof.
  intros HI. destruct (inv_ids _ HI) as (_ & _ & H & _).
  destruct (Py.get (Game.rooms g) (Game.player_room g)) as [r|]; [eauto|congruence].
Qed.

Lemma InvR_take args : keeps true InvR (Game.take args).
Proof.
  intros g Hok HI. specialize (Hok eq_refl). destruct args as [|a args]; [exact HI|].
  destruct (Inv_current_room g HI) as (r & Hr).
  assert (Hk : known (Game.items g) (Room.items r)).
  { destruct (inv_ids _ HI) as (I1 & _). apply (I1 _ _ Hr). }
  rewrite (take_run g a args r Hr Hk) in *. cbv zeta in *.
  destruct (Game.truthy _) as [iid|]; [|exact HI].
  destruct (Py.get (Game.items g) iid) as [it|] eqn:Eit; [|exact HI].
  destruct (Item.portable it) eqn:Ep; simpl negb in *; cbv iota in *; [|exact HI].
  destruct (Py.remove iid (Room.items r)) as [l|] eqn:El; [|exact HI].
  rewrite state_prepend. rewrite result_prepend in Hok.
  apply InvR_spend; [intros _; exact Hok|].
  eapply Inv_after_take; eauto.
Qed.

Lemma InvR_drop args : keeps true InvR (Game.drop args).
Proof.
  intros g Hok HI. specialize (Hok eq_refl). destruct args as [|a args]; [exact HI|].
  destruct (Inv_current_room g HI) as (r & Hr).
  assert (Hk : known (Game.items g) (Game.inv g)).
  { destruct (inv_ids _ HI) as (_ & I2 & _). exact I2. }
  rewrite (drop_run g a args r Hr Hk) in *. cbv zeta in *.
  destruct (Game.truthy _) as [iid|]; [|exact HI].
  destruct (Py.remove iid (Game.inv g)) as [l|] eqn:El; [|exact HI].
  destruct (Py.get (Game.items g) iid) as [it|] eqn:Eit; [|discriminate].
  rewrite state_prepend. rewrite result_prepend in Hok.
  apply InvR_spend; [intros _; exact Hok|].
  eapply Inv_after_drop; eauto.
Qed.

Lemma world_room_id k rw : Py.get world_rooms k = Some rw -> Room.id rw = k.
Proof.
  intros H. apply get_in in H. simpl in H.
  repeat (destruct H as [H|H]; [inversion H; reflexivity|]). destruct H.
Qed.

Lemma static_room_id g k r :
  static_ok g -> Py.get (Game.rooms g) k = Some r -> Room.id r = k.
Proof.
  intros (H & _) Hr.
  destruct (statics_get room_static _ _ k r (eq_sym H) Hr) as (rw & Hw & E).
  rewrite <- (world_room_id k rw Hw).
  apply (f_equal Room.id) in E. simpl in E. congruence.
Qed.

Lemma room_at_xy_known g x y target :
  static_ok g -> Game.room_at_xy g x y = Some target ->
  Py.get (Game.rooms g) (Room.id target) = Some target.
Proof.
  intros Hs H. unfold Game.room_at_xy in H. apply find_some_in in H.
  unfold Py.values in H. apply in_map_iff in H. destruct H as ([k r] & E & Hin).
  simpl in E. subst r.
  assert (Hg := in_get _ _ _ (static_nodup_rooms g Hs) Hin).
  rewrite (static_room_id g k target Hs Hg). exact Hg.
Qed.

(** [move] up to the point where the new room is described. *)
Lemma move_run g d r :
  Py.get (Game.rooms g) (Game.player_room g) = Some r ->
  NoDup (Py.keys (Game.rooms g)) ->
  Game.move d g =
    match Py.get Game.DIRS (Py.lower d) with
    | None => (Game.Ok tt, g, ["Use: go n/e/s/w"])
    | Some (dx, dy) =>
        match Game.room_at_xy g (Room.x r + dx) (Room.y r + dy) with
        | None => (Game.Ok tt, g, ["Access denied or bulkhead sealed."])
        | Some target =>
            Game.bind Game.look (fun _ => Game.spend 2)
              (after_sync (Game.set_player_room g (Room.id target)))
        end
    end.
Proof.
  intros Hr Hnd. unfold Game.move.
  destruct (Py.get Game.DIRS (Py.lower d)) as [[dx dy]|]; [|reflexivity].
  run_with (current_room_run _ _ Hr). run.
  destruct (Game.room_at_xy g _ _) as [target|]; [|reflexivity].
  run.
  assert (Hnd' : NoDup (Py.keys (Game.rooms (Game.set_player_room g (Room.id target)))))
    by exact Hnd.
  run_with (sync_run _ Hnd'). reflexivity.
Qed.

Lemma InvR_look : keeps true InvR Game.look.
Proof.
  apply InvR_of_calm.
  - apply keeps_look; auto using calm_refl, calm_spend. apply calm_trans.
  - apply keeps_look; auto using alive_refl, alive_spend. apply alive_trans.
Qed.

Lemma InvR_move d : keeps true InvR (Game.move d).
Proof.
  intros g Hok HI. specialize (Hok eq_refl).
  destruct (Inv_current_room g HI) as (r & Hr).
  assert (Hs := inv_static _ HI).
  rewrite (move_run g d r Hr (static_nodup_rooms g Hs)) in *.
  destruct (Py.get Game.DIRS (Py.lower d)) as [[dx dy]|]; [|exact HI].
  destruct (Game.room_at_xy g _ _) as [target|] eqn:Et; [|exact HI].
  assert (K : keeps true InvR (Game.bind Game.look (fun _ => Game.spend 2))).
  { apply keeps_bind; [apply InvR_trans|apply InvR_look|intros _; apply InvR_spend]. }
  apply K.
  - intros _. exact Hok.
  - destruct HI as [Hs' Ht (I1 & I2 & I3 & I4) Hh Htok Hnd Hev].
    apply Inv_after_sync; auto.
    + intros rid r0 H. apply (I1 _ _ H).
    + simpl. rewrite (room_at_xy_known g _ _ target Hs Et). discriminate.
Qed.

(** ** Arrest *)
Lemma set_sync ns rs k r l :
  Py.get rs k = Some r ->
  Py.set (sync_rooms ns rs) k
    (Room.set_items (Room.set_npcs r (Game.visible_npcs ns k)) l)
  = sync_rooms ns (Py.set rs k (Room.set_items r l)).
Proof.
  induction rs as [|[k0 r0] rs IH]; simpl; [discriminate|].
  destruct (String.eqb_spec k0 k) as [->|E].
  - intros H. inversion H; subst. reflexivity.
  - intros H. simpl. rewrite (IH H). reflexivity.
Qed.

Lemma sync_with_token g brig :
  Py.get (Game.rooms g) (Game.brigrm g) = Some brig ->
  with_token (after_sync g)
    (Room.set_npcs brig (Game.visible_npcs (Game.npcs g) (Game.brigrm g)))
  = after_sync (with_token g brig).
Proof.
  intros H. unfold with_token, after_sync. simpl.
  rewrite (set_sync _ _ _ _ (Room.items brig ++ ["codes_token"]) H). reflexivity.
Qed.

Lemma in_all_items g x :
  NoDup (Py.keys (Game.rooms g)) -> In x (all_items g) ->
  exists rid r, Py.get (Game.rooms g) rid = Some r /\ In x (Room.items r).
Proof.
  intros Hnd Hin. unfold all_items in Hin. apply in_flat_map in Hin.
  destruct Hin as (r & Hr & Hx). unfold Py.values in Hr.
  apply in_map_iff in Hr. destruct Hr as ([k r'] & E & Hr). simpl in E. subst r'.
  exists k, r. split; [apply in_get; auto|exact Hx].
Qed.

Lemma Inv_brig g : Inv g -> exists brig, Py.get (Game.rooms g) (Game.brigrm g) = Some brig.
Proof.
  intros HI. destruct (inv_static _ HI) as (H & _ & _ & Hb & _).
  assert (E : Py.get (statics room_static (Game.rooms g)) "brig" <> None).
  { rewrite H. vm_compute. discriminate. }
  rewrite get_statics in E. rewrite Hb.
  destruct (Py.get (Game.rooms g) "brig") as [b|]; [eauto|]. simpl in E. congruence.
Qed.

(** The state [arrest] reaches for an NPC that is not the culprit. *)
Lemma Inv_cuffed_other g tid n :
  Inv g -> Py.get (Game.npcs g) tid = Some n ->
  tid <> Game.killer_id g ->
  Inv (cuffed g tid n).
Proof.
  intros [Hs Ht (I1 & I2 & I3 & I4) Hh (T1 & T2 & T3) Hnd Hev] Hn Hne.
  apply Inv_after_sync; simpl; auto.
  - apply (static_set_npc g tid n); auto.
  - intros rid r H. apply (I1 _ _ H).
  - rewrite get_set_other; auto.
  - unfold token_ok, is_arrested, token_in_brig in *. simpl.
    rewrite get_set_other; auto.
Qed.

(** The state [arrest] reaches for the culprit. *)
Lemma Inv_cuffed_killer g n brig2 :
  Inv g -> Py.get (Game.npcs g) (Game.killer_id g) = Some n ->
  NPC.arrested n = false ->
  Py.get (Game.rooms (cuffed g (Game.killer_id g) n)) (Game.brigrm g) = Some brig2 ->
  Py.mem "codes_token" (Room.items brig2) = false
  /\ Inv (with_token (cuffed g (Game.killer_id g) n) brig2).
Proof.
  intros HI Hn Harr Hb2.
  assert (Hs := inv_static _ HI). assert (Hnk := static_nodup_rooms g Hs).
  destruct HI as [_ Ht (I1 & I2 & I3 & I4) Hh (T1 & T2 & T3) Hnd Hev].
  unfold cuffed in Hb2. simpl in Hb2.
  destruct (get_sync_inv _ _ _ _ Hb2) as (brig & Hb & E).
  assert (Habs : ~ In "codes_token" (Room.items brig)).
  { intros Hin. destruct (proj2 T1) as (n' & Hn' & Ha'); [exists brig; auto|].
    congruence. }
  assert (Hnone : ~ In "codes_token" (Game.inv g ++ all_items g)).
  { rewrite in_app_iff. intros [Hin|Hin]; [tauto|].
    destruct (in_all_items g _ Hnk Hin) as (rid & r & Hr & Hx).
    rewrite (T3 _ _ Hr Hx) in Hr. congruence. }
  split.
  { subst brig2. simpl. destruct (Py.mem _ _) eqn:Em; [|reflexivity].
    apply mem_In in Em. tauto. }
  subst brig2. unfold cuffed.
  set (g1 := Game.set_npcs g _).
  change (Game.brigrm g) with (Game.brigrm g1).
  change (Game.visible_npcs _ _) with (Game.visible_npcs (Game.npcs g1) (Game.brigrm g1)).
  rewrite (sync_with_token g1 brig Hb).
  assert (Hs1 : static_ok g1) by (apply (static_set_npc g _ n); auto).
  apply Inv_after_sync.
  - apply (static_set_room g1 _ brig); auto.
  - exact Ht.
  - intros rid r H. simpl in H.
    destruct (get_set_cases _ _ _ _ _ _ Hb H) as [[-> ->]|[_ H']].
    + simpl. apply Forall_app. split; [apply (I1 _ _ Hb)|].
      constructor; [|constructor]. destruct Hs as (_ & -> & _). vm_compute. discriminate.
    + apply (I1 _ _ H').
  - exact I2.
  - simpl. rewrite (get_set _ _ _ _ _ Hb).
    destruct (_ =? _)%string; [discriminate|exact I3].
  - simpl. rewrite (get_set_same _ _ _ _ Hn). discriminate.
  - repeat split.
    + intros _. exists (Room.set_items brig (Room.items brig ++ ["codes_token"])).
      simpl. rewrite (get_set_same _ _ _ _ Hb). split; [reflexivity|].
      apply in_or_app. right. left. reflexivity.
    + intros _. eexists. simpl. rewrite (get_set_same _ _ _ _ Hn).
      split; [reflexivity|reflexivity].
    + exact T2.
    + intros rid r H Hin. simpl in H.
      destruct (get_set_cases _ _ _ _ _ _ Hb H) as [[-> ->]|[_ H']]; [reflexivity|].
      apply (T3 _ _ H' Hin).
  - destruct (all_items_split g _ _ Hb) as (A & B & E1 & E2).
    change (Game.inv (with_token g1 brig)) with (Game.inv g).
    change (all_items (with_token g1 brig)) with
      (all_items (Game.set_rooms g (Py.set (Game.rooms g) (Game.brigrm g)
         (Room.set_items brig (Room.items brig ++ ["codes_token"]))))).
    rewrite E2. simpl. rewrite E1 in Hnd, Hnone.
    replace (Game.inv g ++ A ++ (Room.items brig ++ ["codes_token"]) ++ B)
      with ((Game.inv g ++ A ++ Room.items brig) ++ "codes_token" :: B)
      by (rewrite <- !app_assoc; reflexivity).
    apply NoDup_Add with (a := "codes_token") (l := Game.inv g ++ A ++ Room.items brig ++ B).
    + replace (Game.inv g ++ A ++ Room.items brig ++ B)
        with ((Game.inv g ++ A ++ Room.items brig) ++ B)
        by (rewrite <- !app_assoc; reflexivity).
      apply Add_app.
    + split; assumption.
  - exact Hev.
Qed.

Lemma InvR_arrest args : keeps true InvR (Game.arrest args).
Proof.
  intros g Hok HI. specialize (Hok eq_refl). destruct args as [|a args]; [exact HI|].
  destruct (Inv_current_room g HI) as (r & Hr).
  assert (Hs := inv_static _ HI).
  assert (Hk : known (Game.npcs g) (Room.npcs r)).
  { destruct (inv_ids _ HI) as (I1 & _). apply (I1 _ _ Hr). }
  rewrite (arrest_run g a args r Hr Hk (static_nodup_rooms g Hs)) in *. cbv zeta in *.
  destruct (negb _); [exact HI|].
  destruct (Game.truthy _) as [tid|]; [|exact HI].
  destruct (Py.get (Game.npcs g) tid) as [n|] eqn:En; [|exact HI].
  destruct (NPC.arrested n) eqn:Ea; [exact HI|].
  destruct (String.eqb_spec tid (Game.killer_id g)) as [->|Hne].
  - destruct (Py.get (Game.rooms (cuffed g (Game.killer_id g) n)) (Game.brigrm g))
      as [brig2|] eqn:Eb; [|discriminate].
    destruct (Inv_cuffed_killer g n brig2 HI En Ea Eb) as (Em & HI').
    rewrite Em in *. simpl negb in *. cbv iota in *.
    rewrite state_prepend. rewrite result_prepend in Hok.
    apply InvR_spend; [intros _; exact Hok|exact HI'].
  - rewrite state_prepend. rewrite result_prepend in Hok.
    apply InvR_spend; [intros _; exact Hok|].
    apply Inv_cuffed_other; auto.
Qed.

(** ** Save and load *)
Lemma set_new {V} (d : Py.dict V) k v :
  Py.get d k = None -> Py.set d k v = d ++ [(k, v)].
Proof.
  induction d as [|[k0 v0] d IH]; simpl; [reflexivity|].
  destruct (k0 =? k)%string; [discriminate|]. intros H. rewrite IH; auto.
Qed.

Lemma dict_of_acc {V} (l : list (string * V)) : forall acc,
  NoDup (Py.keys (acc ++ l)) ->
  fold_left (fun d kv => Py.set d (fst kv) (snd kv)) l acc = acc ++ l.
Proof.
  induction l as [|[k v] l IH]; intros acc Hnd; simpl.
  - rewrite app_nil_r. reflexivity.
  - rewrite set_new.
    + rewrite IH; rewrite <- app_assoc; [reflexivity|exact Hnd].
    + apply get_none_keys. unfold Py.keys in *. rewrite map_app in Hnd.
      simpl in Hnd. apply NoDup_remove_2 in Hnd. intros Hin. apply Hnd.
      apply in_or_app. auto.
Qed.

Lemma dict_of_nodup {V} (l : list (string * V)) :
  NoDup (Py.keys l) -> Game.dict_of l = l.
Proof. intros H. unfold Game.dict_of. apply (dict_of_acc l []). exact H. Qed.

Lemma room_restore ra rb :
  room_static ra = room_static rb ->
  Room.set_npcs (Room.set_items ra (Room.items rb)) (Room.npcs rb) = rb.
Proof.
  destruct ra, rb. unfold room_static. simpl. intros H. inversion H. reflexivity.
Qed.

Lemma npc_restore na nb :
  npc_static na = npc_static nb ->
  NPC.set_cooperative
    (NPC.set_arrested (NPC.set_room na (NPC.room nb)) (NPC.arrested nb))
    (NPC.cooperative nb) = nb.
Proof.
  destruct na, nb. unfold npc_static. simpl. intros H. inversion H. reflexivity.
Qed.

Lemma load_rooms_loop b2 : forall a2 b1 g,
  statics room_static a2 = statics room_static b2 ->
  Game.rooms g = b1 ++ a2 ->
  NoDup (Py.keys (b1 ++ a2)) ->
  Game.for_each (map room_entry b2) (fun e =>
      let (rid, stuff) := e in
      Game.upd_room rid (fun r =>
        Room.set_npcs (Room.set_items r (Save.RoomEntry.items stuff))
                      (Save.RoomEntry.npcs stuff))) g
  = (Game.Ok tt, Game.set_rooms g (b1 ++ b2), []).
Proof.
  induction b2 as [|[k rb] b2 IH]; intros a2 b1 g Hst Hg Hnd.
  - destruct a2; [|discriminate]. simpl. rewrite <- Hg. destruct g; reflexivity.
  - destruct a2 as [|[k' ra] a2]; [discriminate|].
    apply statics_cons_inv in Hst. destruct Hst as (Ek & Er & Hst'). subst k'.
    assert (Hk : Py.get b1 k = None).
    { apply get_none_keys. unfold Py.keys in *. rewrite map_app in Hnd.
      simpl in Hnd. apply NoDup_remove_2 in Hnd. intros Hin. apply Hnd.
      apply in_or_app. auto. }
    assert (Hget : Py.get (Game.rooms g) k = Some ra).
    { rewrite Hg, (get_app_none _ _ _ Hk). simpl. rewrite String.eqb_refl. reflexivity. }
    simpl.
    run_with (upd_room_run k (fun r =>
        Room.set_npcs (Room.set_items r (Room.items rb)) (Room.npcs rb)) g ra Hget).
    rewrite (room_restore ra rb Er), Hg, (set_app_none _ _ _ _ _ Hk).
    rewrite (IH a2 (b1 ++ [(k, rb)])).
    + simpl. rewrite <- app_assoc. reflexivity.
    + exact Hst'.
    + simpl. rewrite <- app_assoc. reflexivity.
    + rewrite <- app_assoc. unfold Py.keys in *. rewrite map_app in *.
      simpl in *. exact Hnd.
Qed.

Lemma load_npcs_loop b2 : forall a2 b1 g,
  statics npc_static a2 = statics npc_static b2 ->
  Game.npcs g = b1 ++ a2 ->
  NoDup (Py.keys (b1 ++ a2)) ->
  Game.for_each (map npc_entry b2) (fun e =>
      let (nid, stuff) := e in
      Game.upd_npc nid (fun n =>
        NPC.set_cooperative
          (NPC.set_arrested (NPC.set_room n (Save.NpcEntry.room stuff))
                            (Save.NpcEntry.arrested stuff))
          (Save.NpcEntry.coop stuff))) g
  = (Game.Ok tt, Game.set_npcs g (b1 ++ b2), []).
Proof.
  induction b2 as [|[k nb] b2 IH]; intros a2 b1 g Hst Hg Hnd.
  - destruct a2; [|discriminate]. simpl. rewrite <- Hg. destruct g; reflexivity.
  - destruct a2 as [|[k' na] a2]; [discriminate|].
    apply statics_cons_inv in Hst. destruct Hst as (Ek & Er & Hst'). subst k'.
    assert (Hk : Py.get b1 k = None).
    { apply get_none_keys. unfold Py.keys in *. rewrite map_app in Hnd.
      simpl in Hnd. apply NoDup_remove_2 in Hnd. intros Hin. apply Hnd.
      apply in_or_app. auto. }
    assert (Hget : Py.get (Game.npcs g) k = Some na).
    { rewrite Hg, (get_app_none _ _ _ Hk). simpl. rewrite String.eqb_refl. reflexivity. }
    simpl.
    run_with (upd_npc_run k (fun n =>
        NPC.set_cooperative
          (NPC.set_arrested (NPC.set_room n (NPC.room nb)) (NPC.arrested nb))
          (NPC.cooperative nb)) g na Hget).
    rewrite (npc_restore na nb Er), Hg, (set_app_none _ _ _ _ _ Hk).
    rewrite (IH a2 (b1 ++ [(k, nb)])).
    + simpl. rewrite <- app_assoc. reflexivity.
    + exact Hst'.
    + simpl. rewrite <- app_assoc. reflexivity.
    + rewrite <- app_assoc. unfold Py.keys in *. rewrite map_app in *.
      simpl in *. exact Hnd.
Qed.

Lemma keys_room_entries rs : Py.keys (map room_entry rs) = Py.keys rs.
Proof. unfold Py.keys. rewrite map_map. reflexivity. Qed.

Lemma keys_npc_entries ns : Py.keys (map npc_entry ns) = Py.keys ns.
Proof. unfold Py.keys. rewrite map_map. reflexivity. Qed.

(** What [save] writes, once the comprehensions are unfolded. *)
Lemma save_data_entries g :
  static_ok g ->
  Game.save_data g
  = Save.mk (Game.time g) (Game.player_room g) (Game.inv g)
            (map room_entry (Game.rooms g)) (map npc_entry (Game.npcs g))
            (Game.killer_id g) (Game.killer_evidence g).
Proof.
  intros Hs. unfold Game.save_data.
  change (map (fun e => (fst e, Save.RoomEntry.mk (Room.items (snd e)) (Room.npcs (snd e)))))
    with (map room_entry).
  change (map (fun e => (fst e, Save.NpcEntry.mk (NPC.room (snd e)) (NPC.arrested (snd e))
                                   (NPC.cooperative (snd e)))))
    with (map npc_entry).
  rewrite !dict_of_nodup.
  - reflexivity.
  - rewrite keys_npc_entries. apply static_nodup_npcs. exact Hs.
  - rewrite keys_room_entries. apply static_nodup_rooms. exact Hs.
Qed.

(** [load] of a record [save] wrote puts back the object that was saved;
    only the generator, which is not saved, stays as it is. *)
Lemma load_run g g0 :
  static_ok g -> static_ok g0 ->
  Game.load (Some (Game.save_data g0)) g
  = (Game.Ok tt, Game.set_rng g0 (Game.rng g), ["Loaded."]).
Proof.
  intros Hs Hs0. rewrite (save_data_entries g0 Hs0). unfold Game.load. simpl.
  run.
  assert (Hst : statics room_static (Game.rooms g) = statics room_static (Game.rooms g0)).
  { destruct Hs as (-> & _), Hs0 as (-> & _). reflexivity. }
  assert (Hstn : statics npc_static (Game.npcs g) = statics npc_static (Game.npcs g0)).
  { destruct Hs as (_ & _ & -> & _), Hs0 as (_ & _ & -> & _). reflexivity. }
  set (g1 := Game.set_inv _ _).
  run_with (load_rooms_loop (Game.rooms g0) (Game.rooms g) [] g1 Hst eq_refl
              (static_nodup_rooms g Hs)).
  set (g2 := Game.set_rooms _ _).
  run_with (load_npcs_loop (Game.npcs g0) (Game.npcs g) [] g2 Hstn eq_refl
              (static_nodup_npcs g Hs)).
  run. subst g2 g1.
  destruct Hs as (_ & Hi & _ & Hb & Hc), Hs0 as (_ & Hi0 & _ & Hb0 & Hc0).
  destruct g, g0; simpl in *. subst. reflexivity.
Qed.

(** ** The random draws *)
Lemma choice_run {A} (seq : list A) g :
  seq <> [] ->
  exists a, In a seq
            /\ Game.choice seq g = (Game.Ok a, Game.set_rng g (Rng.next (Game.rng g)), []).
Proof.
  intros Hne. unfold Game.choice. destruct seq as [|x seq]; [congruence|].
  set (l := x :: seq). rewrite bind_self. unfold Rng.randbelow. rewrite bind_modify.
  destruct (nth_error l _) as [a|] eqn:E.
  - exists a. split; [eapply nth_error_In; eauto|reflexivity].
  - apply nth_error_None in E. exfalso.
    assert (H : (Rng.draws (Game.rng g) (Rng.pos (Game.rng g)) mod length l < length l)%nat).
    { apply Nat.mod_upper_bound. subst l. simpl. lia. }
    lia.
Qed.

Lemma list_set_swap {A} (l : list A) j a b :
  nth_error l j = Some a ->
  Permutation (b :: l) (a :: Game.list_set l j b).
Proof.
  revert j. induction l as [|x l IH]; intros [|j] H; simpl in *; try discriminate.
  - inversion H; subst. apply perm_swap.
  - rewrite perm_swap. rewrite (IH j H). apply perm_swap.
Qed.

Lemma length_list_set {A} (l : list A) j b :
  length (Game.list_set l j b) = length l.
Proof. revert j. induction l as [|x l IH]; intros [|j]; simpl; auto. Qed.

Lemma firstn_list_set {A} (l : list A) j n b :
  (j < n)%nat -> firstn n (Game.list_set l j b) = Game.list_set (firstn n l) j b.
Proof.
  revert j n. induction l as [|x l IH]; intros j n H.
  - destruct n; reflexivity.
  - destruct n as [|n]; [lia|]. destruct j as [|j]; simpl; [reflexivity|].
    rewrite IH; [reflexivity|lia].
Qed.

Lemma firstn_list_set_out {A} (l : list A) j n b :
  (n <= j)%nat -> firstn n (Game.list_set l j b) = firstn n l.
Proof.
  revert j n. induction l as [|x l IH]; intros j n H.
  - destruct n; reflexivity.
  - destruct n as [|n]; [reflexivity|]. destruct j as [|j]; [lia|]. simpl.
    rewrite IH; [reflexivity|lia].
Qed.

Lemma firstn_snoc {A} (l : list A) n b :
  nth_error l n = Some b -> firstn (S n) l = firstn n l ++ [b].
Proof.
  revert n. induction l as [|x l IH]; intros [|n] H; simpl in *; try discriminate.
  - inversion H; reflexivity.
  - rewrite (IH n H). reflexivity.
Qed.

Lemma nth_error_firstn_lt {A} (l : list A) n j :
  (j < n)%nat -> nth_error (firstn n l) j = nth_error l j.
Proof.
  revert n j. induction l as [|x l IH]; intros [|n] [|j] H; simpl; try lia; auto.
  apply IH. lia.
Qed.

(** One round of the sampling loop takes an element out of the live prefix
    of the pool. *)
Lemma sample_step {A} (pool : list A) m j a b :
  (j < S m)%nat -> nth_error pool j = Some a -> nth_error pool m = Some b ->
  Permutation (firstn (S m) pool) (a :: firstn m (Game.list_set pool j b)).
Proof.
  intros Hj Ha Hb. rewrite (firstn_snoc pool m b Hb).
  destruct (Nat.eq_dec j m) as [->|Hne].
  - rewrite firstn_list_set_out; [|lia].
    assert (a = b) by congruence. subst.
    rewrite Permutation_app_comm. reflexivity.
  - rewrite firstn_list_set; [|lia].
    rewrite Permutation_app_comm. simpl.
    apply list_set_swap. rewrite nth_error_firstn_lt; [exact Ha|lia].
Qed.

Lemma sample_loop_run {A} k : forall (pool : list A) m g,
  (k <= m)%nat -> (m <= length pool)%nat ->
  exists s r',
    Game.sample_loop pool m k g = (Game.Ok s, Game.set_rng g r', [])
    /\ length s = k
    /\ exists rest, Permutation (firstn m pool) (s ++ rest).
Proof.
  induction k as [|k IH]; intros pool m g Hk Hm; simpl.
  - exists [], (Game.rng g). repeat split.
    + destruct g; reflexivity.
    + exists (firstn m pool). reflexivity.
  - destruct m as [|m]; [lia|].
    rewrite bind_self. unfold Rng.randbelow. rewrite bind_modify.
    set (j := (_ mod _)%nat).
    assert (Hj : (j < S m)%nat) by (apply Nat.mod_upper_bound; lia).
    destruct (nth_error pool j) as [a|] eqn:Ea.
    2:{ apply nth_error_None in Ea. lia. }
    replace (S m - 1)%nat with m by lia.
    destruct (nth_error pool m) as [b|] eqn:Eb.
    2:{ apply nth_error_None in Eb. lia. }
    destruct (IH (Game.list_set pool j b) m
                 (Game.set_rng g (Rng.next (Game.rng g)))) as (s & r' & E & Hl & rest & Hp).
    + lia.
    + rewrite length_list_set. lia.
    + exists (a :: s), r'. rewrite (bind_ok _ _ _ _ _ _ E), prepend_nil.
      repeat split.
      * simpl. lia.
      * exists rest. rewrite (sample_step pool m j a b Hj Ea Eb).
        simpl. apply perm_skip. exact Hp.
Qed.

Lemma sample_run {A} (pool : list A) g :
  exists s r',
    Game.sample pool (length pool) g = (Game.Ok s, Game.set_rng g r', [])
    /\ length s = length pool /\ Permutation pool s.
Proof.
  unfold Game.sample. rewrite Nat.leb_refl.
  destruct (sample_loop_run (length pool) pool (length pool) g)
    as (s & r' & E & Hl & rest & Hp); [lia|lia|].
  exists s, r'. repeat split; auto.
  rewrite firstn_all in Hp.
  assert (rest = []).
  { apply Permutation_length in Hp. rewrite length_app in Hp.
    destruct rest; [reflexivity|simpl in Hp; lia]. }
  subst. rewrite app_nil_r in Hp. exact Hp.
Qed.

(** ** Setup *)
Lemma build_world_run r :
  Game._build_world (Game.blank r) = (Game.Ok tt, fresh_world r, []).
Proof. reflexivity. Qed.

Lemma evidence_draws l : forall g,
  (forall sus, In sus l ->
     exists pool, Py.get Game.evidence_pool sus = Some pool /\ NoDup pool
                  /\ length pool = 3%nat) ->
  exists ev r',
    Game.map_m (fun sus =>
        Game.bind (Game.getitem Game.evidence_pool sus) (fun pool =>
        Game.bind (Game.sample pool 3) (fun s => Game.ret (sus, s)))) l g
    = (Game.Ok ev, Game.set_rng g r', [])
    /\ Py.keys ev = l
    /\ forall sus, In sus l -> NoDup l -> evidence_of ev sus.
Proof.
  induction l as [|sus l IH]; intros g Hp.
  - exists [], (Game.rng g). repeat split.
    + destruct g; reflexivity.
    + intros sus [].
  - destruct (Hp sus (or_introl eq_refl)) as (pool & Epool & Hnd & Hlen).
    cbn [Game.map_m]. rewrite bind_assoc.
    run_with (getitem_some _ _ _ g Epool). rewrite bind_assoc.
    destruct (sample_run pool g) as (s & r1 & Es & Hl & Hperm).
    rewrite Hlen in Es, Hl. run_with Es. run.
    destruct (IH (Game.set_rng g r1)) as (ev & r' & E & Hk & Hev).
    { intros sus' Hin. apply Hp. right. exact Hin. }
    run_with E. run. exists ((sus, s) :: ev), r'. repeat split.
    + simpl. rewrite Hk. reflexivity.
    + intros sus' [<-|Hin] Hndl.
      * exists pool, s. simpl. rewrite String.eqb_refl. repeat split; auto.
        -- eapply Permutation_NoDup; eauto.
        -- intros x Hx. eapply Permutation_in; [apply Permutation_sym|]; eauto.
      * inversion Hndl; subst.
        destruct (Hev sus' Hin) as (pool' & s' & ? & ? & ?); auto.
        exists pool', s'. simpl.
        destruct (String.eqb_spec sus sus') as [->|_]; [tauto|]. auto.
Qed.

Lemma world_pools sus :
  In sus (Py.keys world_npcs) ->
  exists pool, Py.get Game.evidence_pool sus = Some pool /\ NoDup pool
               /\ length pool = 3%nat.
Proof.
  simpl. intros H.
  repeat (destruct H as [<-|H];
          [eexists; split; [reflexivity|]; split;
           [apply nodup_strings; reflexivity|reflexivity]|]).
  destruct H.
Qed.

(** [_seed_case] on the built world: it draws a culprit among the NPCs and
    three pieces of evidence for each of them, and moves no item. *)
Lemma seed_case_run r :
  exists r' k ev,
    Game._seed_case (fresh_world r) = (Game.Ok tt, opening r' k ev, [])
    /\ In k (Py.keys world_npcs)
    /\ Py.keys ev = Py.keys world_npcs
    /\ forall sus, In sus (Py.keys world_npcs) -> evidence_of ev sus.
Proof.
  unfold Game._seed_case. rewrite bind_self.
  change (Py.keys (Game.npcs (fresh_world r))) with (Py.keys world_npcs).
  destruct (choice_run (Py.keys world_npcs) (fresh_world r)) as (k & Hk & Ek);
    [discriminate|].
  run_with Ek. run.
  set (g1 := Game.set_killer_id _ _).
  destruct (evidence_draws (Py.keys world_npcs) g1 world_pools)
    as (ev & r' & E & Hkeys & Hev).
  run_with E. run.
  exists r', k, (Game.dict_of ev). split; [reflexivity|].
  assert (Hnd : NoDup (Py.keys world_npcs)) by (apply nodup_strings; reflexivity).
  rewrite dict_of_nodup; [|rewrite Hkeys; exact Hnd].
  repeat split; auto.
Qed.

Lemma init_run r :
  exists r' k ev,
    Game.__init__ (Game.blank r) = (Game.Ok tt, opening r' k ev, [])
    /\ In k (Py.keys world_npcs)
    /\ Py.keys ev = Py.keys world_npcs
    /\ forall sus, In sus (Py.keys world_npcs) -> evidence_of ev sus.
Proof.
  destruct (seed_case_run r) as (r' & k & ev & E & H).
  exists r', k, ev. split; [|exact H].
  unfold Game.__init__. run_with (build_world_run r). exact E.
Qed.

Lemma world_room_facts rid r :
  Py.get world_rooms rid = Some r ->
  known world_items (Room.items r) /\ Room.npcs r = []
  /\ ~ In "codes_token" (Room.items r).
Proof.
  intros H. apply get_in in H. simpl in H.
  repeat (destruct H as [H|H];
          [inversion H; subst; split;
           [repeat constructor; vm_compute; discriminate
           |split; [reflexivity|vm_compute; intuition discriminate]]|]).
  destruct H.
Qed.

Lemma world_npc_free nid n :
  Py.get world_npcs nid = Some n -> NPC.arrested n = false.
Proof.
  intros H. apply get_in in H. simpl in H.
  repeat (destruct H as [H|H]; [inversion H; reflexivity|]). destruct H.
Qed.

(** The invariant holds when [__init__] is done. *)
Lemma Inv_opening r k ev :
  In k (Py.keys world_npcs) -> evidence_of ev k -> Inv (opening r k ev).
Proof.
  intros Hk Hev. constructor.
  - repeat split.
  - simpl. lia.
  - repeat split.
    + apply (world_room_facts _ _ H).
    + destruct (world_room_facts _ _ H) as (_ & -> & _). constructor.
    + constructor.
    + discriminate.
    + intros E. apply (get_none_keys world_npcs k) in E. tauto.
  - intros rid r0 nid H Hin. simpl in H.
    destruct (world_room_facts _ _ H) as (_ & E & _). rewrite E in Hin. destruct Hin.
  - repeat split.
    + intros (n & Hn & Ha). rewrite (world_npc_free _ _ Hn) in Ha.
      discriminate.
    + intros (brig & Hb & Hin).
      destruct (world_room_facts _ _ Hb) as (_ & _ & Hno). tauto.
    + intros [].
    + intros rid r0 H Hin. destruct (world_room_facts _ _ H) as (_ & _ & Hno). tauto.
  - apply nodup_strings. reflexivity.
  - destruct Hev as (pool & s & _ & Hs & _). simpl. congruence.
Qed.

Lemma InvR_look_at g a g' o :
  Inv g -> Game.look g = (Game.Ok a, g', o) -> Inv g'.
Proof.
  intros HI E. assert (H := InvR_look g). rewrite E in H. apply H; auto.
Qed.

Lemma look_opening r k ev :
  result (Game.look (opening r k ev)) = Game.Ok tt
  /\ state (Game.look (opening r k ev)) = opening r k ev.
Proof. split; vm_compute; reflexivity. Qed.

(** What [boot] leaves: the state [__init__] built, since the first look
    costs nothing. *)
Lemma boot_run r g o :
  boot (Game.blank r) = (Game.Ok tt, g, o) ->
  Inv g /\ exists r' k ev,
    In k (Py.keys world_npcs)
    /\ (forall sus, In sus (Py.keys world_npcs) -> evidence_of ev sus)
    /\ g = opening r' k ev.
Proof.
  unfold boot. destruct (init_run r) as (r' & k & ev & E & Hk & _ & Hev).
  run_with E. run. intros H.
  destruct (look_opening r' k ev) as (Hres & Hst).
  destruct (Game.look (opening r' k ev)) as [[res g1] o1].
  unfold result, state in *. simpl in *. inversion H; subst.
  split; [apply Inv_opening; auto|].
  exists r', k, ev. auto.
Qed.

Lemma boot_ok r : exists g o, boot (Game.blank r) = (Game.Ok tt, g, o).
Proof.
  unfold boot. destruct (init_run r) as (r' & k & ev & E & _).
  run_with E. run.
  destruct (look_opening r' k ev) as (Hres & Hst).
  destruct (Game.look (opening r' k ev)) as [[res g1] o1].
  unfold result, state in *. simpl in *. subst. eexists _, _. reflexivity.
Qed.

(** ** From prompt to prompt *)
Lemma Inv_set_rng g r : Inv g -> Inv (Game.set_rng g r).
Proof. intros [? ? ? ? ? ? ?]. constructor; auto. Qed.

Lemma InvR_load d : disk_ok d -> keeps true InvR (Game.load d).
Proof.
  intros Hd g Hok HI. destruct d as [data|]; [|exact HI].
  destruct Hd as (g0 & HI0 & ->).
  rewrite (load_run g g0 (inv_static _ HI) (inv_static _ HI0)).
  apply Inv_set_rng. exact HI0.
Qed.

(** The methods that only report. *)
Ltac reporting lem :=
  apply InvR_of_calm;
  [ apply lem; auto using calm_refl, calm_spend; try apply calm_trans;
    try (intros; split; [apply quiet_coop; assumption
                        |apply (steady_npc _ _ _ (fun n => NPC.set_cooperative n true));
                         auto]);
    try (intros; split; [unfold quiet; simpl; auto|apply steady_setters])
  | apply lem; auto using alive_refl, alive_spend; try apply alive_trans;
    try (intros; apply alive_setters) ].

Lemma InvR_command cmd args d :
  disk_ok d -> keeps true InvR (Game.command cmd args d).
Proof.
  intros Hd. apply keeps_command_of.
  - apply InvR_refl.
  - apply InvR_trans.
  - apply InvR_look.
  - reporting keeps_show_map.
  - reporting keeps_show_time.
  - apply InvR_move.
  - apply InvR_take.
  - apply InvR_drop.
  - reporting keeps_inv_show.
  - intros a. reporting keeps_inspect.
  - intros a. reporting keeps_talk.
  - intros a. reporting keeps_accuse.
  - apply InvR_arrest.
  - reporting keeps_use_console.
  - apply keeps_save; [apply InvR_refl|apply InvR_trans].
  - intros _. apply InvR_load. exact Hd.
Qed.

Lemma InvR_step line d : disk_ok d -> keeps true InvR (Game.step line d).
Proof.
  intros Hd. apply keeps_step_of.
  - apply InvR_refl.
  - apply InvR_trans.
  - intros cmd args _. apply InvR_command. exact Hd.
  - intros _. apply InvR_load. exact Hd.
Qed.

(** The save file after a command holds what it held, or what [save] just
    wrote. *)
Lemma command_disk cmd args d g c d' g' o :
  Game.command cmd args d g = (Game.Ok (c, d'), g', o) ->
  d' = d \/ d' = Some (Game.save_data g).
Proof.
  unfold Game.command.
  repeat match goal with
         | |- context [if ?b then _ else _] => destruct b
         end;
    try (destruct args);
    intros H;
    repeat (apply bind_ok_inv in H;
            let E := fresh "E" in
            destruct H as (? & ? & ? & ? & E & H & _);
            try (unfold Game.save, Game.bind, Game.self, Game.say, Game.ret in E;
                 simpl in E));
    inversion H; subst; auto.
  all: inversion E; subst; auto.
Qed.

Lemma step_disk line d g b d' g' o :
  Game.step line d g = (Game.Ok (b, d'), g', o) ->
  d' = d \/ d' = Some (Game.save_data g).
Proof.
  unfold Game.step. destruct (_ =? _)%string.
  { intros H. inversion H. auto. }
  destruct (Py.split _) as [|p args]; [discriminate|].
  intros H. apply bind_ok_inv in H. destruct H as ([c d1] & g1 & o1 & o2 & E & H & _).
  apply command_disk in E. simpl in H.
  destruct c.
  - inversion H; subst; auto.
  - inversion H; subst; auto.
  - apply bind_ok_inv in H. destruct H as (? & ? & ? & ? & _ & H & _).
    inversion H; subst; auto.
Qed.

Lemma Inv_step line d g b d' g' o :
  Inv g -> disk_ok d ->
  Game.step line d g = (Game.Ok (b, d'), g', o) ->
  Inv g' /\ disk_ok d'.
Proof.
  intros HI Hd E. split.
  - assert (K := InvR_step line d Hd g). rewrite E in K. apply K; auto.
  - destruct (step_disk _ _ _ _ _ _ _ E) as [->| ->]; [exact Hd|].
    exists g. auto.
Qed.

(** The invariant holds at every prompt, and the save file, when there is
    one, was written at a prompt. *)
Lemma reachable_Inv g d : reachable g d -> Inv g /\ disk_ok d.
Proof.
  induction 1 as [r g o E|r g o g0 d0 _ IH E|g d line g' d' o _ IH E].
  - split; [apply (boot_run r g o E)|exact I].
  - split; [apply (boot_run r g o E)|apply IH].
  - destruct IH as (HI & Hd). eapply Inv_step; eauto.
Qed.

(** ** Runs *)
Lemma start_reachable r g : start r = Some g -> reachable g None.
Proof.
  unfold start. destruct (boot (Game.blank r)) as [[[[]|e] g0] o] eqn:E; [|discriminate].
  intros H. inversion H; subst. eapply reach_fresh; eauto.
Qed.

Lemma play_reachable lines : forall g d g' d',
  reachable g d -> play lines d g = Some (g', d') -> reachable g' d'.
Proof.
  induction lines as [|l lines IH]; intros g d g' d' Hr H; simpl in H.
  - inversion H; subst. exact Hr.
  - destruct (Game.step l d g) as [[[[[] d1]|e] g1] o] eqn:E; try discriminate.
    apply (IH g1 d1); [|exact H]. eapply reach_step; eauto.
Qed.

Lemma after_reachable lines g d : after lines = Some (g, d) -> reachable g d.
Proof.
  unfold after. destruct (start demo_rng) as [g0|] eqn:E; [|discriminate].
  apply play_reachable. apply (start_reachable demo_rng). exact E.
Qed.

Lemma at_gala_reachable : reachable at_gala None.
Proof. apply (after_reachable ["take cuffs"; "go n"]). vm_compute. reflexivity. Qed.

(** ** The timer *)
Lemma saneR_refl g : saneR g g.
Proof. unfold saneR. auto. Qed.

Lemma saneR_trans a b c : saneR a b -> saneR b c -> saneR a c.
Proof. unfold saneR. auto. Qed.

Lemma saneR_of_steady g g' : steady g g' -> saneR g g'.
Proof.
  intros S [Hs Ht]. split; [eapply steady_static; eauto|].
  destruct S as (_ & _ & S3 & _). lia.
Qed.

Lemma sane_step line d g : disk_ok d -> sane g -> sane (state (Game.step line d g)).
Proof.
  intros Hd. revert g.
  assert (K : keeps false saneR (Game.step line d)).
  { apply keeps_step.
    - apply saneR_refl.
    - apply saneR_trans.
    - intros m Hm g _. apply saneR_of_steady.
      apply steady_spend; [exact Hm|discriminate].
    - intros; apply saneR_of_steady, steady_setters.
    - intros; apply saneR_of_steady, steady_setters.
    - intros; apply saneR_of_steady, steady_setters.
    - intros; apply saneR_of_steady, steady_room; auto.
    - intros g nid n b H. apply saneR_of_steady.
      apply (steady_npc g nid n (fun n => NPC.set_room (NPC.set_arrested n true) b)); auto.
    - intros g nid n H. apply saneR_of_steady.
      apply (steady_npc g nid n (fun n => NPC.set_cooperative n true)); auto.
    - intros _ g _ [Hs Ht]. destruct d as [data|]; [|split; assumption].
      destruct Hd as (g0 & HI0 & ->).
      rewrite (load_run g g0 Hs (inv_static _ HI0)). split.
      + apply (inv_static _ (Inv_set_rng g0 _ HI0)).
      + assert (H := inv_time _ HI0). simpl. unfold state; simpl. lia. }
  intros g Hg. apply K; [discriminate|exact Hg].
Qed.

(** C10: whenever the loop is back at its prompt the timer is at least 1:
    it is so at the first prompt, and a line that neither ends the process
    nor leaves the loop hands the next prompt a timer of at least 1 (with a
    save file that, when it exists, the program wrote). *)
Theorem C10_timer_positive_at_prompt g d :
  reachable g d ->
  (1 <= Game.time g)%Z
  /\ forall line,
       match Game.step line d g with
       | (Game.Ok (true, _), g', _) => (1 <= Game.time g')%Z
       | _ => True
       end.
Proof.
  intros Hr. split.
  - assert (H := inv_time _ (proj1 (reachable_Inv g d Hr))). lia.
  - intros line.
    destruct (Game.step line d g) as [[[[[] d']|e] g'] o] eqn:E; auto.
    assert (Hr' : reachable g' d') by (eapply reach_step; eauto).
    assert (H := inv_time _ (proj1 (reachable_Inv g' d' Hr'))). lia.
Qed.

Lemma C10_witness :
  reachable at_gala None
  /\ (1 <= Game.time at_gala)%Z
  /\ forall line,
       match Game.step line None at_gala with
       | (Game.Ok (true, _), g', _) => (1 <= Game.time g')%Z
       | _ => True
       end.
Proof.
  split; [exact at_gala_reachable|].
  exact (C10_timer_positive_at_prompt at_gala None at_gala_reachable).
Defined.

(** C3: the timer is never negative, at a prompt or after any line, even
    one that ends the game; a line that does not ask for load never raises
    it; and [spend] leaves the clamped difference and ends the game in a loss
    exactly when that is zero. *)
Theorem C3_timer_clamped_and_monotone g d :
  reachable g d ->
  (0 <= Game.time g)%Z
  /\ (forall line, (0 <= Game.time (state (Game.step line d g)))%Z)
  /\ (forall line, is_load line = false ->
        (Game.time (state (Game.step line d g)) <= Game.time g)%Z)
  /\ (forall m g0,
        Game.time (state (Game.spend m g0)) = Z.max 0 (Game.time g0 - m)
        /\ (result (Game.spend m g0) = Game.Raise Game.Loss
            <-> Z.max 0 (Game.time g0 - m) = 0%Z)
        /\ (result (Game.spend m g0) = Game.Ok tt
            <-> Z.max 0 (Game.time g0 - m) <> 0%Z)).
Proof.
  intros Hr. destruct (reachable_Inv g d Hr) as (HI & Hd).
  assert (Ht := inv_time _ HI).
  split; [lia|]. split; [|split].
  - intros line. apply sane_step; auto. split; [apply (inv_static _ HI)|lia].
  - intros line Hl. destruct (steady_step line d Hl g) as (_ & _ & S & _);
      [discriminate|]. lia.
  - intros m g0. rewrite spend_run. cbv zeta.
    destruct (Z.eqb_spec (Z.max 0 (Game.time g0 - m)) 0) as [E|E];
      unfold state, result; simpl; repeat split; auto;
      try discriminate; try tauto.
Qed.

Lemma C3_witness :
  reachable at_gala None
  /\ (Game.time (state (Game.step "go w" None at_gala)) <= Game.time at_gala)%Z.
Proof.
  split; [exact at_gala_reachable|].
  apply (proj1 (proj2 (proj2 (C3_timer_clamped_and_monotone at_gala None
                                at_gala_reachable)))).
  reflexivity.
Defined.

(** ** The case *)

(** C7: when setup is done one identifier of the NPC table, and only one, is
    the culprit, and a line that does not ask for load leaves the culprit as
    it was, whatever the state and however the line ends. *)
Theorem C7_one_culprit_fixed :
  (forall r, exists g o,
      boot (Game.blank r) = (Game.Ok tt, g, o)
      /\ exists! nid, In nid (Py.keys (Game.npcs g)) /\ Game.killer_id g = nid)
  /\ (forall g d line, is_load line = false ->
        Game.killer_id (state (Game.step line d g)) = Game.killer_id g).
Proof.
  split.
  - intros r. destruct (boot_ok r) as (g & o & E). exists g, o. split; [exact E|].
    destruct (boot_run r g o E) as (_ & r' & k & ev & Hk & _ & ->).
    exists k. split; [split; [exact Hk|reflexivity]|].
    intros nid [_ H]. exact H.
  - intros g d line Hl. destruct (steady_step line d Hl g) as (S & _);
      [discriminate|exact S].
Qed.

Lemma C7_witness :
  is_load "arrest chen" = false
  /\ Game.killer_id (state (Game.step "arrest chen" None at_gala))
     = Game.killer_id at_gala.
Proof.
  split; [reflexivity|].
  apply (proj2 C7_one_culprit_fixed at_gala None "arrest chen"). reflexivity.
Defined.

(** C6: when case setup is done every NPC has an evidence list of exactly
    three pairwise distinct items, all from the candidate pool of that
    NPC. *)
Theorem C6_evidence_three_distinct_from_pool :
  forall r, exists g,
    Game.__init__ (Game.blank r) = (Game.Ok tt, g, [])
    /\ forall sus, In sus (Py.keys (Game.npcs g)) ->
         exists pool s,
           Py.get Game.evidence_pool sus = Some pool
           /\ Py.get (Game.killer_evidence g) sus = Some s
           /\ length s = 3%nat /\ NoDup s /\ (forall x, In x s -> In x pool).
Proof.
  intros r. destruct (init_run r) as (r' & k & ev & E & _ & _ & Hev).
  exists (opening r' k ev). split; [exact E|].
  intros sus Hin. apply (Hev sus Hin).
Qed.

Lemma C6_witness :
  exists g,
    Game.__init__ (Game.blank demo_rng) = (Game.Ok tt, g, [])
    /\ In "das" (Py.keys (Game.npcs g))
    /\ exists pool s,
         Py.get Game.evidence_pool "das" = Some pool
         /\ Py.get (Game.killer_evidence g) "das" = Some s
         /\ length s = 3%nat /\ NoDup s /\ (forall x, In x s -> In x pool).
Proof.
  destruct (C6_evidence_three_distinct_from_pool demo_rng) as (g & E & H).
  exists g. split; [exact E|].
  assert (Hin : In "das" (Py.keys (Game.npcs g))).
  { vm_compute in E. inversion E; subst. vm_compute. tauto. }
  split; [exact Hin|]. exact (H "das" Hin).
Defined.

(** C2: at any prompt, what [save] writes and [load] reads back is the very
    state that was saved: timer, room of the player, inventory, the item and
    NPC lists of every room, room and flags of every NPC, culprit and
    evidence; the same holds of the two typed lines, and of a load at any
    later prompt, of this run or another, which puts back every component
    of the saved state and keeps only its own generator. *)
Theorem C2_save_then_load_restores g d :
  reachable g d ->
  Game.save g = (Game.Ok (Game.save_data g), g, ["Saved."])
  /\ Game.load (Some (Game.save_data g)) g = (Game.Ok tt, g, ["Loaded."])
  /\ play ["save"; "load"] d g = Some (g, Some (Game.save_data g))
  /\ (forall g' d', reachable g' d' ->
        Game.load (Some (Game.save_data g)) g'
        = (Game.Ok tt, Game.set_rng g (Game.rng g'), ["Loaded."])).
Proof.
  intros Hr. destruct (reachable_Inv g d Hr) as (HI & Hd).
  assert (Hs := inv_static _ HI).
  assert (Hload : Game.load (Some (Game.save_data g)) g = (Game.Ok tt, g, ["Loaded."])).
  { rewrite (load_run g g Hs Hs). destruct g; reflexivity. }
  split; [reflexivity|]. split; [exact Hload|].
  split.
  2:{ intros g' d' Hr'. apply load_run; [|exact Hs].
      apply (inv_static _ (proj1 (reachable_Inv g' d' Hr'))). }
  assert (Hrem : forall g0, exists o, Game.reminder g0 = (Game.Ok tt, g0, o)).
  { intros g0. unfold Game.reminder. rewrite bind_self.
    destruct (_ && _)%bool; eexists; reflexivity. }
  assert (E1 : Game.step "save" d g
               = prepend ["Saved."]
                   (Game.bind Game.reminder
                      (fun _ => Game.ret (true, Some (Game.save_data g))) g)).
  { reflexivity. }
  assert (E2 : Game.step "load" (Some (Game.save_data g)) g
               = Game.bind (Game.load (Some (Game.save_data g)))
                   (fun _ => Game.bind Game.reminder
                      (fun _ => Game.ret (true, Some (Game.save_data g)))) g).
  { generalize (Some (Game.save_data g)). intros d0.
    cbv -[Game.load Game.reminder app].
    destruct (Game.load d0 g) as [[[[]|e] g1] o1]; [|reflexivity].
    destruct (Game.reminder g1) as [[[[]|e] g2] o2];
      rewrite ?app_nil_r; reflexivity. }
  destruct (Hrem g) as (o & Eo).
  unfold play. rewrite E1. run_with Eo. simpl.
  rewrite E2. run_with Hload. run_with Eo. simpl. reflexivity.
Qed.

Lemma C2_witness :
  reachable at_gala None
  /\ Game.save at_gala = (Game.Ok (Game.save_data at_gala), at_gala, ["Saved."])
  /\ Game.load (Some (Game.save_data at_gala)) at_gala
     = (Game.Ok tt, at_gala, ["Loaded."])
  /\ play ["save"; "load"] None at_gala
     = Some (at_gala, Some (Game.save_data at_gala)).
Proof.
  split; [exact at_gala_reachable|].
  destruct (C2_save_then_load_restores at_gala None at_gala_reachable)
    as (H1 & H2 & H3 & _).
  auto.
Defined.

(** ** The console *)
Lemma state_spend m g :
  state (Game.spend m g) = Game.set_time g (Z.max 0 (Game.time g - m)).
Proof. rewrite spend_run. cbv zeta. destruct (_ =? _)%Z; reflexivity. Qed.

Lemma result_spend m g :
  result (Game.spend m g)
  = if (m <? Game.time g)%Z then Game.Ok tt else Game.Raise Game.Loss.
Proof.
  rewrite spend_run. cbv zeta.
  destruct (Z.eqb_spec (Z.max 0 (Game.time g - m)) 0), (Z.ltb_spec m (Game.time g));
    try reflexivity; lia.
Qed.

Lemma Inv_killer g :
  Inv g -> exists killer, Py.get (Game.npcs g) (Game.killer_id g) = Some killer.
Proof.
  intros HI. destruct (inv_ids _ HI) as (_ & _ & _ & H).
  destruct (Py.get (Game.npcs g) (Game.killer_id g)) as [k|]; [eauto|congruence].
Qed.

(** C1, amended: at every prompt, if the culprit carries the arrested flag
    the token is in the detention room, and in the command room the console
    then prints the victory text and ends the game in a win; if the culprit
    does not carry the flag, the console in the command room never wins: it
    prints the rejection and spends one minute, after which the game goes on
    when more than one minute was left and ends in a loss when exactly one
    was. *)
Theorem C1_console_wins_iff_culprit_arrested g d :
  reachable g d ->
  (is_arrested g (Game.killer_id g) -> token_in_brig g)
  /\ (Game.player_room g = Game.cmdrm g ->
      (is_arrested g (Game.killer_id g) ->
         exists killer,
           Py.get (Game.npcs g) (Game.killer_id g) = Some killer
           /\ Game.use_console g
              = (Game.Raise Game.Win, g, victory_text (NPC.name killer)))
      /\ (~ is_arrested g (Game.killer_id g) ->
            Game.use_console g
            = prepend (rejection_text (existsb NPC.arrested (Py.values (Game.npcs g))))
                      (Game.spend 1 g)
            /\ result (Game.use_console g) <> Game.Raise Game.Win
            /\ Game.time (state (Game.use_console g)) = (Game.time g - 1)%Z
            /\ ((1 < Game.time g)%Z -> result (Game.use_console g) = Game.Ok tt)
            /\ (Game.time g = 1%Z ->
                  result (Game.use_console g) = Game.Raise Game.Loss))).
Proof.
  intros Hr. destruct (reachable_Inv g d Hr) as (HI & _).
  destruct (inv_token _ HI) as (T1 & _).
  split; [apply T1|]. intros Hroom.
  destruct (Inv_killer g HI) as (killer & Hk).
  destruct (Inv_brig g HI) as (brig & Hb).
  assert (Hrun := use_console_run g killer brig Hk Hb).
  rewrite Hroom, String.eqb_refl in Hrun. simpl negb in Hrun. cbv iota in Hrun.
  assert (Ht := inv_time _ HI).
  split.
  - intros Ha. assert (Htok := proj1 T1 Ha).
    exists killer. split; [exact Hk|].
    destruct Htok as (brig' & Hb' & Hin). rewrite Hb in Hb'. inversion Hb'; subst brig'.
    apply mem_In in Hin. rewrite Hin in Hrun. exact Hrun.
  - intros Hna.
    assert (Hm : Py.mem "codes_token" (Room.items brig) = false).
    { destruct (Py.mem _ _) eqn:E; [|reflexivity]. exfalso. apply Hna. apply T1.
      exists brig. split; [exact Hb|]. apply mem_In. exact E. }
    rewrite Hm in Hrun. rewrite Hrun.
    rewrite result_prepend, state_prepend, state_spend, result_spend.
    split; [reflexivity|]. simpl.
    destruct (Z.ltb_spec 1 (Game.time g)); repeat split;
      try discriminate; try reflexivity; try lia.
Qed.

Lemma at_console_reachable : reachable at_console None.
Proof.
  apply (after_reachable ["take cuffs"; "go n"; "go w"; "arrest voss"; "go e"; "go e"]).
  vm_compute. reflexivity.
Qed.

Lemma C1_witness :
  reachable at_console None
  /\ Game.player_room at_console = Game.cmdrm at_console
  /\ is_arrested at_console (Game.killer_id at_console)
  /\ token_in_brig at_console
  /\ exists killer,
       Py.get (Game.npcs at_console) (Game.killer_id at_console) = Some killer
       /\ Game.use_console at_console
          = (Game.Raise Game.Win, at_console, victory_text (NPC.name killer)).
Proof.
  assert (Ha : is_arrested at_console (Game.killer_id at_console)).
  { eexists. split; [vm_compute; reflexivity|reflexivity]. }
  split; [exact at_console_reachable|]. split; [reflexivity|]. split; [exact Ha|].
  split.
  - exact (proj1 (C1_console_wins_iff_culprit_arrested at_console None
                    at_console_reachable) Ha).
  - exact (proj1 (proj2 (C1_console_wins_iff_culprit_arrested at_console None
                           at_console_reachable) eq_refl) Ha).
Defined.

Lemma at_last_minute_reachable : reachable at_last_minute None.
Proof.
  apply (after_reachable
           (["go n"; "go e"; "take thruster_invoice"] ++ repeat "accuse das" 18)).
  vm_compute. reflexivity.
Qed.

(** C1 as the specification words it fails at the last minute: nobody is arrested,
    the console prints its rejection, and the minute it costs ends the game
    in a loss instead of letting it go on. *)
Lemma C1_counterexample :
  reachable at_last_minute None
  /\ Game.player_room at_last_minute = Game.cmdrm at_last_minute
  /\ existsb NPC.arrested (Py.values (Game.npcs at_last_minute)) = false
  /\ Game.time at_last_minute = 1%Z
  /\ Game.use_console at_last_minute
     = (Game.Raise Game.Loss, Game.set_time at_last_minute 0,
        rejection_text false ++ [loss_text]).
Proof.
  split; [exact at_last_minute_reachable|].
  repeat split; vm_compute; reflexivity.
Qed.

(** ** Arrest, seen from outside *)
Lemma static_no_empty_npc g : static_ok g -> Py.get (Game.npcs g) "" = None.
Proof.
  intros Hs. apply get_none_keys. rewrite (static_keys_npcs g Hs).
  vm_compute. intuition discriminate.
Qed.

Lemma static_no_empty_item g : static_ok g -> Py.get (Game.items g) "" = None.
Proof. intros (_ & -> & _). reflexivity. Qed.

Lemma truthy_known {V} (d : Py.dict V) tid v :
  Py.get d "" = None -> Py.get d tid = Some v ->
  Game.truthy (Some tid) = Some tid.
Proof.
  intros H0 H. unfold Game.truthy.
  destruct (String.eqb_spec tid ""); [|reflexivity]. congruence.
Qed.

Lemma NoDup_room_items g rid r :
  Inv g -> Py.get (Game.rooms g) rid = Some r -> NoDup (Room.items r).
Proof.
  intros HI Hr. assert (H := inv_nodup _ HI).
  destruct (all_items_split g rid r Hr) as (A & B & E & _). rewrite E in H.
  apply NoDup_app_remove_l in H. apply NoDup_app_remove_l in H.
  apply NoDup_app_remove_r in H. exact H.
Qed.

(** The state a successful arrest reaches before its three minutes are
    spent. *)
Lemma arrest_success g a args r tid n brig :
  Inv g -> Py.mem "cuffs" (Game.inv g) = true ->
  Py.get (Game.rooms g) (Game.player_room g) = Some r ->
  find (npc_matches (Game.npcs g) (Py.lower (Py.join " " (a :: args)))) (Room.npcs r)
    = Some tid ->
  Py.get (Game.npcs g) tid = Some n -> NPC.arrested n = false ->
  Py.get (Game.rooms g) (Game.brigrm g) = Some brig ->
  exists g3 brig',
    Game.arrest (a :: args) g
    = prepend [("You restrain " ++ NPC.name n
                ++ ". Security drones escort them to the Brig.")%string]
              (Game.spend 3 g3)
    /\ Inv g3
    /\ Game.npcs g3
       = Py.set (Game.npcs g) tid (NPC.set_room (NPC.set_arrested n true) (Game.brigrm g))
    /\ Game.time g3 = Game.time g
    /\ Game.inv g3 = Game.inv g
    /\ Game.brigrm g3 = Game.brigrm g
    /\ Py.get (Game.rooms g3) (Game.brigrm g) = Some brig'
    /\ Room.items brig'
       = if (tid =? Game.killer_id g)%string
         then Room.items brig ++ ["codes_token"] else Room.items brig.
Proof.
  intros HI Hc Hr Hf Hn Ha Hb.
  assert (Hs := inv_static _ HI).
  assert (Hk : known (Game.npcs g) (Room.npcs r)).
  { destruct (inv_ids _ HI) as (I1 & _). apply (I1 _ _ Hr). }
  rewrite (arrest_run g a args r Hr Hk (static_nodup_rooms g Hs)). cbv zeta.
  rewrite Hc. simpl negb. cbv iota. rewrite Hf.
  rewrite (truthy_known _ tid n (static_no_empty_npc g Hs) Hn), Hn, Ha.
  assert (Hb2 : Py.get (Game.rooms (cuffed g tid n)) (Game.brigrm g)
                = Some (Room.set_npcs brig
                          (Game.visible_npcs
                             (Py.set (Game.npcs g) tid
                                (NPC.set_room (NPC.set_arrested n true) (Game.brigrm g)))
                             (Game.brigrm g)))).
  { unfold cuffed, after_sync. simpl. rewrite get_sync, Hb. reflexivity. }
  destruct (String.eqb_spec tid (Game.killer_id g)) as [->|Hne].
  - rewrite Hb2.
    destruct (Inv_cuffed_killer g n _ HI Hn Ha Hb2) as (Em & HI3).
    rewrite Em. simpl negb. cbv iota.
    eexists _, _. split; [reflexivity|]. split; [exact HI3|].
    repeat split.
    + unfold with_token. simpl. rewrite (get_set_same _ _ _ _ Hb2). reflexivity.
    + reflexivity.
  - eexists _, _. split; [reflexivity|].
    split; [apply Inv_cuffed_other; auto|].
    do 4 (split; [reflexivity|]). split; [exact Hb2|reflexivity].
Qed.

(** X30: [arrest] at a prompt. Without the cuffs in the inventory it
    changes nothing and costs no time, whatever it is given; with the cuffs,
    for an NPC the current room lists under the given name and whose arrested
    flag is not set, it sets the flag, moves the NPC to the detention room and out of
    every room list, adds the token to the items of the detention room when
    the NPC is the culprit and leaves those items alone when not, never
    leaving an identifier there twice, and takes three minutes off the timer
    (ending the game in a loss when no more than three were left). *)
Theorem X30_arrest_effects g d a args :
  reachable g d ->
  let who := Py.lower (Py.join " " (a :: args)) in
  (Py.mem "cuffs" (Game.inv g) = false ->
     (forall args', state (Game.arrest args' g) = g
                    /\ result (Game.arrest args' g) = Game.Ok tt)
     /\ output (Game.arrest (a :: args) g) = ["You need Restraint Cuffs to arrest."])
  /\ (Py.mem "cuffs" (Game.inv g) = true ->
      forall r tid n brig,
        Py.get (Game.rooms g) (Game.player_room g) = Some r ->
        find (npc_matches (Game.npcs g) who) (Room.npcs r) = Some tid ->
        Py.get (Game.npcs g) tid = Some n -> NPC.arrested n = false ->
        Py.get (Game.rooms g) (Game.brigrm g) = Some brig ->
        let g' := state (Game.arrest (a :: args) g) in
        Py.get (Game.npcs g') tid
          = Some (NPC.set_room (NPC.set_arrested n true) (Game.brigrm g))
        /\ (forall rid r', Py.get (Game.rooms g') rid = Some r' ->
              ~ In tid (Room.npcs r'))
        /\ (exists brig',
              Py.get (Game.rooms g') (Game.brigrm g) = Some brig'
              /\ Room.items brig'
                 = (if (tid =? Game.killer_id g)%string
                    then Room.items brig ++ ["codes_token"] else Room.items brig)
              /\ NoDup (Room.items brig'))
        /\ Game.inv g' = Game.inv g
        /\ Game.time g' = Z.max 0 (Game.time g - 3)
        /\ result (Game.arrest (a :: args) g)
           = (if (3 <? Game.time g)%Z then Game.Ok tt else Game.Raise Game.Loss)).
Proof.
  intros Hr who. destruct (reachable_Inv g d Hr) as (HI & _). split.
  - intros Hc. split.
    + intros [|a' args']; [split; reflexivity|].
      unfold Game.arrest. rewrite bind_self. rewrite Hc. split; reflexivity.
    + unfold Game.arrest. rewrite bind_self. rewrite Hc. reflexivity.
  - intros Hc r tid n brig Hroom Hf Hn Ha Hb g'.
    destruct (arrest_success g a args r tid n brig HI Hc Hroom Hf Hn Ha Hb)
      as (g3 & brig' & E & HI3 & En & Et & Ei & Eb & Hb' & Hitems).
    subst g'. rewrite E, state_prepend, result_prepend, state_spend, result_spend.
    simpl. rewrite En, Et, Ei.
    assert (Hn3 : Py.get (Game.npcs g3) tid
                  = Some (NPC.set_room (NPC.set_arrested n true) (Game.brigrm g))).
    { rewrite En. apply (get_set_same _ _ _ _ Hn). }
    rewrite <- En. repeat split; auto.
    + intros rid r' Hr' Hin. apply (inv_hidden _ HI3 rid r' tid Hr' Hin).
      eexists. split; [exact Hn3|reflexivity].
    + exists brig'. repeat split; auto. eapply NoDup_room_items; eauto.
Qed.

Lemma X30_witness :
  reachable at_gala None
  /\ Py.mem "cuffs" (Game.inv at_gala) = true
  /\ Game.time (state (Game.arrest ["Minister"; "Lira"; "CHEN"] at_gala)) = 54%Z
  /\ result (Game.arrest ["Minister"; "Lira"; "CHEN"] at_gala) = Game.Ok tt.
Proof.
  split; [exact at_gala_reachable|]. split; [reflexivity|].
  assert (H := proj2 (X30_arrest_effects at_gala None "Minister" ["Lira"; "CHEN"]
                        at_gala_reachable) eq_refl).
  cbv zeta in H.
  destruct (Py.get (Game.rooms at_gala) (Game.player_room at_gala)) as [r|] eqn:Er;
    [|vm_compute in Er; discriminate].
  destruct (Py.get (Game.npcs at_gala) "chen") as [n|] eqn:En;
    [|vm_compute in En; discriminate].
  destruct (Py.get (Game.rooms at_gala) (Game.brigrm at_gala)) as [brig|] eqn:Eb;
    [|vm_compute in Eb; discriminate].
  specialize (H r "chen" n brig eq_refl).
  destruct H as (_ & _ & _ & _ & Ht & Hres).
  - vm_compute in Er. inversion Er; subst r. reflexivity.
  - exact En.
  - vm_compute in En. inversion En; subst n. reflexivity.
  - reflexivity.
  - split; [exact Ht|exact Hres].
Defined.

(** ** Names *)
Lemma NoDup_disjoint {A} (l l' : list A) x :
  NoDup (l ++ l') -> In x l -> In x l' -> False.
Proof.
  induction l as [|a l IH]; simpl; [tauto|].
  intros H [->|Hin] Hin'.
  - inversion H; subst. apply H2. apply in_or_app. auto.
  - inversion H; subst. auto.
Qed.

Lemma flat_map_unique {A} (f : A -> list string) l a b x :
  NoDup (flat_map f l) -> In a l -> In b l -> In x (f a) -> In x (f b) -> a = b.
Proof.
  induction l as [|c l IH]; simpl; [tauto|].
  intros Hnd [->|Ha] [->|Hb] Hxa Hxb; auto.
  - exfalso. apply (NoDup_disjoint _ _ x Hnd Hxa). apply in_flat_map. eauto.
  - exfalso. apply (NoDup_disjoint _ _ x Hnd Hxb). apply in_flat_map. eauto.
  - apply IH; auto. eapply NoDup_app_remove_l; eauto.
Qed.

Lemma names_distinct :
  NoDup (flat_map item_keys world_items ++ flat_map npc_keys world_npcs).
Proof. apply nodup_strings. vm_compute. reflexivity. Qed.

Lemma item_matches_key tbl name i :
  item_matches tbl name i = true ->
  exists it, Py.get tbl i = Some it /\ In name (item_keys (i, it)).
Proof.
  unfold item_matches, item_keys. destruct (Py.get tbl i) as [it|]; [|discriminate].
  intros H. exists it. split; [reflexivity|]. simpl.
  apply orb_prop in H. destruct H as [H|H]; apply String.eqb_eq in H; auto.
Qed.

Lemma npc_matches_key tbl who nid :
  npc_matches tbl who nid = true ->
  exists n, Py.get tbl nid = Some n /\ In who (npc_keys (nid, n)).
Proof.
  unfold npc_matches, npc_keys. destruct (Py.get tbl nid) as [n|]; [|discriminate].
  intros H. exists n. split; [reflexivity|]. simpl.
  apply orb_prop in H. destruct H as [H|H]; apply String.eqb_eq in H; auto.
Qed.

(** A name finds at most one item of the authored table. *)
Lemma item_match_unique name i j :
  item_matches world_items name i = true ->
  item_matches world_items name j = true -> i = j.
Proof.
  intros Hi Hj.
  destruct (item_matches_key _ _ _ Hi) as (it & Ei & Ki).
  destruct (item_matches_key _ _ _ Hj) as (jt & Ej & Kj).
  assert (E : (i, it) = (j, jt)).
  { apply (flat_map_unique item_keys world_items _ _ name).
    - eapply NoDup_app_remove_r. apply names_distinct.
    - apply get_in. exact Ei.
    - apply get_in. exact Ej.
    - exact Ki.
    - exact Kj. }
  congruence.
Qed.

Lemma find_none_iff {A} (f : A -> bool) l :
  find f l = None <-> forall x, In x l -> f x = false.
Proof.
  split; [apply find_none|].
  induction l as [|a l IH]; simpl; [reflexivity|]. intros H.
  rewrite (H a (or_introl eq_refl)). apply IH. auto.
Qed.

Lemma find_app_none {A} (f : A -> bool) l l' :
  find f l = None -> find f (l ++ l') = find f l'.
Proof.
  induction l as [|a l IH]; simpl; [reflexivity|].
  destruct (f a); [discriminate|exact IH].
Qed.

(** ** Take and drop *)
Lemma Inv_items g : Inv g -> Game.items g = world_items.
Proof. intros HI. destruct (inv_static _ HI) as (_ & H & _). exact H. Qed.

(** What a successful [drop] does, at any state that satisfies the
    invariant up to its timer. *)
Lemma drop_success g a args r iid :
  Inv g ->
  Py.get (Game.rooms g) (Game.player_room g) = Some r ->
  find (item_matches (Game.items g) (Py.lower (Py.join " " (a :: args)))) (Game.inv g)
    = Some iid ->
  exists l1 l2 it,
    Game.inv g = l1 ++ iid :: l2 /\ ~ In iid (l1 ++ l2)
    /\ Py.get (Game.items g) iid = Some it
    /\ Game.drop (a :: args) g
       = prepend [("You drop the " ++ Item.name it ++ ".")%string]
                 (Game.spend 1 (after_drop g r (l1 ++ l2) iid)).
Proof.
  intros HI Hr Hf.
  assert (Hs := inv_static _ HI).
  destruct (inv_ids _ HI) as (_ & I2 & _).
  assert (Hin : In iid (Game.inv g)) by (eapply find_some_in; eauto).
  destruct (known_get _ _ _ I2 Hin) as (it & Hit).
  destruct (remove_some _ _ Hin) as (l & Hl).
  destruct (remove_first _ _ _ Hl) as (l1 & l2 & E1 & E2 & Hn1).
  exists l1, l2, it. split; [exact E1|]. split.
  { assert (Hnd := inv_nodup _ HI). apply NoDup_app_remove_r in Hnd.
    rewrite E1 in Hnd. apply NoDup_remove_2 in Hnd. exact Hnd. }
  split; [exact Hit|].
  rewrite (drop_run g a args r Hr I2). cbv zeta. rewrite Hf.
  rewrite (truthy_known _ iid it (static_no_empty_item g Hs) Hit), Hl, Hit, E2.
  reflexivity.
Qed.

(** C5: a successful take of a portable item found in the current room
    removes its identifier, which occurs there once, from the list of the
    room and appends it to the inventory; a successful drop removes the
    identifier, which occurs once, from the inventory and appends it to the
    list of the room; and dropping what was just taken leaves the inventory
    as it was before the take (the item is back in the room, at the end of
    its list). *)
Theorem C5_take_then_drop g d a args r :
  reachable g d ->
  Py.get (Game.rooms g) (Game.player_room g) = Some r ->
  let name := Py.lower (Py.join " " (a :: args)) in
  (forall iid it,
     find (item_matches (Game.items g) name) (Room.items r) = Some iid ->
     Py.get (Game.items g) iid = Some it -> Item.portable it = true ->
     let g1 := state (Game.take (a :: args) g) in
     let g2 := state (Game.drop (a :: args) g1) in
     exists l1 l2 r1 r2,
       Room.items r = l1 ++ iid :: l2 /\ ~ In iid (l1 ++ l2)
       /\ Py.get (Game.rooms g1) (Game.player_room g) = Some r1
       /\ Room.items r1 = l1 ++ l2
       /\ Game.inv g1 = Game.inv g ++ [iid]
       /\ Py.get (Game.rooms g2) (Game.player_room g) = Some r2
       /\ Room.items r2 = (l1 ++ l2) ++ [iid]
       /\ Game.inv g2 = Game.inv g)
  /\ (forall iid,
        find (item_matches (Game.items g) name) (Game.inv g) = Some iid ->
        let g' := state (Game.drop (a :: args) g) in
        exists l1 l2 r',
          Game.inv g = l1 ++ iid :: l2 /\ ~ In iid (l1 ++ l2)
          /\ Game.inv g' = l1 ++ l2
          /\ Py.get (Game.rooms g') (Game.player_room g) = Some r'
          /\ Room.items r' = Room.items r ++ [iid]).
Proof.
  intros Hreach Hr name. destruct (reachable_Inv g d Hreach) as (HI & _).
  assert (Hs := inv_static _ HI). split.
  - intros iid it Hf Hit Hp g1 g2.
    assert (Hin : In iid (Room.items r)) by (eapply find_some_in; eauto).
    destruct (remove_some _ _ Hin) as (l & Hl).
    destruct (remove_first _ _ _ Hl) as (l1 & l2 & E1 & E2 & Hn1).
    assert (Hndr : ~ In iid (l1 ++ l2)).
    { assert (Hnd := NoDup_room_items g _ r HI Hr). rewrite E1 in Hnd.
      apply NoDup_remove_2 in Hnd. exact Hnd. }
    assert (Hk : known (Game.items g) (Room.items r)).
    { destruct (inv_ids _ HI) as (I1 & _). apply (I1 _ _ Hr). }
    assert (Et : Game.take (a :: args) g
                 = prepend [("You take the " ++ Item.name it ++ ".")%string]
                           (Game.spend 1 (after_take g r l iid))).
    { rewrite (take_run g a args r Hr Hk). cbv zeta. fold name. rewrite Hf.
      rewrite (truthy_known _ iid it (static_no_empty_item g Hs) Hit), Hit, Hp, Hl.
      reflexivity. }
    assert (HI1 := Inv_after_take g r l iid it HI Hr Hit Hp Hl).
    assert (Hr1 : Py.get (Game.rooms (after_take g r l iid))
                         (Game.player_room (after_take g r l iid))
                  = Some (Room.set_items r l)).
    { simpl. apply (get_set_same _ _ _ _ Hr). }
    assert (Hnot : ~ In iid (Game.inv g)).
    { intros Hi. assert (Hnd := inv_nodup _ HI).
      apply (NoDup_disjoint _ _ iid Hnd Hi).
      destruct (all_items_split g _ r Hr) as (A & B & -> & _).
      apply in_or_app. right. apply in_or_app. left. exact Hin. }
    assert (Hf1 : find (item_matches (Game.items (after_take g r l iid)) name)
                       (Game.inv (after_take g r l iid)) = Some iid).
    { simpl. rewrite find_app_none.
      - simpl. apply find_some in Hf. destruct Hf as [_ ->]. reflexivity.
      - apply find_none_iff. intros j Hj.
        destruct (item_matches (Game.items g) name j) eqn:Ej; [|reflexivity].
        exfalso. apply find_some in Hf. destruct Hf as [_ Hm].
        rewrite (Inv_items g HI) in *.
        rewrite (item_match_unique name j iid Ej Hm) in Hj. tauto. }
    subst g2 g1. rewrite Et, state_prepend, state_spend.
    set (G1 := Game.set_time (after_take g r l iid) (Z.max 0 (Game.time _ - 1))).
    assert (Ed : state (Game.drop (a :: args) G1)
                 = Game.set_time (after_drop G1 (Room.set_items r l) (Game.inv g) iid)
                     (Z.max 0 (Game.time G1 - 1))).
    { assert (K : known (Game.items G1) (Game.inv G1)).
      { destruct (inv_ids _ HI1) as (_ & I2 & _). exact I2. }
      assert (Hr1' : Py.get (Game.rooms G1) (Game.player_room G1)
                     = Some (Room.set_items r l)) by exact Hr1.
      rewrite (drop_run G1 a args _ Hr1' K). cbv zeta. fold name.
      change (find (item_matches (Game.items G1) name) (Game.inv G1))
        with (find (item_matches (Game.items (after_take g r l iid)) name)
                   (Game.inv (after_take g r l iid))).
      rewrite Hf1.
      rewrite (truthy_known (Game.items g) iid it (static_no_empty_item g Hs) Hit).
      change (Game.inv G1) with (Game.inv g ++ [iid]).
      rewrite (remove_absent iid (Game.inv g) Hnot).
      change (Py.get (Game.items G1) iid) with (Py.get (Game.items g) iid).
      rewrite Hit, state_prepend, state_spend. reflexivity. }
    exists l1, l2, (Room.set_items r l), (Room.set_items r (l ++ [iid])).
    split; [exact E1|]. split; [exact Hndr|].
    split; [exact Hr1|]. split; [exact E2|].
    split; [reflexivity|].
    rewrite Ed. simpl. rewrite <- E2.
    split; [|split; reflexivity].
    rewrite (get_set_same _ _ _ (Room.set_items r l)); [reflexivity|].
    apply (get_set_same _ _ _ _ Hr).
  - intros iid Hf g'.
    destruct (drop_success g a args r iid HI Hr Hf)
      as (l1 & l2 & it & E1 & Hn & Hit & E).
    exists l1, l2, (Room.set_items r (Room.items r ++ [iid])).
    subst g'. rewrite E, state_prepend, state_spend. simpl.
    split; [exact E1|]. split; [exact Hn|]. split; [reflexivity|].
    split; [apply (get_set_same _ _ _ _ Hr)|reflexivity].
Qed.

Lemma at_gala_empty_handed_reachable : reachable at_gala_empty_handed None.
Proof. apply (after_reachable ["go n"]). vm_compute. reflexivity. Qed.

Lemma C5_witness :
  reachable at_gala_empty_handed None
  /\ exists r,
       Py.get (Game.rooms at_gala_empty_handed)
              (Game.player_room at_gala_empty_handed) = Some r
       /\ Game.inv (state (Game.drop ["Bloodied"; "Cufflink"]
                     (state (Game.take ["Bloodied"; "Cufflink"] at_gala_empty_handed))))
          = Game.inv at_gala_empty_handed.
Proof.
  split; [exact at_gala_empty_handed_reachable|].
  destruct (Py.get (Game.rooms at_gala_empty_handed)
                   (Game.player_room at_gala_empty_handed)) as [r|] eqn:Er;
    [|vm_compute in Er; discriminate].
  exists r. split; [reflexivity|].
  destruct (Py.get (Game.items at_gala_empty_handed) "cufflink") as [it|] eqn:Eit;
    [|vm_compute in Eit; discriminate].
  destruct (proj1 (C5_take_then_drop at_gala_empty_handed None "Bloodied" ["Cufflink"] r
                     at_gala_empty_handed_reachable Er) "cufflink" it)
    as (l1 & l2 & r1 & r2 & _ & _ & _ & _ & _ & _ & _ & H).
  - vm_compute in Er. inversion Er; subst r. reflexivity.
  - exact Eit.
  - vm_compute in Eit. inversion Eit; subst it. reflexivity.
  - exact H.
Defined.

(** ** Inspect and talk *)
Lemma inspect_run g a args r :
  Py.get (Game.rooms g) (Game.player_room g) = Some r ->
  known (Game.items g) (Game.inv g ++ Room.items r) ->
  known (Game.npcs g) (Room.npcs r) ->
  Game.inspect (a :: args) g =
    let name := Py.lower (Py.join " " (a :: args)) in
    match find (item_matches (Game.items g) name) (Game.inv g ++ Room.items r) with
    | Some i =>
        match Py.get (Game.items g) i with
        | None => (Game.Raise (Game.KeyError i), g, [])
        | Some it =>
            match Py.get (Game.killer_evidence g) (Game.killer_id g) with
            | None => (Game.Raise (Game.KeyError (Game.killer_id g)), g, [])
            | Some ev => prepend [item_detail it i ev] (Game.spend 1 g)
            end
        end
    | None =>
        match find (npc_matches (Game.npcs g) name) (Room.npcs r) with
        | Some nid =>
            match Py.get (Game.npcs g) nid with
            | None => (Game.Raise (Game.KeyError nid), g, [])
            | Some n => prepend [npc_detail n] (Game.spend 1 g)
            end
        | None => (Game.Ok tt, g, ["You find nothing notable."])
        end
    end.
Proof.
  intros Hr Hk Hkn. unfold Game.inspect.
  run_with (current_room_run _ _ Hr). run. cbv zeta.
  run_with (find_item_run _ (Py.lower (Py.join " " (a :: args))) _ g Hk).
  destruct (find _ (_ ++ _)) as [i|].
  - destruct (Py.get (Game.items g) i) as [it|] eqn:Eit.
    2:{ apply bind_raise. unfold Game.getitem. rewrite Eit. reflexivity. }
    run_with (getitem_some _ _ _ g Eit).
    destruct (Py.get (Game.killer_evidence g) (Game.killer_id g)) as [ev|] eqn:Eev.
    2:{ apply bind_raise. unfold Game.getitem. rewrite Eev. reflexivity. }
    run_with (getitem_some _ _ _ g Eev). run. reflexivity.
  - run_with (find_npc_run _ (Py.lower (Py.join " " (a :: args))) _ g Hkn).
    destruct (find _ (Room.npcs r)) as [nid|]; [|reflexivity].
    destruct (Py.get (Game.npcs g) nid) as [n|] eqn:En.
    2:{ apply bind_raise. unfold Game.getitem. rewrite En. reflexivity. }
    run_with (getitem_some _ _ _ g En). run. reflexivity.
Qed.

Lemma talk_absent g a args r :
  Py.get (Game.rooms g) (Game.player_room g) = Some r ->
  known (Game.npcs g) (Room.npcs r) ->
  find (npc_matches (Game.npcs g) (Py.lower (Py.join " " (a :: args)))) (Room.npcs r)
    = None ->
  Game.talk (a :: args) g = (Game.Ok tt, g, ["They aren’t here."]).
Proof.
  intros Hr Hk Hf. unfold Game.talk.
  run_with (current_room_run _ _ Hr). run.
  run_with (find_npc_run _ (Py.lower (Py.join " " (a :: args))) _ g Hk).
  rewrite Hf. reflexivity.
Qed.

(** ** Resolution *)
Lemma world_item_id_lower i it :
  Py.get world_items i = Some it -> Py.lower i = i.
Proof.
  intros H. apply get_in in H. simpl in H.
  repeat (destruct H as [H|H]; [inversion H; reflexivity|]). destruct H.
Qed.

(** The test of the loops is the match the specification words. *)
Lemma names_item_code input i :
  names_item world_items input i = item_matches world_items (Py.lower input) i.
Proof.
  unfold names_item, item_matches, same_ignoring_case.
  destruct (Py.get world_items i) as [it|] eqn:E; [|reflexivity].
  rewrite (world_item_id_lower i it E).
  rewrite (String.eqb_sym (Py.lower input) (Py.lower (Item.name it))).
  rewrite (String.eqb_sym (Py.lower input) i). reflexivity.
Qed.

Lemma resolve_code g input coll :
  Inv g ->
  resolve (Game.items g) input coll
  = find (item_matches (Game.items g) (Py.lower input)) coll.
Proof.
  intros HI. rewrite (Inv_items g HI). unfold resolve.
  induction coll as [|i coll IH]; simpl; [reflexivity|].
  rewrite names_item_code, IH. reflexivity.
Qed.

Lemma resolve_in tbl input coll iid :
  resolve tbl input coll = Some iid ->
  In iid coll /\ names_item tbl input iid = true.
Proof. intros H. apply find_some in H. exact H. Qed.

(** C8, amended: the typed words, joined by single spaces, are resolved by a
    case-insensitive exact match against display name or identifier; take
    scans the items of the current room only and drop the inventory only,
    while inspect scans the inventory first and then the items of the current
    room, and only when no item is found there turns to the NPCs the room
    lists. *)
Theorem C8_name_resolution g d a args r :
  reachable g d ->
  Py.get (Game.rooms g) (Game.player_room g) = Some r ->
  let input := Py.join " " (a :: args) in
  (forall input' coll,
     Py.lower input' = Py.lower input ->
     resolve (Game.items g) input' coll = resolve (Game.items g) input coll)
  /\ match resolve (Game.items g) input (Room.items r) with
     | None => Game.take (a :: args) g = (Game.Ok tt, g, ["Not here."])
     | Some iid =>
         exists it l,
           Py.get (Game.items g) iid = Some it
           /\ Py.remove iid (Room.items r) = Some l
           /\ Game.take (a :: args) g
              = if Item.portable it
                then prepend [("You take the " ++ Item.name it ++ ".")%string]
                             (Game.spend 1 (after_take g r l iid))
                else (Game.Ok tt, g, ["It’s fixed in place."])
     end
  /\ match resolve (Game.items g) input (Game.inv g) with
     | None => Game.drop (a :: args) g = (Game.Ok tt, g, ["You don’t have that."])
     | Some iid =>
         exists it l,
           Py.get (Game.items g) iid = Some it
           /\ Py.remove iid (Game.inv g) = Some l
           /\ Game.drop (a :: args) g
              = prepend [("You drop the " ++ Item.name it ++ ".")%string]
                        (Game.spend 1 (after_drop g r l iid))
     end
  /\ match resolve (Game.items g) input (Game.inv g ++ Room.items r) with
     | Some iid =>
         exists it ev,
           Py.get (Game.items g) iid = Some it
           /\ Py.get (Game.killer_evidence g) (Game.killer_id g) = Some ev
           /\ Game.inspect (a :: args) g
              = prepend [item_detail it iid ev] (Game.spend 1 g)
     | None =>
         match find (npc_matches (Game.npcs g) (Py.lower input)) (Room.npcs r) with
         | Some nid =>
             exists n,
               Py.get (Game.npcs g) nid = Some n
               /\ Game.inspect (a :: args) g
                  = prepend [npc_detail n] (Game.spend 1 g)
         | None =>
             Game.inspect (a :: args) g = (Game.Ok tt, g, ["You find nothing notable."])
         end
     end.
Proof.
  intros Hreach Hr input. destruct (reachable_Inv g d Hreach) as (HI & _).
  assert (Hs := inv_static _ HI).
  destruct (inv_ids _ HI) as (I1 & I2 & _). destruct (I1 _ _ Hr) as (Kr & Kn).
  assert (Kall : known (Game.items g) (Game.inv g ++ Room.items r)).
  { apply Forall_app. auto. }
  split; [|split; [|split]].
  - intros input' coll E. rewrite !(resolve_code g _ coll HI), E. reflexivity.
  - rewrite (resolve_code g input _ HI), (take_run g a args r Hr Kr). cbv zeta.
    fold input. destruct (find _ _) as [iid|] eqn:Ef; [|reflexivity].
    assert (Hin : In iid (Room.items r)) by (eapply find_some_in; eauto).
    destruct (known_get _ _ _ Kr Hin) as (it & Hit).
    destruct (remove_some _ _ Hin) as (l & Hl).
    exists it, l. split; [exact Hit|]. split; [exact Hl|].
    rewrite (truthy_known _ iid it (static_no_empty_item g Hs) Hit), Hit, Hl.
    destruct (Item.portable it); reflexivity.
  - rewrite (resolve_code g input _ HI), (drop_run g a args r Hr I2). cbv zeta.
    fold input. destruct (find _ _) as [iid|] eqn:Ef; [|reflexivity].
    assert (Hin : In iid (Game.inv g)) by (eapply find_some_in; eauto).
    destruct (known_get _ _ _ I2 Hin) as (it & Hit).
    destruct (remove_some _ _ Hin) as (l & Hl).
    exists it, l. split; [exact Hit|]. split; [exact Hl|].
    rewrite (truthy_known _ iid it (static_no_empty_item g Hs) Hit), Hl, Hit.
    reflexivity.
  - rewrite (resolve_code g input _ HI), (inspect_run g a args r Hr Kall Kn). cbv zeta.
    fold input. destruct (find _ (_ ++ _)) as [iid|] eqn:Ef.
    + assert (Hin : In iid (Game.inv g ++ Room.items r)) by (eapply find_some_in; eauto).
      destruct (known_get _ _ _ Kall Hin) as (it & Hit).
      assert (Hev := inv_evidence _ HI).
      destruct (Py.get (Game.killer_evidence g) (Game.killer_id g)) as [ev|];
        [|congruence].
      exists it, ev. rewrite Hit. auto.
    + destruct (find _ (Room.npcs r)) as [nid|] eqn:Efn; [|reflexivity].
      assert (Hin : In nid (Room.npcs r)) by (eapply find_some_in; eauto).
      destruct (known_get _ _ _ Kn Hin) as (n & Hn).
      exists n. rewrite Hn. auto.
Qed.

Lemma at_atrium_with_cuffs_reachable : reachable at_atrium_with_cuffs None.
Proof. apply (after_reachable ["take cuffs"]). vm_compute. reflexivity. Qed.

Lemma C8_witness :
  reachable at_atrium_with_cuffs None
  /\ exists r,
       Py.get (Game.rooms at_atrium_with_cuffs)
              (Game.player_room at_atrium_with_cuffs) = Some r
       /\ Game.take ["RESTRAINT"; "cuffs"] at_atrium_with_cuffs
          = (Game.Ok tt, at_atrium_with_cuffs, ["Not here."]).
Proof.
  split; [exact at_atrium_with_cuffs_reachable|].
  destruct (Py.get (Game.rooms at_atrium_with_cuffs)
                   (Game.player_room at_atrium_with_cuffs)) as [r|] eqn:Er;
    [|vm_compute in Er; discriminate].
  exists r. split; [reflexivity|].
  assert (H := proj1 (proj2 (C8_name_resolution at_atrium_with_cuffs None
                               "RESTRAINT" ["cuffs"] r
                               at_atrium_with_cuffs_reachable Er))).
  cbv zeta in H.
  replace (resolve (Game.items at_atrium_with_cuffs)
                   (Py.join " " ["RESTRAINT"; "cuffs"]) (Room.items r))
    with (@None string) in H; [exact H|].
  vm_compute in Er. inversion Er; subst r. reflexivity.
Defined.

(** C8 as the specification words it fails for inspect: with the cuffs in the
    inventory and no longer among the items of the room, their name resolves
    to nothing in the room, and yet inspect describes them and takes its
    minute. *)
Lemma C8_counterexample :
  reachable at_atrium_with_cuffs None
  /\ (exists r,
        Py.get (Game.rooms at_atrium_with_cuffs)
               (Game.player_room at_atrium_with_cuffs) = Some r
        /\ resolve (Game.items at_atrium_with_cuffs) "cuffs" (Room.items r) = None)
  /\ resolve (Game.items at_atrium_with_cuffs) "cuffs" (Game.inv at_atrium_with_cuffs)
     = Some "cuffs"
  /\ Game.inspect ["cuffs"] at_atrium_with_cuffs
     = (Game.Ok tt, Game.set_time at_atrium_with_cuffs 58,
        ["Security-issue restraints. Required to arrest."]).
Proof.
  split; [exact at_atrium_with_cuffs_reachable|].
  split; [eexists; split; vm_compute; reflexivity|].
  split; vm_compute; reflexivity.
Qed.

(** ** Arrested NPCs *)
Lemma static_npc_matches g who nid :
  static_ok g -> npc_matches (Game.npcs g) who nid = npc_matches world_npcs who nid.
Proof.
  intros (_ & _ & H & _). unfold npc_matches.
  assert (E := get_statics npc_static (Game.npcs g) nid).
  rewrite H, get_statics in E.
  destruct (Py.get (Game.npcs g) nid) as [n|], (Py.get world_npcs nid) as [nw|];
    unfold option_map in E; try discriminate; [|reflexivity].
  assert (E' : npc_static nw = npc_static n) by congruence.
  apply (f_equal NPC.name) in E'. simpl in E'.
  rewrite E'. reflexivity.
Qed.

Lemma npc_match_unique who i j :
  npc_matches world_npcs who i = true ->
  npc_matches world_npcs who j = true -> i = j.
Proof.
  intros Hi Hj.
  destruct (npc_matches_key _ _ _ Hi) as (ni & Ei & Ki).
  destruct (npc_matches_key _ _ _ Hj) as (nj & Ej & Kj).
  assert (E : (i, ni) = (j, nj)).
  { apply (flat_map_unique npc_keys world_npcs _ _ who).
    - eapply NoDup_app_remove_l. apply names_distinct.
    - apply get_in. exact Ei.
    - apply get_in. exact Ej.
    - exact Ki.
    - exact Kj. }
  congruence.
Qed.

Lemma item_npc_disjoint who i j :
  item_matches world_items who i = true ->
  npc_matches world_npcs who j = true -> False.
Proof.
  intros Hi Hj.
  destruct (item_matches_key _ _ _ Hi) as (it & Ei & Ki).
  destruct (npc_matches_key _ _ _ Hj) as (n & Ej & Kj).
  apply (NoDup_disjoint _ _ who names_distinct).
  - apply in_flat_map. exists (i, it). split; [apply get_in; exact Ei|exact Ki].
  - apply in_flat_map. exists (j, n). split; [apply get_in; exact Ej|exact Kj].
Qed.

Lemma still_arrested_step line d :
  is_load line = false -> keeps false still_arrested (Game.step line d).
Proof.
  intros Hl. apply keeps_step.
  - intros g nid H. exact H.
  - intros a b c H1 H2 nid H. auto.
  - intros m _ g _ nid H. rewrite state_spend. exact H.
  - intros g r nid H. exact H.
  - intros g l nid H. exact H.
  - intros g p nid H. exact H.
  - intros g rid r f _ _ nid H. exact H.
  - intros g nid n b Hn nid' (n' & Hn' & Ha). unfold is_arrested. simpl.
    rewrite (get_set _ _ nid' _ _ Hn).
    destruct (nid =? nid')%string; eauto.
  - intros g nid n Hn nid' (n' & Hn' & Ha). unfold is_arrested. simpl.
    rewrite (get_set _ _ nid' _ _ Hn).
    destruct (String.eqb_spec nid nid') as [->|_]; [|eauto].
    eexists. split; [reflexivity|]. simpl. congruence.
  - congruence.
Qed.

(** C9, amended: while an NPC carries the arrested flag no room lists them,
    the detention room included, and the words that name them get nowhere:
    talk answers that they are not here, inspect that there is nothing
    notable, arrest that they are not here when the cuffs are in the
    inventory and that cuffs are needed when they are not, each without
    touching the state; and no line but load takes the flag away. *)
Theorem C9_arrested_out_of_sight g d nid a args :
  reachable g d -> is_arrested g nid ->
  npc_matches (Game.npcs g) (Py.lower (Py.join " " (a :: args))) nid = true ->
  (forall rid r, Py.get (Game.rooms g) rid = Some r -> ~ In nid (Room.npcs r))
  /\ Game.talk (a :: args) g = (Game.Ok tt, g, ["They aren’t here."])
  /\ Game.inspect (a :: args) g = (Game.Ok tt, g, ["You find nothing notable."])
  /\ Game.arrest (a :: args) g
     = (Game.Ok tt, g,
        [if Py.mem "cuffs" (Game.inv g)
         then "They aren’t here." else "You need Restraint Cuffs to arrest."])
  /\ (forall line, is_load line = false ->
        is_arrested (state (Game.step line d g)) nid).
Proof.
  intros Hreach Ha Hm. destruct (reachable_Inv g d Hreach) as (HI & _).
  assert (Hs := inv_static _ HI).
  destruct (Inv_current_room g HI) as (r & Hr).
  destruct (inv_ids _ HI) as (I1 & I2 & _). destruct (I1 _ _ Hr) as (Kr & Kn).
  assert (Hhid : forall rid r', Py.get (Game.rooms g) rid = Some r' ->
                   ~ In nid (Room.npcs r')).
  { intros rid r' Hr' Hin. apply (inv_hidden _ HI rid r' nid Hr' Hin Ha). }
  set (who := Py.lower (Py.join " " (a :: args))) in *.
  assert (Hnone : find (npc_matches (Game.npcs g) who) (Room.npcs r) = None).
  { apply find_none_iff. intros x Hx.
    destruct (npc_matches (Game.npcs g) who x) eqn:Ex; [|reflexivity].
    exfalso. rewrite (static_npc_matches g who x Hs) in Ex.
    rewrite (static_npc_matches g who nid Hs) in Hm.
    rewrite (npc_match_unique who x nid Ex Hm) in Hx. apply (Hhid _ _ Hr Hx). }
  assert (Hitems : find (item_matches (Game.items g) who) (Game.inv g ++ Room.items r)
                   = None).
  { apply find_none_iff. intros x _.
    destruct (item_matches (Game.items g) who x) eqn:Ex; [|reflexivity].
    exfalso. rewrite (Inv_items g HI) in Ex.
    rewrite (static_npc_matches g who nid Hs) in Hm.
    apply (item_npc_disjoint who x nid Ex Hm). }
  split; [exact Hhid|]. split; [|split; [|split]].
  - apply (talk_absent g a args r Hr Kn). exact Hnone.
  - rewrite (inspect_run g a args r Hr); auto.
    + cbv zeta. fold who. rewrite Hitems, Hnone. reflexivity.
    + apply Forall_app. auto.
  - rewrite (arrest_run g a args r Hr Kn (static_nodup_rooms g Hs)). cbv zeta.
    fold who. rewrite Hnone. destruct (Py.mem "cuffs" (Game.inv g)); reflexivity.
  - intros line Hl. apply (still_arrested_step line d Hl g); [discriminate|exact Ha].
Qed.

Lemma at_gala_cuffs_dropped_reachable : reachable at_gala_cuffs_dropped None.
Proof.
  apply (after_reachable ["take cuffs"; "go n"; "arrest chen"; "drop cuffs"]).
  vm_compute. reflexivity.
Qed.

Lemma chen_arrested : is_arrested at_gala_cuffs_dropped "chen".
Proof. eexists. split; [vm_compute; reflexivity|reflexivity]. Qed.

Lemma C9_witness :
  reachable at_gala_cuffs_dropped None
  /\ is_arrested at_gala_cuffs_dropped "chen"
  /\ npc_matches (Game.npcs at_gala_cuffs_dropped)
       (Py.lower (Py.join " " ["Minister"; "Lira"; "Chen"])) "chen" = true
  /\ Game.talk ["Minister"; "Lira"; "Chen"] at_gala_cuffs_dropped
     = (Game.Ok tt, at_gala_cuffs_dropped, ["They aren’t here."]).
Proof.
  split; [exact at_gala_cuffs_dropped_reachable|].
  split; [exact chen_arrested|]. split; [reflexivity|].
  exact (proj1 (proj2 (C9_arrested_out_of_sight at_gala_cuffs_dropped None "chen"
                         "Minister" ["Lira"; "Chen"]
                         at_gala_cuffs_dropped_reachable chen_arrested eq_refl))).
Defined.

(** C9 as the specification words it fails twice.  With Chen arrested and the cuffs
    dropped, a second arrest does not say that they are not here but that
    cuffs are needed.  And when the record saved before the arrest is loaded,
    Chen is back in the list of the Gala Dome and answers when talked to. *)
Lemma C9_counterexample :
  (reachable at_gala_cuffs_dropped None
   /\ is_arrested at_gala_cuffs_dropped "chen"
   /\ Game.arrest ["chen"] at_gala_cuffs_dropped
      = (Game.Ok tt, at_gala_cuffs_dropped, ["You need Restraint Cuffs to arrest."]))
  /\ (play ["save"; "arrest chen"; "load"] None at_gala
      = Some (at_gala_reloaded, Some (Game.save_data at_gala))
      /\ (exists r,
            Py.get (Game.rooms at_gala_reloaded) (Game.player_room at_gala_reloaded)
            = Some r
            /\ In "chen" (Room.npcs r))
      /\ output (Game.talk ["chen"] at_gala_reloaded)
         = [("Minister Lira Chen: " ++ Py.dq
             ++ "Security holo shows me on the dais at 23:40." ++ Py.dq)%string]).
Proof.
  split.
  - split; [exact at_gala_cuffs_dropped_reachable|].
    split; [exact chen_arrested|]. vm_compute. reflexivity.
  - split; [vm_compute; reflexivity|]. split.
    + eexists. split; [vm_compute; reflexivity|]. simpl. tauto.
    + vm_compute. reflexivity.
Qed.

(** ** The program as a whole *)

(** [main] is [boot] followed by the loop, and the loop goes through the
    typed lines by [step]: the prompts of a run of [main] are the states
    [reachable] describes. *)
Lemma main_boot r lines d :
  Game.main r lines d = Game.bind boot (fun _ => Game.loop lines d) (Game.blank r).
Proof.
  unfold Game.main, boot, Game.run, Game.bind, Game.say.
  destruct (Game.__init__ (Game.blank r)) as [[[[]|e] g1] o1]; [|reflexivity].
  destruct (Game.look g1) as [[[[]|e] g2] o2]; [|reflexivity].
  destruct (Game.loop lines d g2) as [[res g3] o3].
  simpl. rewrite <- !app_assoc. reflexivity.
Qed.

Lemma loop_play lines : forall d g g' d',
  play lines d g = Some (g', d') ->
  exists o, Game.loop lines d g
            = prepend o (Game.bind (Game.say (Py.nl ++ "Goodbye.")%string)
                                   (fun _ => Game.ret d') g').
Proof.
  induction lines as [|l lines IH]; intros d g g' d' H; simpl in H.
  - inversion H; subst. exists []. rewrite prepend_nil. reflexivity.
  - destruct (Game.step l d g) as [[[[[] d1]|e] g1] o1] eqn:E; try discriminate.
    destruct (IH d1 g1 g' d' H) as (o & Eo).
    exists (o1 ++ o). simpl. rewrite (bind_ok _ _ _ _ _ _ E). simpl.
    rewrite Eo, prepend_prepend. reflexivity.
Qed.

(** Before the first move or arrest the room lists are still empty: Prof.
    Das stands in the atrium, where the player is, and cannot be arrested
    there. *)
Example lists_empty_before_first_move :
  (exists n, Py.get (Game.npcs at_atrium_with_cuffs) "das" = Some n
             /\ NPC.room n = Game.player_room at_atrium_with_cuffs)
  /\ Game.arrest ["das"] at_atrium_with_cuffs
     = (Game.Ok tt, at_atrium_with_cuffs, ["They aren’t here."]).
Proof.
  split; [eexists; split; vm_compute; reflexivity|vm_compute; reflexivity].
Qed.

(** C4: an NPC who is in the room is not always found. In every game,
    once the cuffs are taken at the first prompt, Prof. Das has the atrium as
    her room, the player stands there with the cuffs, and she is not
    arrested; yet [arrest], by her identifier or by her name, answers that
    they are not here, arrests nobody and costs no time. [__init__] leaves
    the NPC lists of the rooms empty: [_sync_npcs_in_room], which makes the
    lists reflect the positions, is first called by a move or an arrest. *)
Theorem C4_arrest_misses_unlisted_npc r g :
  start r = Some g ->
  exists g1 o,
    Game.step "take cuffs" None g = (Game.Ok (true, None), g1, o)
    /\ Py.mem "cuffs" (Game.inv g1) = true
    /\ (exists n, Py.get (Game.npcs g1) "das" = Some n
                  /\ NPC.room n = Game.player_room g1 /\ NPC.arrested n = false)
    /\ Game.arrest ["das"] g1 = (Game.Ok tt, g1, ["They aren’t here."])
    /\ Game.arrest ["Prof."; "Mira"; "Das"] g1 = (Game.Ok tt, g1, ["They aren’t here."]).
Proof.
  unfold start. intros Hs.
  destruct (boot (Game.blank r)) as [[[[]|e] g0] o] eqn:E; [|discriminate].
  inversion Hs; subst g0.
  destruct (boot_run r g o E) as (_ & r' & k & ev & _ & _ & ->).
  eexists. eexists. split; [vm_compute; reflexivity|].
  split; [reflexivity|]. split; [|split; vm_compute; reflexivity].
  eexists. split; [reflexivity|]. split; reflexivity.
Qed.

Lemma C4_witness :
  start vale_rng = Some vale_game
  /\ exists g1 o,
       Game.step "take cuffs" None vale_game = (Game.Ok (true, None), g1, o)
       /\ Py.mem "cuffs" (Game.inv g1) = true
       /\ (exists n, Py.get (Game.npcs g1) "das" = Some n
                     /\ NPC.room n = Game.player_room g1 /\ NPC.arrested n = false)
       /\ Game.arrest ["das"] g1 = (Game.Ok tt, g1, ["They aren’t here."])
       /\ Game.arrest ["Prof."; "Mira"; "Das"] g1
          = (Game.Ok tt, g1, ["They aren’t here."]).
Proof.
  assert (Hs : start vale_rng = Some vale_game) by (vm_compute; reflexivity).
  split; [exact Hs|].
  exact (C4_arrest_misses_unlisted_npc vale_rng vale_game Hs).
Defined.

(** The timer example of the specification: three moves and one take from
    the start leave 53 minutes. *)
Example timer_after_three_moves_and_a_take :
  Game.time (state_after ["go n"; "go w"; "go e"; "take manifest"]) = 53%Z.
Proof. vm_compute. reflexivity. Qed.

(** * Further properties *)

(** ** More of the invariant *)
Lemma Inv2_set_time g t : Inv2 g -> Inv2 (Game.set_time g t).
Proof. intros [? ? ? ? ? ? ? ? ?]. constructor; assumption. Qed.

Lemma Inv2_set_rng g r : Inv2 g -> Inv2 (Game.set_rng g r).
Proof. intros [? ? ? ? ? ? ? ? ?]. constructor; assumption. Qed.

Lemma FullR_refl g : FullR g g.
Proof. unfold FullR. auto. Qed.

Lemma FullR_trans a b c : FullR a b -> FullR b c -> FullR a c.
Proof. unfold FullR. auto. Qed.

Lemma FullR_spend m : keeps true FullR (Game.spend m).
Proof.
  intros g Hok [HI H2]. split; [apply InvR_spend; auto|].
  rewrite state_spend. apply Inv2_set_time. exact H2.
Qed.

Lemma FullR_rng g r : FullR g (Game.set_rng g r).
Proof. intros [HI H2]. split; [apply Inv_set_rng|apply Inv2_set_rng]; auto. Qed.

Lemma is_arrested_set g nid n f nid' :
  Py.get (Game.npcs g) nid = Some n ->
  NPC.arrested (f n) = NPC.arrested n ->
  is_arrested (Game.set_npcs g (Py.set (Game.npcs g) nid (f n))) nid'
  <-> is_arrested g nid'.
Proof.
  intros Hn Hf. unfold is_arrested. simpl. rewrite (get_set _ _ nid' _ _ Hn).
  destruct (String.eqb_spec nid nid') as [->|_]; [|tauto].
  split; intros (m & Hm & Ha).
  - inversion Hm; subst. exists n. split; [exact Hn|congruence].
  - exists (f n). split; [reflexivity|]. congruence.
Qed.

Lemma FullR_coop g nid n :
  Py.get (Game.npcs g) nid = Some n ->
  FullR g (Game.set_npcs g (Py.set (Game.npcs g) nid (NPC.set_cooperative n true))).
Proof.
  intros Hn [HI H2]. split.
  - apply (Inv_calm g); [exact HI| |apply (inv_time _ HI)].
    split; [apply quiet_coop; exact Hn|].
    apply (steady_npc g nid n (fun n => NPC.set_cooperative n true)); auto.
  - destruct H2 as [R L Hh J O C S F E]. constructor; simpl; auto.
    + intros rid r nid' Hr Hin. destruct (L rid r nid' Hr Hin) as (m & Hm & Hroom).
      rewrite (get_set _ _ nid' _ _ Hn).
      destruct (String.eqb_spec nid nid') as [->|_]; [|eauto].
      eexists. split; [reflexivity|]. simpl. congruence.
    + intros nid' m. rewrite (get_set _ _ nid' _ _ Hn).
      destruct (String.eqb_spec nid nid') as [->|_]; [|apply Hh].
      intros Hm Ha. inversion Hm; subst. apply (Hh nid' n Hn Ha).
    + intros nid' m. rewrite (get_set _ _ nid' _ _ Hn).
      destruct (String.eqb_spec nid nid') as [->|_]; [|apply J].
      intros Hm Ha. inversion Hm; subst. apply (J nid' n Hn Ha).
    + intros nid' Hin Ha. apply (O nid' Hin).
      apply (is_arrested_set g nid n (fun n => NPC.set_cooperative n true) nid' Hn eq_refl).
      exact Ha.
    + intros nid' m. rewrite (get_set _ _ nid' _ _ Hn).
      destruct (String.eqb_spec nid nid') as [->|_]; [|apply C].
      intros Hm. inversion Hm; subst. reflexivity.
Qed.

(** [take] and [drop] only move an identifier between two lists. *)
Lemma take_perm g r l iid :
  Py.get (Game.rooms g) (Game.player_room g) = Some r ->
  Py.remove iid (Room.items r) = Some l ->
  Permutation (Game.inv g ++ all_items g)
              (Game.inv (after_take g r l iid) ++ all_items (after_take g r l iid)).
Proof.
  intros Hr Hrem. assert (Hperm := remove_perm _ _ _ Hrem).
  destruct (all_items_split g _ _ Hr) as (A & B & E1 & E2).
  unfold after_take. simpl.
  change (all_items _) with
    (all_items (Game.set_rooms g (Py.set (Game.rooms g) (Game.player_room g)
                                         (Room.set_items r l)))) at 2.
  rewrite E2, E1. simpl.
  rewrite <- app_assoc. apply Permutation_app_head.
  rewrite Hperm. simpl.
  rewrite (Permutation_app_comm A), <- app_comm_cons.
  apply perm_skip. rewrite (Permutation_app_comm A). reflexivity.
Qed.

Lemma drop_perm g r l iid :
  Py.get (Game.rooms g) (Game.player_room g) = Some r ->
  Py.remove iid (Game.inv g) = Some l ->
  Permutation (Game.inv g ++ all_items g)
              (Game.inv (after_drop g r l iid) ++ all_items (after_drop g r l iid)).
Proof.
  intros Hr Hrem. assert (Hperm := remove_perm _ _ _ Hrem).
  destruct (all_items_split g _ _ Hr) as (A & B & E1 & E2).
  unfold after_drop. simpl.
  change (all_items _) with
    (all_items (Game.set_rooms g (Py.set (Game.rooms g) (Game.player_room g)
                                   (Room.set_items r (Room.items r ++ [iid]))))) at 2.
  rewrite E2, E1. simpl. rewrite Hperm. simpl.
  replace (l ++ A ++ (Room.items r ++ [iid]) ++ B)
    with ((l ++ A ++ Room.items r) ++ iid :: B)
    by (rewrite <- !app_assoc; reflexivity).
  apply Permutation_cons_app. rewrite <- !app_assoc. reflexivity.
Qed.

(** A change of the items of one room, and of the inventory, leaves the
    people where they are. *)
Lemma Inv2_items_moved g g' rid r l :
  Inv2 g -> In rid walkable ->
  Py.get (Game.rooms g) rid = Some r ->
  Game.rooms g' = Py.set (Game.rooms g) rid (Room.set_items r l) ->
  Game.npcs g' = Game.npcs g -> Game.player_room g' = Game.player_room g ->
  Game.brigrm g' = Game.brigrm g ->
  Game.killer_id g' = Game.killer_id g ->
  Game.killer_evidence g' = Game.killer_evidence g ->
  (forall i, In i (Game.inv g ++ all_items g) -> In i (Game.inv g' ++ all_items g')) ->
  Inv2 g'.
Proof.
  intros [R L Hh J O C S F E] Hw Hr Er En Ep Eb Ek Ee Hst.
  constructor.
  - rewrite Ep. exact R.
  - intros rid' r' nid. rewrite Er, En. intros H Hin.
    destruct (get_set_cases _ _ _ _ _ _ Hr H) as [[-> ->]|[_ H']].
    + apply (L _ _ nid Hr Hin).
    + apply (L _ _ nid H' Hin).
  - rewrite En. exact Hh.
  - rewrite En, Eb. exact J.
  - intros nid Hin Ha. apply (O nid Hin). unfold is_arrested in *.
    rewrite En in Ha. exact Ha.
  - rewrite En. exact C.
  - intros i Hi. apply Hst. apply S. exact Hi.
  - intros rid' r'. rewrite Er. intros H Hn.
    destruct (get_set_cases _ _ _ _ _ _ Hr H) as [[-> ->]|[_ H']]; [tauto|].
    apply (F _ _ H' Hn).
  - rewrite Ee, Ek. exact E.
Qed.

Lemma Inv2_after_take g r l iid :
  Inv2 g -> Py.get (Game.rooms g) (Game.player_room g) = Some r ->
  Py.remove iid (Room.items r) = Some l ->
  Inv2 (after_take g r l iid).
Proof.
  intros H2 Hr Hl.
  apply (Inv2_items_moved g _ (Game.player_room g) r l H2 (i2_room _ H2) Hr);
    try reflexivity.
  intros i. apply Permutation_in. apply take_perm; auto.
Qed.

Lemma Inv2_after_drop g r l iid :
  Inv2 g -> Py.get (Game.rooms g) (Game.player_room g) = Some r ->
  Py.remove iid (Game.inv g) = Some l ->
  Inv2 (after_drop g r l iid).
Proof.
  intros H2 Hr Hl.
  apply (Inv2_items_moved g _ (Game.player_room g) r (Room.items r ++ [iid]) H2
           (i2_room _ H2) Hr);
    try reflexivity.
  intros i. apply Permutation_in. apply drop_perm; auto.
Qed.

(** From a method that keeps [Inv] to one that keeps [Full]. *)
Lemma FullR_of {A} (c : Game.M A) :
  keeps true InvR c ->
  (forall g, Inv g -> Inv2 g -> is_ok (result (c g)) = true -> Inv2 (state (c g))) ->
  keeps true FullR c.
Proof.
  intros Hc H g Hok [HI H2]. split; [apply Hc; auto|apply H; auto].
Qed.

Lemma Inv2_spend_state m g : Inv2 g -> Inv2 (state (prepend [] (Game.spend m g))).
Proof. intros H. rewrite state_prepend, state_spend. apply Inv2_set_time. exact H. Qed.

Lemma FullR_take args : keeps true FullR (Game.take args).
Proof.
  apply FullR_of; [apply InvR_take|].
  intros g HI H2 _. destruct args as [|a args]; [exact H2|].
  destruct (Inv_current_room g HI) as (r & Hr).
  assert (Hk : known (Game.items g) (Room.items r)).
  { destruct (inv_ids _ HI) as (I1 & _). apply (I1 _ _ Hr). }
  rewrite (take_run g a args r Hr Hk). cbv zeta.
  destruct (Game.truthy _) as [iid|]; [|exact H2].
  destruct (Py.get (Game.items g) iid) as [it|]; [|exact H2].
  destruct (negb (Item.portable it)); [exact H2|].
  destruct (Py.remove iid (Room.items r)) as [l|] eqn:El; [|exact H2].
  rewrite state_prepend, state_spend. apply Inv2_set_time.
  apply Inv2_after_take; auto.
Qed.

Lemma FullR_drop args : keeps true FullR (Game.drop args).
Proof.
  apply FullR_of; [apply InvR_drop|].
  intros g HI H2 _. destruct args as [|a args]; [exact H2|].
  destruct (Inv_current_room g HI) as (r & Hr).
  destruct (inv_ids _ HI) as (_ & I2 & _).
  rewrite (drop_run g a args r Hr I2). cbv zeta.
  destruct (Game.truthy _) as [iid|]; [|exact H2].
  destruct (Py.remove iid (Game.inv g)) as [l|] eqn:El; [|exact H2].
  destruct (Py.get (Game.items g) iid) as [it|].
  - rewrite state_prepend, state_spend. apply Inv2_set_time.
    apply Inv2_after_drop; auto.
  - apply Inv2_after_drop; auto.
Qed.

(** Recomputing the room lists makes them sound, whatever they were. *)
Lemma Inv2_after_sync g :
  NoDup (Py.keys (Game.npcs g)) ->
  In (Game.player_room g) walkable ->
  (forall nid n, Py.get (Game.npcs g) nid = Some n -> NPC.arrested n = false ->
     home nid = Some (NPC.room n)) ->
  (forall nid n, Py.get (Game.npcs g) nid = Some n -> NPC.arrested n = true ->
     NPC.room n = Game.brigrm g) ->
  (forall nid, In nid cut_off -> ~ is_arrested g nid) ->
  (forall nid n, Py.get (Game.npcs g) nid = Some n -> NPC.cooperative n = true) ->
  (forall i, In i portable_ids -> In i (Game.inv g ++ all_items g)) ->
  (forall rid r, Py.get (Game.rooms g) rid = Some r -> ~ In rid walkable ->
     exists rw, Py.get world_rooms rid = Some rw /\ Room.items r = Room.items rw) ->
  (forall ev, Py.get (Game.killer_evidence g) (Game.killer_id g) = Some ev ->
     known world_items ev) ->
  Inv2 (after_sync g).
Proof.
  intros Hnd R Hh J O C S F E. constructor; simpl; auto.
  - intros rid r nid Hr Hin.
    destruct (get_sync_inv _ _ _ _ Hr) as (r0 & _ & ->). simpl in Hin.
    destruct (visible_spec _ _ _ Hnd Hin) as (n & Hn & Hroom & _). eauto.
  - rewrite all_items_sync. exact S.
  - intros rid r Hr Hn.
    destruct (get_sync_inv _ _ _ _ Hr) as (r0 & Hr0 & ->). simpl.
    apply (F _ _ Hr0 Hn).
Qed.

(** The search of [room_at_xy] reads authored fields only. *)
Lemma find_room_static (p : Room.t -> bool) rs : forall ws t,
  (forall a b, room_static a = room_static b -> p a = p b) ->
  statics room_static rs = statics room_static ws ->
  find p (Py.values rs) = Some t ->
  exists tw, find p (Py.values ws) = Some tw /\ room_static t = room_static tw.
Proof.
  induction rs as [|[k a] rs IH]; intros ws t Hp Hst H; [discriminate|].
  destruct ws as [|[k' b] ws]; [discriminate|].
  apply statics_cons_inv in Hst. destruct Hst as (_ & Eab & Hst).
  simpl in *. rewrite <- (Hp a b Eab).
  destruct (p a).
  - inversion H; subst. eauto.
  - apply (IH ws t Hp Hst H).
Qed.

Lemma room_static_fields a b :
  room_static a = room_static b ->
  Room.id a = Room.id b /\ Room.x a = Room.x b /\ Room.y a = Room.y b
  /\ Room.passable a = Room.passable b /\ Room.name a = Room.name b
  /\ Room.desc a = Room.desc b.
Proof.
  destruct a, b. unfold room_static. simpl. intros H. inversion H.
  repeat split; reflexivity.
Qed.

(** Where [room_at_xy] leads in a game is where it leads on the authored
    map. *)
Lemma room_at_xy_world g x y t :
  static_ok g -> Game.room_at_xy g x y = Some t ->
  exists tw, Game.room_at_xy (fresh_world (Game.rng g)) x y = Some tw
             /\ Room.id tw = Room.id t.
Proof.
  intros (Hs & _) H. unfold Game.room_at_xy in *.
  destruct (find_room_static
              (fun r => (Room.x r =? x)%Z && (Room.y r =? y)%Z && Room.passable r)
              (Game.rooms g) world_rooms t) as (tw & Hw & E); [| |exact H|].
  - intros a b Hab. destruct (room_static_fields a b Hab) as (_ & -> & -> & -> & _).
    reflexivity.
  - exact Hs.
  - exists tw. split; [exact Hw|].
    destruct (room_static_fields t tw E) as (-> & _). reflexivity.
Qed.

(** No step from a walkable room leaves the walkable rooms. *)
Lemma walkable_closed g r d dx dy t :
  static_ok g -> In (Game.player_room g) walkable ->
  Py.get (Game.rooms g) (Game.player_room g) = Some r ->
  Py.get Game.DIRS d = Some (dx, dy) ->
  Game.room_at_xy g (Room.x r + dx) (Room.y r + dy) = Some t ->
  In (Room.id t) walkable.
Proof.
  intros Hs Hw Hr Hd Ht.
  destruct (room_at_xy_world g _ _ t Hs Ht) as (tw & Etw & <-).
  destruct Hs as (Hst & _).
  destruct (statics_get room_static _ _ _ r (eq_sym Hst) Hr) as (rw & Hrw & E).
  destruct (room_static_fields rw r E) as (_ & Ex & Ey & _).
  rewrite <- Ex, <- Ey in Etw. clear Ex Ey E Ht Hr Hst.
  apply get_in in Hd. simpl in Hd.
  unfold walkable in Hw. simpl in Hw.
  repeat (destruct Hw as [Hw|Hw];
    [rewrite <- Hw in Hrw; vm_compute in Hrw; inversion Hrw; subst rw; clear Hrw;
     repeat (destruct Hd as [Hd|Hd];
       [inversion Hd; subst; vm_compute in Etw;
        first [discriminate | inversion Etw; vm_compute; tauto]|]);
     destruct Hd|]).
  destruct Hw.
Qed.

Lemma FullR_look : keeps true FullR Game.look.
Proof.
  apply keeps_look; [apply FullR_refl|apply FullR_trans|intros; apply FullR_spend].
Qed.

Lemma Full_after_move g r d dx dy target :
  Full g -> Py.get (Game.rooms g) (Game.player_room g) = Some r ->
  Py.get Game.DIRS d = Some (dx, dy) ->
  Game.room_at_xy g (Room.x r + dx) (Room.y r + dy) = Some target ->
  Full (after_sync (Game.set_player_room g (Room.id target))).
Proof.
  intros [HI H2] Hr Hd Et. assert (Hs := inv_static _ HI). split.
  - destruct HI as [Hs' Ht (I1 & I2 & I3 & I4) Hh Htok Hnd Hev].
    apply Inv_after_sync; auto.
    + intros rid r0 H. apply (I1 _ _ H).
    + simpl. rewrite (room_at_xy_known g _ _ target Hs Et). discriminate.
  - destruct H2 as [R L Hh J O C S F E].
    apply Inv2_after_sync; simpl; auto.
    + apply (static_nodup_npcs g Hs).
    + apply (walkable_closed g r d dx dy target); auto.
Qed.

Lemma FullR_move d : keeps true FullR (Game.move d).
Proof.
  intros g Hok HF. specialize (Hok eq_refl). assert (HI := proj1 HF).
  destruct (Inv_current_room g HI) as (r & Hr).
  assert (Hs := inv_static _ HI).
  rewrite (move_run g d r Hr (static_nodup_rooms g Hs)) in *.
  destruct (Py.get Game.DIRS (Py.lower d)) as [[dx dy]|] eqn:Ed; [|exact HF].
  destruct (Game.room_at_xy g _ _) as [target|] eqn:Et; [|exact HF].
  assert (K : keeps true FullR (Game.bind Game.look (fun _ => Game.spend 2))).
  { apply keeps_bind; [apply FullR_trans|apply FullR_look|intros _; apply FullR_spend]. }
  apply K; [intros _; exact Hok|].
  apply (Full_after_move g r (Py.lower d) dx dy target); auto.
Qed.

Lemma truthy_some o s : Game.truthy o = Some s -> o = Some s /\ s <> "".
Proof.
  unfold Game.truthy. destruct o as [s'|]; [|discriminate].
  destruct (String.eqb_spec s' ""); [discriminate|].
  intros H. inversion H; subst. auto.
Qed.

(** Nobody the player can stand next to is one of the two NPCs of the
    rooms that are cut off. *)
Lemma listed_not_cut_off g r tid :
  Full g -> Py.get (Game.rooms g) (Game.player_room g) = Some r ->
  In tid (Room.npcs r) -> ~ In tid cut_off.
Proof.
  intros [HI [R L Hh J O C S F E]] Hr Hin Hcut.
  destruct (L _ _ _ Hr Hin) as (n & Hn & Hroom).
  assert (Ha : NPC.arrested n = false).
  { destruct (NPC.arrested n) eqn:Ea; [|reflexivity].
    exfalso. apply (inv_hidden _ HI _ _ _ Hr Hin). exists n. auto. }
  assert (Hhome := Hh _ _ Hn Ha). rewrite Hroom in Hhome.
  unfold cut_off in Hcut. simpl in Hcut.
  destruct Hcut as [<-|[<-|[]]].
  - change (home "vale") with (Some "suites") in Hhome.
    assert (Hp : Game.player_room g = "suites") by congruence.
    rewrite Hp in R. vm_compute in R. intuition discriminate.
  - change (home "pax") with (Some "service") in Hhome.
    assert (Hp : Game.player_room g = "service") by congruence.
    rewrite Hp in R. vm_compute in R. intuition discriminate.
Qed.

Lemma Inv2_cuffed g r tid n :
  Full g -> Py.get (Game.rooms g) (Game.player_room g) = Some r ->
  In tid (Room.npcs r) -> Py.get (Game.npcs g) tid = Some n ->
  Inv2 (cuffed g tid n).
Proof.
  intros HF Hr Hin Hn. assert (Hcut := listed_not_cut_off g r tid HF Hr Hin).
  destruct HF as [HI [R L Hh J O C S F E]]. assert (Hs := inv_static _ HI).
  apply Inv2_after_sync; simpl; auto.
  - rewrite (keys_set _ _ _ _ Hn). apply (static_nodup_npcs g Hs).
  - intros nid m. rewrite (get_set _ _ nid _ _ Hn).
    destruct (String.eqb_spec tid nid) as [->|_]; [|apply Hh].
    intros Hm Ha. inversion Hm; subst. discriminate.
  - intros nid m. rewrite (get_set _ _ nid _ _ Hn).
    destruct (String.eqb_spec tid nid) as [->|_]; [|apply J].
    intros Hm Ha. inversion Hm; subst. reflexivity.
  - intros nid Hc (m & Hm & Ha). simpl in Hm. rewrite (get_set _ _ nid _ _ Hn) in Hm.
    destruct (String.eqb_spec tid nid) as [->|_]; [apply Hcut; exact Hc|].
    apply (O nid Hc). exists m. auto.
  - intros nid m. rewrite (get_set _ _ nid _ _ Hn).
    destruct (String.eqb_spec tid nid) as [->|_]; [|apply C].
    intros Hm. inversion Hm; subst. simpl. apply (C _ _ Hn).
Qed.

Lemma Inv2_with_token g brig :
  Inv2 g -> Game.brigrm g = "brig" ->
  Py.get (Game.rooms g) (Game.brigrm g) = Some brig ->
  Inv2 (with_token g brig).
Proof.
  intros H2 Eb Hb.
  assert (Hw : In (Game.brigrm g) walkable) by (rewrite Eb; vm_compute; tauto).
  apply (Inv2_items_moved g _ (Game.brigrm g) brig
           (Room.items brig ++ ["codes_token"]) H2 Hw Hb); try reflexivity.
  intros i. destruct (all_items_split g _ _ Hb) as (A & B & E1 & E2).
  unfold with_token. simpl.
  change (all_items _) with
    (all_items (Game.set_rooms g (Py.set (Game.rooms g) (Game.brigrm g)
                  (Room.set_items brig (Room.items brig ++ ["codes_token"]))))) at 2.
  rewrite E1, E2. simpl. rewrite !in_app_iff. tauto.
Qed.

Lemma FullR_arrest args : keeps true FullR (Game.arrest args).
Proof.
  apply FullR_of; [apply InvR_arrest|].
  intros g HI H2 _. destruct args as [|a args]; [exact H2|].
  destruct (Inv_current_room g HI) as (r & Hr).
  assert (Hs := inv_static _ HI).
  assert (Hk : known (Game.npcs g) (Room.npcs r)).
  { destruct (inv_ids _ HI) as (I1 & _). apply (I1 _ _ Hr). }
  rewrite (arrest_run g a args r Hr Hk (static_nodup_rooms g Hs)). cbv zeta.
  destruct (negb _); [exact H2|].
  destruct (Game.truthy _) as [tid|] eqn:Et; [|exact H2].
  apply truthy_some in Et. destruct Et as (Et & _). apply find_some_in in Et.
  destruct (Py.get (Game.npcs g) tid) as [n|] eqn:En; [|exact H2].
  destruct (NPC.arrested n) eqn:Ea; [exact H2|].
  assert (H2' : Inv2 (cuffed g tid n)).
  { apply (Inv2_cuffed g r tid n); auto. split; auto. }
  destruct (tid =? Game.killer_id g)%string.
  - destruct (Py.get (Game.rooms (cuffed g tid n)) (Game.brigrm g))
      as [brig2|] eqn:Eb; [|exact H2'].
    destruct (negb _); rewrite state_prepend, state_spend; apply Inv2_set_time;
      [|exact H2'].
    apply Inv2_with_token; auto. destruct Hs as (_ & _ & _ & Hb & _). exact Hb.
  - rewrite state_prepend, state_spend. apply Inv2_set_time. exact H2'.
Qed.

Lemma Full_set_rng g r : Full g -> Full (Game.set_rng g r).
Proof. apply FullR_rng. Qed.

Lemma disk_full_ok d : disk_full d -> disk_ok d.
Proof.
  destruct d as [data|]; [|auto]. intros (g0 & [HI _] & E). exists g0. auto.
Qed.

Lemma FullR_load d : disk_full d -> keeps true FullR (Game.load d).
Proof.
  intros Hd g Hok HF. destruct d as [data|]; [|exact HF].
  destruct Hd as (g0 & HF0 & ->).
  rewrite (load_run g g0 (inv_static _ (proj1 HF)) (inv_static _ (proj1 HF0))).
  apply Full_set_rng. exact HF0.
Qed.

(** The methods that only report. *)
Ltac reporting_full lem :=
  apply lem;
  first [ apply FullR_refl | apply FullR_trans | intros; apply FullR_spend
        | intros; apply FullR_rng | intros; apply FullR_coop; assumption ].

Lemma FullR_command cmd args d :
  disk_full d -> keeps true FullR (Game.command cmd args d).
Proof.
  intros Hd. apply keeps_command_of.
  - apply FullR_refl.
  - apply FullR_trans.
  - apply FullR_look.
  - reporting_full keeps_show_map.
  - reporting_full keeps_show_time.
  - apply FullR_move.
  - apply FullR_take.
  - apply FullR_drop.
  - reporting_full keeps_inv_show.
  - intros a. reporting_full keeps_inspect.
  - intros a. reporting_full keeps_talk.
  - intros a. reporting_full keeps_accuse.
  - apply FullR_arrest.
  - reporting_full keeps_use_console.
  - apply keeps_save; [apply FullR_refl|apply FullR_trans].
  - intros _. apply FullR_load. exact Hd.
Qed.

Lemma FullR_step line d : disk_full d -> keeps true FullR (Game.step line d).
Proof.
  intros Hd. apply keeps_step_of.
  - apply FullR_refl.
  - apply FullR_trans.
  - intros cmd args _. apply FullR_command. exact Hd.
  - intros _. apply FullR_load. exact Hd.
Qed.

Lemma Full_step line d g b d' g' o :
  Full g -> disk_full d ->
  Game.step line d g = (Game.Ok (b, d'), g', o) ->
  Full g' /\ disk_full d'.
Proof.
  intros HF Hd E. split.
  - assert (K := FullR_step line d Hd g). rewrite E in K. apply K; auto.
  - destruct (step_disk _ _ _ _ _ _ _ E) as [->| ->]; [exact Hd|].
    exists g. auto.
Qed.

Lemma world_npc_coop nid n :
  Py.get world_npcs nid = Some n -> NPC.cooperative n = true.
Proof.
  intros H. apply get_in in H. simpl in H.
  repeat (destruct H as [H|H]; [inversion H; reflexivity|]). destruct H.
Qed.

Lemma pools_known sus pool :
  Py.get Game.evidence_pool sus = Some pool -> known world_items pool.
Proof.
  intros H. apply get_in in H. simpl in H.
  repeat (destruct H as [H|H];
          [inversion H; subst; repeat constructor; vm_compute; discriminate|]).
  destruct H.
Qed.

Lemma Inv2_opening r k ev :
  evidence_of ev k -> Inv2 (opening r k ev).
Proof.
  intros Hev.
  constructor; unfold is_arrested, opening;
    cbn [Game.rooms Game.npcs Game.player_room Game.inv Game.killer_id
         Game.killer_evidence Game.brigrm].
  - vm_compute. tauto.
  - intros rid r0 nid H Hin.
    destruct (world_room_facts _ _ H) as (_ & E & _). rewrite E in Hin. destruct Hin.
  - intros nid n Hn _. unfold home. rewrite Hn. reflexivity.
  - intros nid n Hn Ha. rewrite (world_npc_free _ _ Hn) in Ha. discriminate.
  - intros nid _ (n & Hn & Ha).
    rewrite (world_npc_free _ _ Hn) in Ha. discriminate.
  - apply world_npc_coop.
  - intros i Hi. vm_compute in Hi. vm_compute. tauto.
  - intros rid r0 H _. eauto.
  - intros s Hs. destruct Hev as (pool & s' & Hp & Hs' & _ & _ & Hsub).
    assert (s' = s) by congruence. subst s'.
    assert (Hk := pools_known _ _ Hp). unfold known in *.
    rewrite Forall_forall in *. auto.
Qed.

Lemma boot_full r g o : boot (Game.blank r) = (Game.Ok tt, g, o) -> Full g.
Proof.
  intros E. destruct (boot_run r g o E) as (HI & r' & k & ev & Hk & Hev & ->).
  split; [exact HI|]. apply Inv2_opening. apply Hev. exact Hk.
Qed.

(** Both halves of the invariant hold at every prompt, and the save file,
    when there is one, was written at a prompt. *)
Lemma reachable_Full g d : reachable g d -> Full g /\ disk_full d.
Proof.
  induction 1 as [r g o E|r g o g0 d0 _ IH E|g d line g' d' o _ IH E].
  - split; [apply (boot_full r g o E)|exact I].
  - split; [apply (boot_full r g o E)|apply IH].
  - destruct IH as (HF & Hd). eapply Full_step; eauto.
Qed.

(** ** Running the methods that report *)
Lemma set_time_same g : Game.set_time g (Game.time g) = g.
Proof. destruct g; reflexivity. Qed.

(** With time left, [spend(0)] does nothing. *)
Lemma spend_zero g : (0 < Game.time g)%Z -> Game.spend 0 g = (Game.Ok tt, g, []).
Proof.
  intros Ht. rewrite spend_run. cbv zeta.
  replace (Z.max 0 (Game.time g - 0)) with (Game.time g) by lia.
  rewrite set_time_same.
  destruct (Z.eqb_spec (Game.time g) 0); [lia|reflexivity].
Qed.

Lemma item_names_run g l :
  known (Game.items g) l ->
  Game.item_names l g = (Game.Ok (map (item_name_of g) l), g, []).
Proof.
  intros Hk. unfold Game.item_names. rewrite bind_self.
  induction l as [|i l IH]; [reflexivity|].
  inversion Hk as [|? ? Hi Hrest]; subst. cbn [Game.map_m map].
  unfold item_name_of at 1.
  destruct (Py.get (Game.items g) i) as [it|] eqn:E; [|congruence].
  rewrite bind_assoc. run_with (getitem_some _ _ _ g E). run.
  run_with (IH Hrest). reflexivity.
Qed.

Lemma npc_names_run g l :
  known (Game.npcs g) l ->
  Game.npc_names l g = (Game.Ok (map (npc_name_of g) l), g, []).
Proof.
  intros Hk. unfold Game.npc_names. rewrite bind_self.
  induction l as [|i l IH]; [reflexivity|].
  inversion Hk as [|? ? Hi Hrest]; subst. cbn [Game.map_m map].
  unfold npc_name_of at 1.
  destruct (Py.get (Game.npcs g) i) as [n|] eqn:E; [|congruence].
  rewrite bind_assoc. run_with (getitem_some _ _ _ g E). run.
  run_with (IH Hrest). reflexivity.
Qed.

(** [look] with the binds executed. *)
Lemma look_run g r :
  Py.get (Game.rooms g) (Game.player_room g) = Some r ->
  known (Game.items g) (Room.items r) -> known (Game.npcs g) (Room.npcs r) ->
  Game.look g = prepend (look_text g r) (Game.spend 0 g).
Proof.
  intros Hr Hki Hkn. unfold Game.look, look_text, exits_of.
  run_with (current_room_run _ _ Hr). run.
  destruct (Game.nonempty (Room.items r)), (Game.nonempty (Room.npcs r));
    repeat first [ rewrite bind_assoc
                 | run_with (item_names_run g _ Hki)
                 | run_with (npc_names_run g _ Hkn)
                 | progress run ];
    rewrite ?prepend_prepend; reflexivity.
Qed.

Lemma Inv_room_known g r :
  Inv g -> Py.get (Game.rooms g) (Game.player_room g) = Some r ->
  known (Game.items g) (Room.items r) /\ known (Game.npcs g) (Room.npcs r).
Proof. intros HI Hr. destruct (inv_ids _ HI) as (I1 & _). apply (I1 _ _ Hr). Qed.

(** At a prompt [look] prints the room and changes nothing. *)
Lemma look_at_prompt g r :
  Inv g -> Py.get (Game.rooms g) (Game.player_room g) = Some r ->
  Game.look g = (Game.Ok tt, g, look_text g r).
Proof.
  intros HI Hr. destruct (Inv_room_known g r HI Hr) as (Hki & Hkn).
  rewrite (look_run g r Hr Hki Hkn), (spend_zero g (inv_time _ HI)).
  simpl. rewrite app_nil_r. reflexivity.
Qed.

Lemma show_time_at_prompt g :
  (0 < Game.time g)%Z ->
  Game.show_time g
  = (Game.Ok tt, g,
     [("Time to solar impact: " ++ Py.str_of_int (Game.time g) ++ " minutes.")%string]).
Proof.
  intros Ht. unfold Game.show_time. run. rewrite (spend_zero g Ht). reflexivity.
Qed.

Lemma inv_show_at_prompt g :
  Inv g -> Game.inv_show g = (Game.Ok tt, g, [inv_text g]).
Proof.
  intros HI. destruct (inv_ids _ HI) as (_ & I2 & _).
  unfold Game.inv_show, inv_text. run.
  destruct (Game.nonempty (Game.inv g)).
  - rewrite bind_assoc. run_with (item_names_run g _ I2). run.
    rewrite (spend_zero g (inv_time _ HI)). reflexivity.
  - run. rewrite (spend_zero g (inv_time _ HI)). reflexivity.
Qed.

Lemma bind_ext {A B} (c : Game.M A) (k1 k2 : A -> Game.M B) g :
  (forall a g1, k1 a g1 = k2 a g1) -> Game.bind c k1 g = Game.bind c k2 g.
Proof.
  intros H. unfold Game.bind. destruct (c g) as [[[a|e] g1] o1]; [|reflexivity].
  rewrite H. reflexivity.
Qed.

Lemma cons_inv {A} (a b : A) l l' : a :: l = b :: l' -> a = b /\ l = l'.
Proof. intros H. inversion H. auto. Qed.

(** The labels of [show_map] read authored fields only. *)
Lemma label_rooms_static rs : forall ws grid g,
  map room_static rs = map room_static ws ->
  Game.label_rooms rs grid g = Game.label_rooms ws grid g.
Proof.
  induction rs as [|a rs IH]; intros ws grid g H; destruct ws as [|b ws];
    try discriminate; [reflexivity|].
  cbn [map] in H. apply cons_inv in H. destruct H as (Eab & Hrest).
  destruct (room_static_fields a b Eab) as (_ & Ex & Ey & _ & En & _).
  cbn [Game.label_rooms]. rewrite En, Ex, Ey.
  destruct (Py.split (Room.name b)) as [|w ws']; [reflexivity|].
  apply bind_ext. intros grid' g1. apply IH. exact Hrest.
Qed.

Lemma static_values g :
  static_ok g ->
  map room_static (Py.values (Game.rooms g)) = map room_static (Py.values world_rooms).
Proof.
  intros (H & _). unfold Py.values. rewrite !map_map.
  apply (f_equal (map snd)) in H. unfold statics in H. rewrite !map_map in H.
  exact H.
Qed.

Lemma static_coords g :
  static_ok g ->
  map Room.x (Py.values (Game.rooms g)) = map Room.x (Py.values world_rooms)
  /\ map Room.y (Py.values (Game.rooms g)) = map Room.y (Py.values world_rooms).
Proof.
  intros Hs. assert (H := static_values g Hs).
  split.
  - apply (f_equal (map Room.x)) in H. rewrite !map_map in H. exact H.
  - apply (f_equal (map Room.y)) in H. rewrite !map_map in H. exact H.
Qed.

Lemma world_room_coords k rw :
  Py.get world_rooms k = Some rw ->
  (0 <= Room.x rw <= 4)%Z /\ (0 <= Room.y rw <= 2)%Z.
Proof.
  intros H. apply get_in in H. simpl in H.
  repeat (destruct H as [H|H]; [inversion H; simpl; lia|]). destruct H.
Qed.

Lemma static_room_coords g k r :
  static_ok g -> Py.get (Game.rooms g) k = Some r ->
  (0 <= Room.x r <= 4)%Z /\ (0 <= Room.y r <= 2)%Z.
Proof.
  intros (Hst & _) Hr.
  destruct (statics_get room_static _ _ _ r (eq_sym Hst) Hr) as (rw & Hrw & E).
  destruct (room_static_fields rw r E) as (_ & <- & <- & _).
  apply (world_room_coords k rw Hrw).
Qed.

Lemma grid_set_deck x y v g :
  (0 <= x <= 4)%Z -> (0 <= y <= 2)%Z ->
  Game.grid_set deck_labels y x v g
  = (Game.Ok (Game.list_set deck_labels (Z.to_nat y)
                (Game.list_set (nth (Z.to_nat y) deck_labels []) (Z.to_nat x) v)),
     g, []).
Proof.
  intros Hx Hy.
  assert (Ey : (y = 0 \/ y = 1 \/ y = 2)%Z) by lia.
  assert (Ex : (x = 0 \/ x = 1 \/ x = 2 \/ x = 3 \/ x = 4)%Z) by lia.
  destruct Ey as [->|[->| ->]];
    destruct Ex as [->|[->|[->|[->| ->]]]]; reflexivity.
Qed.

Lemma for_each_say {A} (f : A -> string) l g :
  Game.for_each l (fun a => Game.say (f a)) g = (Game.Ok tt, g, map f l).
Proof.
  induction l as [|a l IH]; [reflexivity|].
  cbn [Game.for_each map]. run. rewrite IH. reflexivity.
Qed.

(** At a prompt [show_map] never fails: it prints the authored labels with
    the cell of the player marked, and changes nothing. *)
Lemma show_map_at_prompt g r :
  Inv g -> Py.get (Game.rooms g) (Game.player_room g) = Some r ->
  Game.show_map g = (Game.Ok tt, g, deck_plan (Room.x r) (Room.y r)).
Proof.
  intros HI Hr. assert (Hs := inv_static _ HI).
  destruct (static_coords g Hs) as (Ex & Ey).
  destruct (static_room_coords g _ r Hs Hr) as (Hx & Hy).
  unfold Game.show_map. run. rewrite Ex, Ey.
  change (Game.py_max (map Room.x (Py.values world_rooms))) with (@Game.ret Z 4%Z).
  change (Game.py_max (map Room.y (Py.values world_rooms))) with (@Game.ret Z 2%Z).
  run. cbv zeta.
  assert (El : Game.label_rooms (Py.values (Game.rooms g))
                 (repeat (repeat "   " (Z.to_nat (4 + 1))) (Z.to_nat (2 + 1))) g
               = (Game.Ok deck_labels, g, [])).
  { rewrite (label_rooms_static _ (Py.values world_rooms) _ g (static_values g Hs)).
    vm_compute. reflexivity. }
  run_with El. run_with (current_room_run _ _ Hr).
  run_with (grid_set_deck (Room.x r) (Room.y r) "[X]" g Hx Hy). run.
  run_with (for_each_say (Py.join " ")
              (Game.list_set deck_labels (Z.to_nat (Room.y r))
                 (Game.list_set (nth (Z.to_nat (Room.y r)) deck_labels [])
                    (Z.to_nat (Room.x r)) "[X]")) g).
  rewrite (spend_zero g (inv_time _ HI)). unfold deck_plan. simpl.
  rewrite app_nil_r. reflexivity.
Qed.

(** [talk] with the binds executed. *)
Lemma talk_run g a args r :
  Py.get (Game.rooms g) (Game.player_room g) = Some r ->
  known (Game.npcs g) (Room.npcs r) ->
  Game.talk (a :: args) g =
    let who := Py.lower (Py.join " " (a :: args)) in
    match Game.truthy (find (npc_matches (Game.npcs g) who) (Room.npcs r)) with
    | None => (Game.Ok tt, g, ["They aren’t here."])
    | Some tid =>
        match Py.get (Game.npcs g) tid with
        | None => (Game.Raise (Game.KeyError tid), g, [])
        | Some n =>
            prepend [talk_line g tid n]
              (if (tid =? Game.killer_id g)%string then Game.spend 2 g
               else
                 let g1 := Game.set_rng g (snd (Rng.random_lt_quarter (Game.rng g))) in
                 if fst (Rng.random_lt_quarter (Game.rng g))
                 then Game.spend 2
                        (Game.set_npcs g1
                           (Py.set (Game.npcs g) tid (NPC.set_cooperative n true)))
                 else Game.spend 2 g1)
        end
    end.
Proof.
  intros Hr Hk. unfold Game.talk.
  run_with (current_room_run _ _ Hr). run.
  run_with (find_npc_run _ (Py.lower (Py.join " " (a :: args))) _ g Hk).
  cbv zeta.
  destruct (Game.truthy _) as [tid|]; [|reflexivity].
  destruct (Py.get (Game.npcs g) tid) as [n|] eqn:En.
  2:{ apply bind_raise. unfold Game.getitem. rewrite En. reflexivity. }
  run_with (getitem_some _ _ _ g En). run. unfold talk_line.
  destruct (tid =? Game.killer_id g)%string.
  - run. reflexivity.
  - destruct (Rng.random_lt_quarter (Game.rng g)) as [b r']. cbn [fst snd].
    rewrite bind_assoc. run. destruct b.
    + assert (En' : Py.get (Game.npcs (Game.set_rng g r')) tid = Some n) by exact En.
      run_with (upd_npc_run tid (fun n => NPC.set_cooperative n true) _ _ En').
      reflexivity.
    + run. reflexivity.
Qed.

(** [accuse] with the binds executed. *)
Lemma accuse_run g a args :
  (forall tips, Py.get (Game.killer_evidence g) (Game.killer_id g) = Some tips ->
     known (Game.items g) tips) ->
  Game.accuse (a :: args) g =
    match accused g (Py.lower (Py.join " " (a :: args))) with
    | None => (Game.Ok tt, g, ["Not a listed guest."])
    | Some w =>
        match Py.get (Game.killer_evidence g) (Game.killer_id g) with
        | None => (Game.Raise (Game.KeyError (Game.killer_id g)), g, [])
        | Some tips =>
            match Py.get (Game.npcs g) w with
            | None => (Game.Raise (Game.KeyError w), g, [])
            | Some n => prepend (accuse_text g w) (Game.spend 3 g)
            end
        end
    end.
Proof.
  intros Hk. unfold Game.accuse, accused. run. cbv zeta.
  set (who := Py.lower (Py.join " " (a :: args))).
  destruct (if Py.mem who (Py.keys (Game.npcs g)) then Some who
            else match map fst (filter (fun e => (Py.lower (NPC.name (snd e)) =? who)%string)
                                       (Game.npcs g)) with
                 | [] => None
                 | m :: _ => Some m
                 end) as [w|]; [|reflexivity].
  destruct (Py.get (Game.killer_evidence g) (Game.killer_id g)) as [tips|] eqn:Et.
  2:{ apply bind_raise. unfold Game.getitem. rewrite Et. reflexivity. }
  run_with (getitem_some _ _ _ g Et).
  destruct (Py.get (Game.npcs g) w) as [n|] eqn:En.
  2:{ apply bind_raise. unfold Game.getitem. rewrite En. reflexivity. }
  run_with (getitem_some _ _ _ g En). run.
  unfold accuse_text, npc_name_of. rewrite En, Et.
  destruct (w =? Game.killer_id g)%string.
  - rewrite !bind_assoc. run. rewrite !bind_assoc.
    run_with (item_names_run g tips (Hk tips eq_refl)). run.
    rewrite !prepend_prepend. reflexivity.
  - run. rewrite prepend_prepend. reflexivity.
Qed.

(** ** How the methods can end *)
Lemma ends_ok g {A} (a : A) g' o : ends_lost g (Game.Ok a, g', o).
Proof. exact I. Qed.

Lemma last_snoc {A} (l : list A) x d : last (l ++ [x]) d = x.
Proof. apply last_last. Qed.

(** A method whose last call is [spend] returns or loses. *)
Lemma ends_spend g g1 o m :
  Game.time g1 = Game.time g -> (0 <= m <= 3)%Z ->
  ends_lost g (prepend o (Game.spend m g1)).
Proof.
  intros Et Hm. unfold ends_lost, lost.
  rewrite result_prepend, state_prepend, output_prepend, result_spend, state_spend.
  destruct (Z.ltb_spec m (Game.time g1)); [exact I|].
  split; [reflexivity|]. split; [simpl; lia|]. split; [lia|].
  rewrite spend_run. cbv zeta.
  destruct (Z.eqb_spec (Z.max 0 (Game.time g1 - m)) 0) as [_|Hne]; [|lia].
  unfold output. cbn [snd]. apply last_snoc.
Qed.

Lemma ends_spend_here g m : (0 <= m <= 3)%Z -> ends_lost g (Game.spend m g).
Proof.
  intros Hm. rewrite <- (prepend_nil (Game.spend m g)).
  apply ends_spend; auto.
Qed.

Lemma look_ends g : Inv g -> ends_lost g (Game.look g).
Proof.
  intros HI. destruct (Inv_current_room g HI) as (r & Hr).
  rewrite (look_at_prompt g r HI Hr). apply ends_ok.
Qed.

Lemma show_map_ends g : Inv g -> ends_lost g (Game.show_map g).
Proof.
  intros HI. destruct (Inv_current_room g HI) as (r & Hr).
  rewrite (show_map_at_prompt g r HI Hr). apply ends_ok.
Qed.

Lemma show_time_ends g : Inv g -> ends_lost g (Game.show_time g).
Proof. intros HI. rewrite (show_time_at_prompt g (inv_time _ HI)). apply ends_ok. Qed.

Lemma inv_show_ends g : Inv g -> ends_lost g (Game.inv_show g).
Proof. intros HI. rewrite (inv_show_at_prompt g HI). apply ends_ok. Qed.

Lemma move_ends g d : Full g -> ends_lost g (Game.move d g).
Proof.
  intros HF. assert (HI := proj1 HF).
  destruct (Inv_current_room g HI) as (r & Hr).
  assert (Hs := inv_static _ HI).
  rewrite (move_run g d r Hr (static_nodup_rooms g Hs)).
  destruct (Py.get Game.DIRS (Py.lower d)) as [[dx dy]|] eqn:Ed; [|apply ends_ok].
  destruct (Game.room_at_xy g _ _) as [target|] eqn:Et; [|apply ends_ok].
  destruct (Full_after_move g r _ dx dy target HF Hr Ed Et) as (HI' & _).
  destruct (Inv_current_room _ HI') as (r' & Hr').
  run_with (look_at_prompt _ r' HI' Hr'). apply ends_spend; [reflexivity|lia].
Qed.

Lemma take_ends g args : Inv g -> ends_lost g (Game.take args g).
Proof.
  intros HI. destruct args as [|a args]; [apply ends_ok|].
  destruct (Inv_current_room g HI) as (r & Hr).
  destruct (Inv_room_known g r HI Hr) as (Hk & _).
  rewrite (take_run g a args r Hr Hk). cbv zeta.
  destruct (Game.truthy _) as [iid|] eqn:Et; [|apply ends_ok].
  apply truthy_some in Et. destruct Et as (Et & _). apply find_some_in in Et.
  destruct (known_get _ _ _ Hk Et) as (it & ->).
  destruct (negb (Item.portable it)); [apply ends_ok|].
  destruct (remove_some _ _ Et) as (l & ->).
  apply ends_spend; [reflexivity|lia].
Qed.

Lemma drop_ends g args : Inv g -> ends_lost g (Game.drop args g).
Proof.
  intros HI. destruct args as [|a args]; [apply ends_ok|].
  destruct (Inv_current_room g HI) as (r & Hr).
  destruct (inv_ids _ HI) as (_ & I2 & _).
  rewrite (drop_run g a args r Hr I2). cbv zeta.
  destruct (Game.truthy _) as [iid|] eqn:Et; [|apply ends_ok].
  apply truthy_some in Et. destruct Et as (Et & _). apply find_some_in in Et.
  destruct (remove_some _ _ Et) as (l & ->).
  destruct (known_get _ _ _ I2 Et) as (it & ->).
  apply ends_spend; [reflexivity|lia].
Qed.

Lemma known_app {V} (d : Py.dict V) l1 l2 : known d l1 -> known d l2 -> known d (l1 ++ l2).
Proof. intros H1 H2. apply Forall_app. auto. Qed.

Lemma inspect_ends g args : Inv g -> ends_lost g (Game.inspect args g).
Proof.
  intros HI. destruct args as [|a args]; [apply ends_ok|].
  destruct (Inv_current_room g HI) as (r & Hr).
  destruct (Inv_room_known g r HI Hr) as (Hki & Hkn).
  destruct (inv_ids _ HI) as (_ & I2 & _).
  assert (Hk := known_app _ _ _ I2 Hki).
  rewrite (inspect_run g a args r Hr Hk Hkn). cbv zeta.
  destruct (find _ (_ ++ _)) as [i|] eqn:Ef.
  - apply find_some_in in Ef. destruct (known_get _ _ _ Hk Ef) as (it & ->).
    destruct (Py.get (Game.killer_evidence g) (Game.killer_id g)) as [ev|] eqn:Ev.
    + apply ends_spend; [reflexivity|lia].
    + exfalso. apply (inv_evidence _ HI). exact Ev.
  - destruct (find _ (Room.npcs r)) as [nid|] eqn:En; [|apply ends_ok].
    apply find_some_in in En. destruct (known_get _ _ _ Hkn En) as (n & ->).
    apply ends_spend; [reflexivity|lia].
Qed.

Lemma talk_ends g args : Inv g -> ends_lost g (Game.talk args g).
Proof.
  intros HI. destruct args as [|a args]; [apply ends_ok|].
  destruct (Inv_current_room g HI) as (r & Hr).
  destruct (Inv_room_known g r HI Hr) as (_ & Hkn).
  rewrite (talk_run g a args r Hr Hkn). cbv zeta.
  destruct (Game.truthy _) as [tid|] eqn:Et; [|apply ends_ok].
  apply truthy_some in Et. destruct Et as (Et & _). apply find_some_in in Et.
  destruct (known_get _ _ _ Hkn Et) as (n & ->).
  destruct (tid =? Game.killer_id g)%string; [apply ends_spend; [reflexivity|lia]|].
  destruct (fst _); apply ends_spend; try reflexivity; lia.
Qed.

(** Whoever [accuse] settles on is in the NPC table. *)
Lemma accused_known g who w :
  accused g who = Some w -> Py.get (Game.npcs g) w <> None.
Proof.
  unfold accused. destruct (Py.mem who (Py.keys (Game.npcs g))) eqn:Em.
  - intros H. inversion H; subst. apply mem_In in Em.
    intros E. apply get_none_keys in E. tauto.
  - destruct (map fst (filter _ _)) as [|m l] eqn:El; [discriminate|].
    intros H. inversion H; subst.
    assert (Hin : In w (map fst (filter (fun e => (Py.lower (NPC.name (snd e)) =? who)%string)
                                        (Game.npcs g)))).
    { rewrite El. left. reflexivity. }
    apply in_map_iff in Hin. destruct Hin as ([k n] & <- & Hin).
    apply filter_In in Hin. destruct Hin as (Hin & _).
    intros E. apply get_none_keys in E. apply E. unfold Py.keys.
    apply in_map_iff. exists (k, n). auto.
Qed.

Lemma Full_tips g tips :
  Full g -> Py.get (Game.killer_evidence g) (Game.killer_id g) = Some tips ->
  known (Game.items g) tips.
Proof.
  intros [HI H2] H. rewrite (Inv_items g HI). apply (i2_evidence _ H2 _ H).
Qed.

Lemma accuse_ends g args : Full g -> ends_lost g (Game.accuse args g).
Proof.
  intros HF. assert (HI := proj1 HF). destruct args as [|a args]; [apply ends_ok|].
  rewrite (accuse_run g a args (fun tips => Full_tips g tips HF)).
  destruct (accused g _) as [w|] eqn:Ew; [|apply ends_ok].
  destruct (Py.get (Game.killer_evidence g) (Game.killer_id g)) as [ev|] eqn:Ev.
  2:{ exfalso. apply (inv_evidence _ HI). exact Ev. }
  destruct (Py.get (Game.npcs g) w) as [n|] eqn:En.
  2:{ exfalso. apply (accused_known _ _ _ Ew). exact En. }
  apply ends_spend; [reflexivity|lia].
Qed.

Lemma arrest_ends g args : Inv g -> ends_lost g (Game.arrest args g).
Proof.
  intros HI. destruct args as [|a args]; [apply ends_ok|].
  destruct (Inv_current_room g HI) as (r & Hr).
  assert (Hs := inv_static _ HI).
  destruct (Inv_room_known g r HI Hr) as (_ & Hkn).
  rewrite (arrest_run g a args r Hr Hkn (static_nodup_rooms g Hs)). cbv zeta.
  destruct (negb _); [apply ends_ok|].
  destruct (Game.truthy _) as [tid|] eqn:Et; [|apply ends_ok].
  apply truthy_some in Et. destruct Et as (Et & _). apply find_some_in in Et.
  destruct (known_get _ _ _ Hkn Et) as (n & ->).
  destruct (NPC.arrested n); [apply ends_ok|].
  destruct (tid =? Game.killer_id g)%string.
  - destruct (Inv_brig g HI) as (brig & Hb).
    assert (Hb2 : Py.get (Game.rooms (cuffed g tid n)) (Game.brigrm g) <> None).
    { unfold cuffed, after_sync. simpl. rewrite get_sync, Hb. discriminate. }
    destruct (Py.get (Game.rooms (cuffed g tid n)) (Game.brigrm g)) as [brig2|];
      [|congruence].
    destruct (negb _); apply ends_spend; try reflexivity; lia.
  - apply ends_spend; [reflexivity|lia].
Qed.

Lemma ends_lost_fairly g c {A} (x : Game.res A * Game.t * list string) :
  ends_lost g x -> ends_fairly g c x.
Proof.
  unfold ends_lost, ends_fairly. destruct (result x) as [a|e]; [auto|].
  intros (-> & H). exact H.
Qed.

Lemma npc_name_of_get g nid n :
  Py.get (Game.npcs g) nid = Some n -> npc_name_of g nid = NPC.name n.
Proof. intros H. unfold npc_name_of. rewrite H. reflexivity. Qed.

Lemma use_console_ends g : Inv g -> ends_fairly g true (Game.use_console g).
Proof.
  intros HI. destruct (Inv_killer g HI) as (killer & Hk).
  destruct (Inv_brig g HI) as (brig & Hb).
  rewrite (use_console_run g killer brig Hk Hb).
  destruct (Game.player_room g =? Game.cmdrm g)%string eqn:Ep; [|exact I].
  simpl negb. cbv iota.
  destruct (Py.mem "codes_token" (Room.items brig)) eqn:Em.
  - split; [reflexivity|]. split; [apply String.eqb_eq; exact Ep|].
    split; [|split; [reflexivity|]].
    + destruct (inv_token _ HI) as (T1 & _). apply T1.
      exists brig. split; [exact Hb|]. apply mem_In. exact Em.
    + unfold output. cbn [snd]. rewrite (npc_name_of_get g _ killer Hk). reflexivity.
  - apply ends_lost_fairly. apply ends_spend; [reflexivity|lia].
Qed.

(** What follows a method that returns cannot raise: the whole ends as the
    method does. *)
Lemma ends_fairly_bind g c {A B} (m : Game.M A) (k : A -> Game.M B) :
  (forall a g1, is_ok (result (k a g1)) = true) ->
  ends_fairly g c (m g) -> ends_fairly g c (Game.bind m k g).
Proof.
  intros Hk H. destruct (m g) as [[[a|e] g1] o1] eqn:E.
  - rewrite (bind_ok _ _ _ _ _ _ E). unfold ends_fairly.
    rewrite result_prepend. specialize (Hk a g1).
    destruct (result (k a g1)); [exact I|discriminate].
  - rewrite (bind_raise _ _ _ _ _ _ E). exact H.
Qed.

Lemma reminder_ok g : is_ok (result (Game.reminder g)) = true.
Proof.
  unfold Game.reminder. rewrite bind_self. destruct (_ && _)%bool; reflexivity.
Qed.

Lemma command_ends cmd args d g :
  Full g -> disk_full d ->
  ends_fairly g (is_use_console cmd args) (Game.command cmd args d g).
Proof.
  intros HF Hd. assert (HI := proj1 HF).
  unfold Game.command, is_use_console.
  repeat match goal with
         | |- context [if ?b then _ else _] =>
             match type of b with bool => destruct b eqn:? end
         end;
    try (apply ends_fairly_bind; [intros; reflexivity|]);
    try exact I;
    try (apply ends_lost_fairly;
         first [ apply look_ends | apply show_map_ends | apply show_time_ends
               | apply inv_show_ends | apply take_ends
               | apply drop_ends | apply inspect_ends | apply talk_ends
               | apply accuse_ends | apply arrest_ends ]; assumption).
  - destruct args as [|a0 args0];
      (apply ends_fairly_bind; [intros; reflexivity|]); [exact I|].
    apply ends_lost_fairly. apply move_ends. exact HF.
  - apply use_console_ends. exact HI.
  - destruct d as [data|]; [|exact I].
    destruct Hd as (g0 & HF0 & ->).
    rewrite (load_run g g0 (inv_static _ HI) (inv_static _ (proj1 HF0))). exact I.
Qed.

(** ** The parser *)
Lemma split_aux_words s : forall cur skip,
  cur <> "" -> Py.split_aux s cur skip <> [].
Proof.
  induction s as [|c r IH]; intros cur skip H; cbn [Py.split_aux].
  - destruct (String.eqb_spec cur ""); [contradiction|discriminate].
  - destruct skip as [|k]; [|apply IH; exact H].
    destruct (Py.sep_len (String c r)) as [|k].
    + apply IH. destruct cur; discriminate.
    + destruct (String.eqb_spec cur ""); [contradiction|discriminate].
Qed.

Lemma starts_with_app p : forall s q,
  Py.starts_with p s = true -> Py.starts_with p (s ++ q) = true.
Proof.
  induction p as [|b p IH]; intros s q H; [reflexivity|].
  destruct s as [|c r]; [discriminate|]. cbn [Py.starts_with append] in *.
  apply andb_prop in H. destruct H as (-> & H). rewrite (IH r q H). reflexivity.
Qed.

(** Cutting a text short does not make a separator of its beginning. *)
Lemma sep_len_prefix s q : Py.sep_len (s ++ q) = 0%nat -> Py.sep_len s = 0%nat.
Proof.
  unfold Py.sep_len.
  destruct (find (fun p => Py.starts_with p s) Py.separators) as [p|] eqn:E;
    [|reflexivity].
  apply find_some in E. destruct E as (Hin & Hs).
  destruct (find (fun p => Py.starts_with p (s ++ q)) Py.separators) as [p'|] eqn:E'.
  - apply find_some in E'. destruct E' as (Hin' & _). intros Hl. exfalso.
    revert Hin' Hl. clear. unfold Py.separators. simpl.
    intuition (subst; discriminate).
  - intros _. exfalso. rewrite find_none_iff in E'.
    specialize (E' p Hin). cbv beta in E'.
    rewrite (starts_with_app p s q Hs) in E'. discriminate.
Qed.

Lemma lstrip_aux_word s : forall skip,
  Py.lstrip_aux s skip = "" \/ Py.sep_len (Py.lstrip_aux s skip) = 0%nat.
Proof.
  induction s as [|c r IH]; intros skip; cbn [Py.lstrip_aux]; [auto|].
  destruct skip as [|k]; [|apply IH].
  destruct (Py.sep_len (String c r)) as [|k] eqn:E; [auto|apply IH].
Qed.

Lemma rstrip_prefix s : exists q, s = (Py.rstrip s ++ q)%string.
Proof.
  induction s as [|c r (q & IH)]; [exists ""; reflexivity|].
  cbn [Py.rstrip]. destruct (Py.only_seps (String c r) 0).
  - exists (String c r). reflexivity.
  - exists q. cbn [append]. rewrite <- IH. reflexivity.
Qed.

(** A line that is not blank has a first word: [parts[0]] never fails. *)
Lemma split_strip line :
  Py.strip line <> "" -> Py.split (Py.strip line) <> [].
Proof.
  unfold Py.strip, Py.lstrip. intros H.
  destruct (lstrip_aux_word line 0) as [E|E].
  { rewrite E in H. contradiction. }
  destruct (Py.lstrip_aux line 0) as [|c r]; [contradiction|].
  cbn [Py.rstrip] in *. destruct (Py.only_seps (String c r) 0); [contradiction|].
  destruct (rstrip_prefix r) as (q & Hq).
  assert (E0 : Py.sep_len (String c (Py.rstrip r)) = 0%nat).
  { apply (sep_len_prefix _ q). cbn [append]. rewrite <- Hq. exact E. }
  unfold Py.split. cbn [Py.split_aux]. rewrite E0.
  apply split_aux_words. discriminate.
Qed.

Lemma lstrip_blank s : forall skip,
  Py.only_seps s skip = true -> Py.lstrip_aux s skip = "".
Proof.
  induction s as [|c r IH]; intros skip; cbn [Py.only_seps Py.lstrip_aux];
    [reflexivity|].
  destruct skip as [|k]; [|apply IH].
  destruct (Py.sep_len (String c r)); [discriminate|apply IH].
Qed.

Lemma strip_blank s : all_space s = true -> Py.strip s = "".
Proof.
  intros H. unfold Py.strip, Py.lstrip. rewrite (lstrip_blank s 0 H). reflexivity.
Qed.

Lemma step_ends line d g :
  Full g -> disk_full d ->
  ends_fairly g (asks_console line) (Game.step line d g).
Proof.
  intros HF Hd. unfold Game.step, asks_console.
  destruct (String.eqb_spec (Py.strip line) "") as [E|Hne]; [exact I|].
  assert (Hw := split_strip line Hne).
  destruct (Py.split (Py.strip line)) as [|p args]; [congruence|].
  apply ends_fairly_bind; [|apply command_ends; assumption].
  intros [c d'] g1. cbn [fst snd]. destruct c; try reflexivity.
  assert (H := reminder_ok g1). unfold Game.bind.
  destruct (Game.reminder g1) as [[[[]|e] g2] o2]; [reflexivity|discriminate].
Qed.

(** ** How a line can end the game *)

(** X1: at a prompt no typed line makes the program fail: whatever the
    line, the loop body returns or leaves by one of the two [SystemExit]s,
    never by a [KeyError], an [IndexError] or a [ValueError]. *)
Theorem X1_no_line_crashes g d line e :
  reachable g d ->
  result (Game.step line d g) = Game.Raise e ->
  e = Game.Win \/ e = Game.Loss.
Proof.
  intros Hr He. destruct (reachable_Full g d Hr) as (HF & Hd).
  assert (H := step_ends line d g HF Hd). unfold ends_fairly in H.
  rewrite He in H. destruct e; auto; contradiction.
Qed.

Lemma X1_witness :
  reachable at_last_minute None
  /\ (Game.Loss = Game.Win \/ Game.Loss = Game.Loss).
Proof.
  split; [exact at_last_minute_reachable|].
  apply (X1_no_line_crashes at_last_minute None "use console" Game.Loss
           at_last_minute_reachable).
  vm_compute. reflexivity.
Defined.

(** X2: the only way to win is the console: a line that ends the game in a
    win is a [use console] line, typed in the command room while the culprit
    carries the arrested flag; it leaves the object as it was and prints the
    victory text with the name of the culprit. *)
Theorem X2_win_only_at_console g d line :
  reachable g d ->
  result (Game.step line d g) = Game.Raise Game.Win ->
  asks_console line = true
  /\ Game.player_room g = Game.cmdrm g
  /\ is_arrested g (Game.killer_id g)
  /\ state (Game.step line d g) = g
  /\ output (Game.step line d g) = victory_text (npc_name_of g (Game.killer_id g)).
Proof.
  intros Hr He. destruct (reachable_Full g d Hr) as (HF & Hd).
  assert (H := step_ends line d g HF Hd). unfold ends_fairly in H.
  rewrite He in H. destruct H as (Hc & Hp & Ha & Hs & Ho). auto.
Qed.

Lemma X2_witness :
  reachable at_console None
  /\ asks_console "use console" = true
  /\ Game.player_room at_console = Game.cmdrm at_console
  /\ is_arrested at_console (Game.killer_id at_console)
  /\ state (Game.step "use console" None at_console) = at_console
  /\ output (Game.step "use console" None at_console)
     = victory_text (npc_name_of at_console (Game.killer_id at_console)).
Proof.
  split; [exact at_console_reachable|].
  apply (X2_win_only_at_console at_console None "use console" at_console_reachable).
  vm_compute. reflexivity.
Defined.

(** X3: a line that ends the game in a loss leaves the timer at zero, was
    typed with at most three minutes left, and the last thing printed is the
    loss text: whatever the action had to say is printed before it. *)
Theorem X3_loss_is_timeout g d line :
  reachable g d ->
  result (Game.step line d g) = Game.Raise Game.Loss ->
  Game.time (state (Game.step line d g)) = 0%Z
  /\ (Game.time g <= 3)%Z
  /\ last (output (Game.step line d g)) "" = loss_text.
Proof.
  intros Hr He. destruct (reachable_Full g d Hr) as (HF & Hd).
  assert (H := step_ends line d g HF Hd). unfold ends_fairly in H.
  rewrite He in H. exact H.
Qed.

Lemma X3_witness :
  reachable at_last_minute None
  /\ Game.time (state (Game.step "use console" None at_last_minute)) = 0%Z
  /\ (Game.time at_last_minute <= 3)%Z
  /\ last (output (Game.step "use console" None at_last_minute)) "" = loss_text.
Proof.
  split; [exact at_last_minute_reachable|].
  apply (X3_loss_is_timeout at_last_minute None "use console" at_last_minute_reachable).
  vm_compute. reflexivity.
Defined.

(** ** A culprit out of reach *)
Lemma killer_from_refl d g : killer_from d g g.
Proof. left. reflexivity. Qed.

Lemma killer_from_trans d a b c :
  killer_from d a b -> killer_from d b c -> killer_from d a c.
Proof.
  unfold killer_from. intros [H1|(data & Hd & H1)] [H2|H2]; auto.
  - left. congruence.
  - right. exists data. split; [exact Hd|congruence].
Qed.

Lemma killer_load d : keeps false (killer_from d) (Game.load d).
Proof.
  destruct d as [data|]; [|apply keeps_say; apply killer_from_refl].
  unfold Game.load.
  repeat (apply keeps_bind;
          [apply killer_from_trans| |intros _]);
    try (apply keeps_say; apply killer_from_refl);
    try (apply keeps_modify; intros g; first [left; reflexivity|right; eauto]).
  - apply keeps_for_each; [apply killer_from_refl|apply killer_from_trans|].
    intros [rid stuff]. apply keeps_upd_room; [apply killer_from_refl|].
    intros g r _. left. reflexivity.
  - apply keeps_for_each; [apply killer_from_refl|apply killer_from_trans|].
    intros [nid stuff]. apply keeps_upd_npc; [apply killer_from_refl|].
    intros g n _. left. reflexivity.
Qed.

(** The culprit after a line is the one before it or the one the save file
    holds. *)
Lemma killer_step line d : keeps false (killer_from d) (Game.step line d).
Proof.
  apply keeps_step;
    try (intros; left; reflexivity).
  - apply killer_from_trans.
  - intros m _ g _. left. rewrite state_spend. reflexivity.
  - intros _. apply killer_load.
Qed.

Lemma save_data_killer g : Save.killer (Game.save_data g) = Game.killer_id g.
Proof. reflexivity. Qed.

Lemma never_won_cut_off g line d :
  Full g -> disk_full d -> In (Game.killer_id g) cut_off ->
  result (Game.step line d g) <> Game.Raise Game.Win.
Proof.
  intros HF Hd Hc He. assert (H := step_ends line d g HF Hd).
  unfold ends_fairly in H. rewrite He in H. destruct H as (_ & _ & Ha & _).
  apply (i2_out _ (proj2 HF) _ Hc Ha).
Qed.

Lemma loop_never_wins lines : forall g d,
  Full g -> disk_full d -> In (Game.killer_id g) cut_off ->
  (forall data, d = Some data -> In (Save.killer data) cut_off) ->
  result (Game.loop lines d g) <> Game.Raise Game.Win.
Proof.
  induction lines as [|l lines IH]; intros g d HF Hd Hc Hdc.
  - cbn [Game.loop]. rewrite bind_say, result_prepend. discriminate.
  - cbn [Game.loop].
    destruct (Game.step l d g) as [[[[b d']|e] g'] o] eqn:E.
    + rewrite (bind_ok _ _ _ _ _ _ E), result_prepend. cbn [fst snd].
      destruct b; [|discriminate].
      destruct (Full_step l d g true d' g' o HF Hd E) as (HF' & Hd').
      assert (Hk := killer_step l d g). rewrite E in Hk.
      specialize (Hk ltac:(discriminate)). unfold state in Hk. cbn [fst snd] in Hk.
      apply IH; auto.
      * destruct Hk as [-> |(data & -> & ->)]; auto.
      * intros data ->.
        destruct (step_disk _ _ _ _ _ _ _ E) as [Ed|Es].
        -- apply Hdc. symmetry. exact Ed.
        -- inversion Es. rewrite save_data_killer. exact Hc.
    + rewrite (bind_raise _ _ _ _ _ _ E). unfold result. cbn [fst].
      intros He. apply (never_won_cut_off g l d HF Hd Hc).
      rewrite E. unfold result. cbn [fst]. inversion He. reflexivity.
Qed.

(** X4: a game whose culprit is Orin Vale or Pax Morita cannot be won: both
    stand in rooms no chain of moves from the atrium reaches, so neither is
    ever arrested and the token never appears. Whatever lines are typed in
    a run that starts without a save file, the run does not end in a win. *)
Theorem X4_culprit_out_of_reach r g lines :
  start r = Some g -> In (Game.killer_id g) cut_off ->
  result (Game.main r lines None) <> Game.Raise Game.Win.
Proof.
  unfold start. intros Hs Hc.
  destruct (boot (Game.blank r)) as [[[[]|e] g0] o] eqn:E; [|discriminate].
  inversion Hs; subst g0.
  rewrite main_boot, (bind_ok _ _ _ _ _ _ E), result_prepend.
  apply loop_never_wins; auto.
  - apply (boot_full r g o E).
  - exact I.
  - discriminate.
Qed.

Lemma X4_witness :
  start vale_rng = Some vale_game
  /\ In (Game.killer_id vale_game) cut_off
  /\ result (Game.main vale_rng
               ["take cuffs"; "go n"; "go e"; "use console"] None)
     <> Game.Raise Game.Win.
Proof.
  assert (Hs : start vale_rng = Some vale_game) by (vm_compute; reflexivity).
  assert (Hc : In (Game.killer_id vale_game) cut_off) by (vm_compute; tauto).
  split; [exact Hs|]. split; [exact Hc|].
  exact (X4_culprit_out_of_reach vale_rng vale_game _ Hs Hc).
Defined.

(** ** Where things are at a prompt *)
Lemma in_room_all_items g rid r x :
  Py.get (Game.rooms g) rid = Some r -> In x (Room.items r) -> In x (all_items g).
Proof.
  intros Hr Hx. destruct (all_items_split g rid r Hr) as (A & B & E & _).
  rewrite E, !in_app_iff. auto.
Qed.

Lemma static_room_present g rid rw :
  static_ok g -> Py.get world_rooms rid = Some rw ->
  exists r, Py.get (Game.rooms g) rid = Some r.
Proof.
  intros (Hs & _) Hw.
  destruct (statics_get room_static _ _ _ rw Hs Hw) as (r & Hr & _). eauto.
Qed.

Ltac far_room rid :=
  exists rid; eexists; split; [reflexivity|];
  split; [vm_compute; intuition discriminate|vm_compute; tauto].

Lemma far_items_rooms i :
  In i far_items ->
  exists rid rw, Py.get world_rooms rid = Some rw /\ ~ In rid walkable
                 /\ In i (Room.items rw).
Proof.
  unfold far_items. simpl. intros H.
  repeat (destruct H as [<-|H];
          [first [ solve [far_room "hangar"] | solve [far_room "gardens"]
                 | solve [far_room "suites"] | solve [far_room "service"] ]|]).
  destruct H.
Qed.

(** X5: the player never leaves the six rooms that hang together with the
    atrium (atrium, gala, labs, command, brig, observatory), and the items
    authored into the four other rooms never reach the inventory. *)
Theorem X5_player_confined g d :
  reachable g d ->
  In (Game.player_room g) walkable
  /\ forall i, In i far_items -> ~ In i (Game.inv g).
Proof.
  intros Hr. destruct (reachable_Full g d Hr) as ((HI & H2) & _).
  split; [apply (i2_room _ H2)|].
  intros i Hi Hinv.
  destruct (far_items_rooms i Hi) as (rid & rw & Hw & Hn & Hin).
  destruct (static_room_present g rid rw (inv_static _ HI) Hw) as (r & Hg).
  destruct (i2_far _ H2 rid r Hg Hn) as (rw' & Hw' & E).
  assert (rw' = rw) by congruence. subst rw'.
  apply (NoDup_disjoint _ _ i (inv_nodup _ HI) Hinv).
  apply (in_room_all_items g rid r i); [exact Hg|]. rewrite E. exact Hin.
Qed.

Lemma X5_witness :
  reachable at_console None
  /\ In (Game.player_room at_console) walkable
  /\ forall i, In i far_items -> ~ In i (Game.inv at_console).
Proof.
  split; [exact at_console_reachable|].
  exact (X5_player_confined at_console None at_console_reachable).
Defined.

Lemma world_item_kinds i :
  Py.get world_items i <> None -> In i portable_ids \/ i = "codes_token".
Proof.
  intros H. destruct (Py.get world_items i) as [it|] eqn:E; [|congruence].
  apply get_in in E. simpl in E.
  repeat (destruct E as [E|E];
          [inversion E; subst; vm_compute; tauto|]).
  destruct E.
Qed.

(** X6: nothing is lost and nothing is made: at every prompt the inventory
    and the rooms together hold every portable item, each identifier once,
    and besides them only the token, which is there exactly when the culprit
    carries the arrested flag. *)
Theorem X6_items_conserved g d :
  reachable g d ->
  NoDup (Game.inv g ++ all_items g)
  /\ forall i, In i (Game.inv g ++ all_items g)
               <-> In i portable_ids
                   \/ (i = "codes_token" /\ is_arrested g (Game.killer_id g)).
Proof.
  intros Hr. destruct (reachable_Full g d Hr) as ((HI & H2) & _).
  assert (Hs := inv_static _ HI).
  split; [apply (inv_nodup _ HI)|].
  destruct (inv_token _ HI) as (T1 & T2 & T3).
  destruct (inv_ids _ HI) as (I1 & I2 & _).
  intros i. split.
  - intros Hin.
    assert (Hk : Py.get world_items i <> None).
    { rewrite <- (Inv_items g HI). apply in_app_or in Hin. destruct Hin as [Hin|Hin].
      - destruct (known_get _ _ _ I2 Hin) as (it & ->). discriminate.
      - destruct (in_all_items g i (static_nodup_rooms g Hs) Hin) as (rid & r & Hg & Hx).
        destruct (I1 _ _ Hg) as (Hki & _).
        destruct (known_get _ _ _ Hki Hx) as (it & ->). discriminate. }
    destruct (world_item_kinds i Hk) as [Hp| ->]; [auto|].
    right. split; [reflexivity|]. apply T1.
    apply in_app_or in Hin. destruct Hin as [Hin|Hin]; [tauto|].
    destruct (in_all_items g _ (static_nodup_rooms g Hs) Hin) as (rid & r & Hg & Hx).
    rewrite (T3 _ _ Hg Hx) in Hg. exists r. auto.
  - intros [Hp|(-> & Ha)]; [apply (i2_stock _ H2 _ Hp)|].
    apply T1 in Ha. destruct Ha as (brig & Hb & Hin).
    apply in_or_app. right. apply (in_room_all_items g _ brig _ Hb Hin).
Qed.

Lemma X6_witness :
  reachable at_console None
  /\ NoDup (Game.inv at_console ++ all_items at_console)
  /\ forall i, In i (Game.inv at_console ++ all_items at_console)
               <-> In i portable_ids
                   \/ (i = "codes_token"
                       /\ is_arrested at_console (Game.killer_id at_console)).
Proof.
  split; [exact at_console_reachable|].
  exact (X6_items_conserved at_console None at_console_reachable).
Defined.

(** X7: the cooperative flag of every NPC is set at every prompt: nothing
    ever clears it, [talk] can only set it again, and what [inspect] prints
    about an NPC always ends in Calm, never in Guarded. *)
Theorem X7_always_cooperative g d nid n :
  reachable g d -> Py.get (Game.npcs g) nid = Some n ->
  NPC.cooperative n = true
  /\ npc_detail n = (NPC.name n ++ ", " ++ NPC.title n ++ ". Calm.")%string.
Proof.
  intros Hr Hn. destruct (reachable_Full g d Hr) as ((HI & H2) & _).
  assert (Hc := i2_coop _ H2 _ _ Hn). split; [exact Hc|].
  unfold npc_detail. rewrite Hc. reflexivity.
Qed.

Lemma X7_witness :
  reachable at_gala_cuffs_dropped None
  /\ exists n, Py.get (Game.npcs at_gala_cuffs_dropped) "chen" = Some n
               /\ NPC.cooperative n = true
               /\ npc_detail n = (NPC.name n ++ ", " ++ NPC.title n ++ ". Calm.")%string.
Proof.
  split; [exact at_gala_cuffs_dropped_reachable|].
  eexists. split; [vm_compute; reflexivity|].
  apply (X7_always_cooperative at_gala_cuffs_dropped None "chen" _
           at_gala_cuffs_dropped_reachable).
  vm_compute. reflexivity.
Defined.

(** X8: NPCs do not walk. At every prompt an NPC whose arrested flag is
    not set has the room it was authored into, an arrested one has the
    detention room, and whoever a room lists is in the NPC table, has that
    room and is not arrested. *)
Theorem X8_npcs_stay_home g d :
  reachable g d ->
  (forall nid n, Py.get (Game.npcs g) nid = Some n ->
     Some (NPC.room n) = if NPC.arrested n then Some "brig" else home nid)
  /\ (forall rid r nid, Py.get (Game.rooms g) rid = Some r -> In nid (Room.npcs r) ->
        exists n, Py.get (Game.npcs g) nid = Some n
                  /\ NPC.room n = rid /\ NPC.arrested n = false
                  /\ home nid = Some rid).
Proof.
  intros Hr. destruct (reachable_Full g d Hr) as ((HI & H2) & _).
  destruct (inv_static _ HI) as (_ & _ & _ & Hb & _).
  split.
  - intros nid n Hn. destruct (NPC.arrested n) eqn:Ea.
    + rewrite (i2_jail _ H2 _ _ Hn Ea), Hb. reflexivity.
    + symmetry. apply (i2_home _ H2 _ _ Hn Ea).
  - intros rid r nid Hg Hin. destruct (i2_lists _ H2 _ _ _ Hg Hin) as (n & Hn & Hroom).
    assert (Ea : NPC.arrested n = false).
    { destruct (NPC.arrested n) eqn:Ea; [|reflexivity].
      exfalso. apply (inv_hidden _ HI _ _ _ Hg Hin). exists n. auto. }
    exists n. repeat split; auto.
    rewrite <- Hroom. apply (i2_home _ H2 _ _ Hn Ea).
Qed.

Lemma X8_witness :
  reachable at_gala_cuffs_dropped None
  /\ (forall nid n, Py.get (Game.npcs at_gala_cuffs_dropped) nid = Some n ->
        Some (NPC.room n) = if NPC.arrested n then Some "brig" else home nid)
  /\ (forall rid r nid,
        Py.get (Game.rooms at_gala_cuffs_dropped) rid = Some r -> In nid (Room.npcs r) ->
        exists n, Py.get (Game.npcs at_gala_cuffs_dropped) nid = Some n
                  /\ NPC.room n = rid /\ NPC.arrested n = false
                  /\ home nid = Some rid).
Proof.
  split; [exact at_gala_cuffs_dropped_reachable|].
  exact (X8_npcs_stay_home at_gala_cuffs_dropped None at_gala_cuffs_dropped_reachable).
Defined.

(** X9: Orin Vale and Pax Morita are out of reach: at every prompt neither
    carries the arrested flag and the room the player stands in lists
    neither, so [talk], [arrest] and [inspect] never find them. *)
Theorem X9_vale_and_pax_out_of_reach g d nid :
  reachable g d -> In nid cut_off ->
  ~ is_arrested g nid
  /\ forall r, Py.get (Game.rooms g) (Game.player_room g) = Some r ->
               ~ In nid (Room.npcs r).
Proof.
  intros Hr Hc. destruct (reachable_Full g d Hr) as (HF & _).
  split; [apply (i2_out _ (proj2 HF) _ Hc)|].
  intros r Hg Hin. apply (listed_not_cut_off g r nid HF Hg Hin Hc).
Qed.

Lemma X9_witness :
  reachable at_console None
  /\ In "vale" cut_off
  /\ ~ is_arrested at_console "vale"
  /\ forall r, Py.get (Game.rooms at_console) (Game.player_room at_console) = Some r ->
               ~ In "vale" (Room.npcs r).
Proof.
  assert (Hc : In "vale" cut_off) by (vm_compute; tauto).
  split; [exact at_console_reachable|]. split; [exact Hc|].
  exact (X9_vale_and_pax_out_of_reach at_console None "vale" at_console_reachable Hc).
Defined.

(** ** The commands that only report *)

(** X10: at a prompt [look] cannot fail and costs nothing: it prints the
    name and description of the room the player is in, the names of the
    items and of the NPCs the room lists (each line only when the list is
    not empty) and the exits, and leaves the object as it was. *)
Theorem X10_look_reports g d :
  reachable g d ->
  exists r, Py.get (Game.rooms g) (Game.player_room g) = Some r
            /\ Game.look g = (Game.Ok tt, g, look_text g r).
Proof.
  intros Hr. destruct (reachable_Inv g d Hr) as (HI & _).
  destruct (Inv_current_room g HI) as (r & Hg).
  exists r. split; [exact Hg|]. apply look_at_prompt; assumption.
Qed.

Lemma X10_witness :
  reachable at_gala None
  /\ exists r, Py.get (Game.rooms at_gala) (Game.player_room at_gala) = Some r
               /\ Game.look at_gala = (Game.Ok tt, at_gala, look_text at_gala r).
Proof.
  split; [exact at_gala_reachable|].
  exact (X10_look_reports at_gala None at_gala_reachable).
Defined.

(** X11: at a prompt [show_map] cannot fail and costs nothing: no index is
    out of range, the plan it prints is the authored grid of three rows of
    five labels with the cell of the player replaced by [X], and the object
    is left as it was. *)
Theorem X11_map_reports g d :
  reachable g d ->
  exists r, Py.get (Game.rooms g) (Game.player_room g) = Some r
            /\ Game.show_map g = (Game.Ok tt, g, deck_plan (Room.x r) (Room.y r))
            /\ length (deck_plan (Room.x r) (Room.y r)) = 4%nat.
Proof.
  intros Hr. destruct (reachable_Inv g d Hr) as (HI & _).
  destruct (Inv_current_room g HI) as (r & Hg).
  exists r. split; [exact Hg|]. split; [apply show_map_at_prompt; assumption|].
  destruct (static_room_coords g _ r (inv_static _ HI) Hg) as (Hx & Hy).
  assert (Ey : (Room.y r = 0 \/ Room.y r = 1 \/ Room.y r = 2)%Z) by lia.
  destruct Ey as [->|[->| ->]]; reflexivity.
Qed.

Lemma X11_witness :
  reachable at_gala None
  /\ exists r, Py.get (Game.rooms at_gala) (Game.player_room at_gala) = Some r
               /\ Game.show_map at_gala
                  = (Game.Ok tt, at_gala, deck_plan (Room.x r) (Room.y r))
               /\ length (deck_plan (Room.x r) (Room.y r)) = 4%nat.
Proof.
  split; [exact at_gala_reachable|].
  exact (X11_map_reports at_gala None at_gala_reachable).
Defined.

(** X12: at a prompt [show_time] and [inv_show] cannot fail and cost
    nothing: the first prints the minutes left, the second the names of the
    carried items in the order they were taken, or that the player carries
    nothing; both leave the object as it was. *)
Theorem X12_time_and_inventory_report g d :
  reachable g d ->
  Game.show_time g
  = (Game.Ok tt, g,
     [("Time to solar impact: " ++ Py.str_of_int (Game.time g) ++ " minutes.")%string])
  /\ Game.inv_show g = (Game.Ok tt, g, [inv_text g]).
Proof.
  intros Hr. destruct (reachable_Inv g d Hr) as (HI & _).
  split; [apply show_time_at_prompt; apply (inv_time _ HI)|].
  apply inv_show_at_prompt. exact HI.
Qed.

Lemma X12_witness :
  reachable at_gala None
  /\ Game.show_time at_gala
     = (Game.Ok tt, at_gala,
        [("Time to solar impact: " ++ Py.str_of_int (Game.time at_gala)
          ++ " minutes.")%string])
  /\ Game.inv_show at_gala = (Game.Ok tt, at_gala, [inv_text at_gala]).
Proof.
  split; [exact at_gala_reachable|].
  exact (X12_time_and_inventory_report at_gala None at_gala_reachable).
Defined.

(** ** Moving *)
Lemma room_at_xy_coords g x y t :
  Game.room_at_xy g x y = Some t -> Room.x t = x /\ Room.y t = y.
Proof.
  unfold Game.room_at_xy. intros H. apply find_some in H. destruct H as (_ & H).
  apply andb_prop in H. destruct H as (H & _).
  apply andb_prop in H. destruct H as (Hx & Hy).
  split; apply Z.eqb_eq; assumption.
Qed.

Lemma move_full g r dir :
  Full g -> Py.get (Game.rooms g) (Game.player_room g) = Some r ->
  move_outcome g r dir.
Proof.
  intros HF Hr. assert (HI := proj1 HF). assert (Hs := inv_static _ HI).
  unfold move_outcome. rewrite (move_run g dir r Hr (static_nodup_rooms g Hs)).
  destruct (Py.get Game.DIRS (Py.lower dir)) as [[dx dy]|] eqn:Ed; [|reflexivity].
  destruct (Game.room_at_xy g _ _) as [target|] eqn:Et; [|reflexivity].
  cbv zeta.
  destruct (Full_after_move g r _ dx dy target HF Hr Ed Et) as (HI' & H2').
  assert (Hr1 : Py.get (Game.rooms (after_sync (Game.set_player_room g (Room.id target))))
                  (Room.id target)
                = Some (Room.set_npcs target
                          (Game.visible_npcs (Game.npcs g) (Room.id target)))).
  { unfold after_sync. simpl. rewrite get_sync.
    rewrite (room_at_xy_known g _ _ target Hs Et). reflexivity. }
  split; [|split; [exact Hr1|]].
  - run_with (look_at_prompt _ _ HI' Hr1). reflexivity.
  - destruct (room_at_xy_coords g _ _ target Et) as (Ex & Ey).
    split; [exact Ex|]. split; [exact Ey|]. apply (i2_room _ H2').
Qed.

(** X13: [move] at a prompt. A word that is not n, s, e or w (in either
    case) gets the usage line, a direction with no room on the next cell
    gets the refusal, and both leave the object as it was at no cost. With a
    room on the next cell the player is put there, every room's NPC list is
    recomputed, the new room is described as [look] does, and two minutes
    are spent last; the new room is one of the six walkable ones. *)
Theorem X13_move_effects g d dir :
  reachable g d ->
  exists r, Py.get (Game.rooms g) (Game.player_room g) = Some r
            /\ move_outcome g r dir.
Proof.
  intros Hr. destruct (reachable_Full g d Hr) as (HF & _).
  destruct (Inv_current_room g (proj1 HF)) as (r & Hg).
  exists r. split; [exact Hg|]. apply move_full; assumption.
Qed.

Lemma X13_witness :
  reachable at_gala None
  /\ exists r, Py.get (Game.rooms at_gala) (Game.player_room at_gala) = Some r
               /\ move_outcome at_gala r "W".
Proof.
  split; [exact at_gala_reachable|].
  exact (X13_move_effects at_gala None "W" at_gala_reachable).
Defined.

(** No two authored rooms share a cell: the room found on the cell of a
    room is that room. *)
Lemma world_room_at_own_cell k rw :
  Py.get world_rooms k = Some rw ->
  exists t, Game.room_at_xy (fresh_world (Rng.mk 0 (fun _ => 0%nat))) (Room.x rw) (Room.y rw)
            = Some t /\ Room.id t = k.
Proof.
  intros H. apply get_in in H. simpl in H.
  repeat (destruct H as [H|H];
          [inversion H; subst; eexists; split; vm_compute; reflexivity|]).
  destruct H.
Qed.

Lemma room_at_own_cell g k r :
  static_ok g -> Py.get (Game.rooms g) k = Some r ->
  exists t, Game.room_at_xy g (Room.x r) (Room.y r) = Some t /\ Room.id t = k.
Proof.
  intros Hs Hr. destruct Hs as (Hst & Hrest).
  destruct (statics_get room_static _ _ _ r (eq_sym Hst) Hr) as (rw & Hrw & E).
  destruct (room_static_fields rw r E) as (_ & Ex & Ey & _).
  destruct (world_room_at_own_cell k rw Hrw) as (tw & Htw & Hid).
  rewrite Ex, Ey in Htw. unfold Game.room_at_xy in *.
  destruct (find_room_static
              (fun r0 => (Room.x r0 =? Room.x r)%Z && (Room.y r0 =? Room.y r)%Z
                         && Room.passable r0)
              world_rooms (Game.rooms g) tw) as (t & Ht & Et); [|auto|exact Htw|].
  - intros a b Hab. destruct (room_static_fields a b Hab) as (_ & -> & -> & -> & _).
    reflexivity.
  - exists t. split; [exact Ht|].
    destruct (room_static_fields tw t Et) as (<- & _). exact Hid.
Qed.

Lemma opposite_dir dir dx dy :
  Py.get Game.DIRS (Py.lower dir) = Some (dx, dy) ->
  Py.get Game.DIRS (Py.lower (opposite dir)) = Some (- dx, - dy)%Z.
Proof.
  intros H. assert (Hin := get_in _ _ _ H). unfold opposite.
  simpl in Hin.
  repeat (destruct Hin as [Hin|Hin];
          [apply pair_equal_spec in Hin; destruct Hin as (Ek & Exy);
           apply pair_equal_spec in Exy; destruct Exy as (<- & <-);
           rewrite <- Ek; reflexivity|]).
  destruct Hin.
Qed.

Lemma move_state_room g r dir :
  move_outcome g r dir ->
  Game.player_room (state (Game.move dir g)) = Game.player_room g
  \/ exists dx dy target,
       Py.get Game.DIRS (Py.lower dir) = Some (dx, dy)
       /\ Game.room_at_xy g (Room.x r + dx) (Room.y r + dy) = Some target
       /\ Game.player_room (state (Game.move dir g)) = Room.id target.
Proof.
  unfold move_outcome.
  destruct (Py.get Game.DIRS (Py.lower dir)) as [[dx dy]|]; [|intros ->; auto].
  destruct (Game.room_at_xy g _ _) as [target|] eqn:Et; [|intros ->; auto].
  cbv zeta. intros (E & _). right. exists dx, dy, target.
  split; [reflexivity|]. split; [exact Et|].
  rewrite E, state_prepend, state_spend. reflexivity.
Qed.

(** X14: moves can be undone. When a move returned and changed the room,
    the opposite direction from there leads back to the room the player
    came from. *)
Theorem X14_moves_undo g d dir :
  reachable g d ->
  result (Game.move dir g) = Game.Ok tt ->
  Game.player_room (state (Game.move dir g)) <> Game.player_room g ->
  Game.player_room (state (Game.move (opposite dir) (state (Game.move dir g))))
  = Game.player_room g.
Proof.
  intros Hr Hok Hne. destruct (reachable_Full g d Hr) as (HF & _).
  assert (HI := proj1 HF). assert (Hs := inv_static _ HI).
  destruct (Inv_current_room g HI) as (r & Hg).
  assert (HF1 : Full (state (Game.move dir g))).
  { apply (FullR_move dir g); [intros _; rewrite Hok; reflexivity|exact HF]. }
  destruct (move_state_room g r dir (move_full g r dir HF Hg))
    as [E|(dx & dy & target & Ed & Et & E1)]; [contradiction|].
  set (g1 := state (Game.move dir g)) in *.
  assert (HI1 := proj1 HF1). assert (Hs1 := inv_static _ HI1).
  destruct (Inv_current_room g1 HI1) as (r1 & Hg1).
  (* the room the player came from, as the new object holds it *)
  assert (Hst : statics room_static (Game.rooms g1) = statics room_static (Game.rooms g)).
  { destruct Hs as (-> & _), Hs1 as (-> & _). reflexivity. }
  destruct (statics_get room_static _ _ _ r Hst Hg) as (r0 & Hr0 & E0).
  destruct (room_static_fields r0 r E0) as (_ & Ex0 & Ey0 & _).
  destruct (room_at_own_cell g1 _ r0 Hs1 Hr0) as (t & Ht & Hid).
  (* the cell of the new room *)
  destruct (room_at_xy_coords g _ _ target Et) as (Ext & Eyt).
  assert (Ht1 : Py.get (Game.rooms g) (Room.id target) = Some target)
    by (apply (room_at_xy_known g _ _ target Hs Et)).
  rewrite <- E1 in Ht1.
  destruct (statics_get room_static _ _ _ target Hst Ht1) as (r1' & Hr1' & E1').
  assert (r1' = r1) by congruence. subst r1'.
  destruct (room_static_fields r1 target E1') as (_ & Ex1 & Ey1 & _).
  destruct (move_state_room g1 r1 (opposite dir) (move_full g1 r1 _ HF1 Hg1))
    as [E|(dx' & dy' & target' & Ed' & Et' & E2)].
  - (* the way back cannot be refused *)
    exfalso. assert (Hm := move_full g1 r1 (opposite dir) HF1 Hg1).
    unfold move_outcome in Hm. rewrite (opposite_dir dir dx dy Ed) in Hm.
    replace (Room.x r1 + - dx)%Z with (Room.x r0) in Hm by lia.
    replace (Room.y r1 + - dy)%Z with (Room.y r0) in Hm by lia.
    rewrite Ht in Hm. cbv zeta in Hm. destruct Hm as (Em & _).
    rewrite Em, state_prepend, state_spend in E. simpl in E.
    rewrite Hid in E. fold g1 in Hne. congruence.
  - rewrite E2. rewrite (opposite_dir dir dx dy Ed) in Ed'.
    inversion Ed'; subst dx' dy'.
    replace (Room.x r1 + - dx)%Z with (Room.x r0) in Et' by lia.
    replace (Room.y r1 + - dy)%Z with (Room.y r0) in Et' by lia.
    congruence.
Qed.

Lemma X14_witness :
  reachable at_gala None
  /\ Game.player_room
       (state (Game.move (opposite "w") (state (Game.move "w" at_gala))))
     = Game.player_room at_gala.
Proof.
  split; [exact at_gala_reachable|].
  apply (X14_moves_undo at_gala None "w" at_gala_reachable).
  - vm_compute. reflexivity.
  - vm_compute. discriminate.
Defined.

(** ** Talking and accusing *)
Lemma set_same {V} (d : Py.dict V) k v : Py.get d k = Some v -> Py.set d k v = d.
Proof.
  induction d as [|[k' v'] d IH]; simpl; [discriminate|].
  destruct (k' =? k)%string eqn:E.
  - intros H. inversion H. reflexivity.
  - intros H. rewrite (IH H). reflexivity.
Qed.

Lemma set_cooperative_same n : NPC.cooperative n = true -> NPC.set_cooperative n true = n.
Proof. destruct n. simpl. intros ->. reflexivity. Qed.

(** X15: [talk] at a prompt. When the room lists nobody under the given
    name it says so and nothing changes, at no cost. When it does, the NPC
    answers with the lie if it is the culprit and with the truth if not, and
    two minutes are spent last; nothing else changes but the generator,
    which is one number further when the NPC is not the culprit: the
    cooperative flag the draw may set is set already. *)
Theorem X15_talk_effects g d a args :
  reachable g d ->
  exists r,
    Py.get (Game.rooms g) (Game.player_room g) = Some r
    /\ match find (npc_matches (Game.npcs g) (Py.lower (Py.join " " (a :: args))))
                  (Room.npcs r) with
       | None => Game.talk (a :: args) g = (Game.Ok tt, g, ["They aren’t here."])
       | Some tid =>
           exists n,
             Py.get (Game.npcs g) tid = Some n
             /\ Game.talk (a :: args) g
                = prepend [talk_line g tid n]
                    (Game.spend 2
                       (if (tid =? Game.killer_id g)%string then g
                        else Game.set_rng g (Rng.next (Game.rng g))))
       end.
Proof.
  intros Hr. destruct (reachable_Full g d Hr) as ((HI & H2) & _).
  assert (Hs := inv_static _ HI).
  destruct (Inv_current_room g HI) as (r & Hg). exists r. split; [exact Hg|].
  destruct (Inv_room_known g r HI Hg) as (_ & Hkn).
  rewrite (talk_run g a args r Hg Hkn). cbv zeta.
  destruct (find _ (Room.npcs r)) as [tid|] eqn:Ef; [|reflexivity].
  destruct (known_get _ _ _ Hkn (find_some_in _ _ _ Ef)) as (n & Hn).
  rewrite (truthy_known _ tid n (static_no_empty_npc g Hs) Hn), Hn.
  exists n. split; [reflexivity|]. f_equal.
  destruct (tid =? Game.killer_id g)%string; [reflexivity|].
  change (snd (Rng.random_lt_quarter (Game.rng g))) with (Rng.next (Game.rng g)).
  destruct (fst _); [|reflexivity].
  rewrite (set_cooperative_same n (i2_coop _ H2 _ _ Hn)), (set_same _ _ _ Hn).
  reflexivity.
Qed.

Lemma X15_witness :
  reachable at_gala None
  /\ exists r,
       Py.get (Game.rooms at_gala) (Game.player_room at_gala) = Some r
       /\ match find (npc_matches (Game.npcs at_gala)
                        (Py.lower (Py.join " " ["Minister"; "Lira"; "Chen"])))
                     (Room.npcs r) with
          | None => Game.talk ["Minister"; "Lira"; "Chen"] at_gala
                    = (Game.Ok tt, at_gala, ["They aren’t here."])
          | Some tid =>
              exists n,
                Py.get (Game.npcs at_gala) tid = Some n
                /\ Game.talk ["Minister"; "Lira"; "Chen"] at_gala
                   = prepend [talk_line at_gala tid n]
                       (Game.spend 2
                          (if (tid =? Game.killer_id at_gala)%string then at_gala
                           else Game.set_rng at_gala (Rng.next (Game.rng at_gala))))
          end.
Proof.
  split; [exact at_gala_reachable|].
  exact (X15_talk_effects at_gala None "Minister" ["Lira"; "Chen"] at_gala_reachable).
Defined.

(** The names [accuse] takes are those the search loops of [talk] and
    [arrest] take, looked up in the whole NPC table. *)
Lemma accused_matches g who w :
  NoDup (Py.keys (Game.npcs g)) -> accused g who = Some w ->
  In w (Py.keys (Game.npcs g)) /\ npc_matches (Game.npcs g) who w = true.
Proof.
  intros Hnd H. assert (Hk := accused_known g who w H).
  destruct (Py.get (Game.npcs g) w) as [n|] eqn:En; [|congruence].
  split.
  { apply get_in in En. unfold Py.keys. apply in_map_iff. exists (w, n). auto. }
  unfold npc_matches. rewrite En.
  unfold accused in H. destruct (Py.mem who (Py.keys (Game.npcs g))) eqn:Em.
  - inversion H; subst. rewrite String.eqb_refl. apply orb_true_r.
  - destruct (map fst (filter _ _)) as [|m l] eqn:El; [discriminate|].
    inversion H; subst.
    assert (Hin : In w (map fst (filter (fun e => (Py.lower (NPC.name (snd e)) =? who)%string)
                                        (Game.npcs g)))).
    { rewrite El. left. reflexivity. }
    apply in_map_iff in Hin. destruct Hin as ([k n'] & Ek & Hin). simpl in Ek. subst k.
    apply filter_In in Hin. destruct Hin as (Hin & Hf). simpl in Hf.
    assert (n' = n) by (apply (in_get _ _ _ Hnd) in Hin; congruence). subst n'.
    rewrite Hf. reflexivity.
Qed.

Lemma accused_find g who :
  static_ok g ->
  accused g who = find (npc_matches (Game.npcs g) who) (Py.keys (Game.npcs g)).
Proof.
  intros Hs. assert (Hnd := static_nodup_npcs g Hs).
  destruct (accused g who) as [w|] eqn:Ea.
  - destruct (accused_matches g who w Hnd Ea) as (Hin & Hm).
    destruct (find _ _) as [w'|] eqn:Ef.
    + apply find_some in Ef. destruct Ef as (_ & Hm').
      rewrite (static_npc_matches g who w Hs) in Hm.
      rewrite (static_npc_matches g who w' Hs) in Hm'.
      rewrite (npc_match_unique who w w' Hm Hm'). reflexivity.
    + rewrite find_none_iff in Ef. rewrite (Ef w Hin) in Hm. discriminate.
  - destruct (find _ _) as [w'|] eqn:Ef; [|reflexivity].
    exfalso. apply find_some in Ef. destruct Ef as (Hin & Hm).
    unfold accused in Ea. unfold npc_matches in Hm.
    destruct (Py.get (Game.npcs g) w') as [n|] eqn:En; [|discriminate].
    destruct (Py.mem who (Py.keys (Game.npcs g))) eqn:Em; [discriminate|].
    apply orb_prop in Hm. destruct Hm as [Hm|Hm].
    + assert (Hf : In w' (map fst (filter
                   (fun e => (Py.lower (NPC.name (snd e)) =? who)%string) (Game.npcs g)))).
      { apply in_map_iff. exists (w', n). split; [reflexivity|].
        apply filter_In. split; [apply get_in; exact En|exact Hm]. }
      destruct (map fst (filter _ _)); [destruct Hf|discriminate].
    + apply String.eqb_eq in Hm. subst w'.
      apply mem_In in Hin. congruence.
Qed.

(** X16: [accuse] at a prompt. The name is resolved as [talk] and [arrest]
    resolve it, but over the whole NPC table: the accused need not be in the
    room, nor free. A name of nobody gets the refusal, at no cost and with
    no change. Otherwise the case is laid out, followed by the tells (the
    names of the evidence of the culprit) when the accused is the culprit
    and by the sneer when not, and three minutes are spent last; nothing
    else changes and the game goes on unless the time is up. *)
Theorem X16_accuse_effects g d a args :
  reachable g d ->
  match find (npc_matches (Game.npcs g) (Py.lower (Py.join " " (a :: args))))
             (Py.keys (Game.npcs g)) with
  | None => Game.accuse (a :: args) g = (Game.Ok tt, g, ["Not a listed guest."])
  | Some w => Game.accuse (a :: args) g = prepend (accuse_text g w) (Game.spend 3 g)
  end.
Proof.
  intros Hr. destruct (reachable_Full g d Hr) as (HF & _). assert (HI := proj1 HF).
  rewrite (accuse_run g a args (fun tips => Full_tips g tips HF)).
  rewrite <- (accused_find g _ (inv_static _ HI)).
  destruct (accused g _) as [w|] eqn:Ew; [|reflexivity].
  destruct (Py.get (Game.killer_evidence g) (Game.killer_id g)) as [ev|] eqn:Ev.
  2:{ exfalso. apply (inv_evidence _ HI). exact Ev. }
  destruct (Py.get (Game.npcs g) w) as [n|] eqn:En; [reflexivity|].
  exfalso. apply (accused_known _ _ _ Ew). exact En.
Qed.

Lemma X16_witness :
  reachable at_gala None
  /\ match find (npc_matches (Game.npcs at_gala) (Py.lower (Py.join " " ["Pax"; "Morita"])))
                (Py.keys (Game.npcs at_gala)) with
     | None => Game.accuse ["Pax"; "Morita"] at_gala
               = (Game.Ok tt, at_gala, ["Not a listed guest."])
     | Some w => Game.accuse ["Pax"; "Morita"] at_gala
                 = prepend (accuse_text at_gala w) (Game.spend 3 at_gala)
     end.
Proof.
  split; [exact at_gala_reachable|].
  exact (X16_accuse_effects at_gala None "Pax" ["Morita"] at_gala_reachable).
Defined.

(** ** Recomputing the room lists *)
Lemma sync_rooms_twice ns rs : sync_rooms ns (sync_rooms ns rs) = sync_rooms ns rs.
Proof.
  unfold sync_rooms. rewrite map_map. apply map_ext. intros [k r]. reflexivity.
Qed.

(** X17: [_sync_npcs_in_room] cannot fail and prints nothing; afterwards
    every room lists exactly the NPCs of the table that have this room and
    are not arrested, in the order of the table, the items of the rooms are
    as before, and a second call changes nothing. *)
Theorem X17_sync_is_exact g :
  NoDup (Py.keys (Game.rooms g)) -> NoDup (Py.keys (Game.npcs g)) ->
  Game._sync_npcs_in_room g = (Game.Ok tt, after_sync g, [])
  /\ Game._sync_npcs_in_room (after_sync g) = (Game.Ok tt, after_sync g, [])
  /\ Py.keys (Game.rooms (after_sync g)) = Py.keys (Game.rooms g)
  /\ forall rid r,
       Py.get (Game.rooms g) rid = Some r ->
       exists r',
         Py.get (Game.rooms (after_sync g)) rid = Some r'
         /\ Room.items r' = Room.items r
         /\ Room.npcs r' = Game.visible_npcs (Game.npcs g) rid
         /\ forall nid,
              In nid (Room.npcs r')
              <-> exists n, Py.get (Game.npcs g) nid = Some n
                            /\ NPC.room n = rid /\ NPC.arrested n = false.
Proof.
  intros Hr Hn. split; [apply sync_run; exact Hr|]. split; [|split].
  - rewrite sync_run.
    + unfold after_sync. simpl. rewrite sync_rooms_twice. reflexivity.
    + unfold after_sync. simpl. rewrite keys_sync. exact Hr.
  - unfold after_sync. simpl. apply keys_sync.
  - intros rid r Hg. eexists. split.
    { unfold after_sync. simpl. rewrite get_sync, Hg. reflexivity. }
    split; [reflexivity|]. split; [reflexivity|].
    intros nid. simpl. split.
    + apply visible_spec. exact Hn.
    + intros (n & Hget & Hroom & Ha). apply (visible_complete _ _ _ n); auto.
Qed.

Lemma X17_witness :
  Game._sync_npcs_in_room at_atrium_with_cuffs
  = (Game.Ok tt, after_sync at_atrium_with_cuffs, [])
  /\ exists r',
       Py.get (Game.rooms (after_sync at_atrium_with_cuffs)) "atrium" = Some r'
       /\ Room.npcs r' = ["das"].
Proof.
  assert (Hr : NoDup (Py.keys (Game.rooms at_atrium_with_cuffs)))
    by (apply nodup_strings; vm_compute; reflexivity).
  assert (Hn : NoDup (Py.keys (Game.npcs at_atrium_with_cuffs)))
    by (apply nodup_strings; vm_compute; reflexivity).
  destruct (X17_sync_is_exact at_atrium_with_cuffs Hr Hn) as (E & _ & _ & H).
  split; [exact E|].
  eexists. split; vm_compute; reflexivity.
Defined.

(** ** The loop *)
Lemma command_quit cmd args d g :
  Py.mem cmd ["quit"; "exit"] = true ->
  Game.command cmd args d g = (Game.Ok (Game.Break, d), g, ["Goodbye."]).
Proof. intros H. unfold Game.command. rewrite H. reflexivity. Qed.

(** X18: the lines that do nothing. A line made of separators only is
    skipped: nothing is printed, no time passes, not even the reminder is
    shown, and the loop reads the next line. A line whose first word is
    quit or exit, in any case and whatever follows it, prints the goodbye and
    ends the loop at once: the lines after it are not read, and neither the
    object nor the save file is touched. *)
Theorem X18_blank_lines_and_quit line rest d g :
  (all_space line = true -> Game.loop (line :: rest) d g = Game.loop rest d g)
  /\ (forall p args,
        Py.split (Py.strip line) = p :: args ->
        Py.mem (Py.lower p) ["quit"; "exit"] = true ->
        Game.loop (line :: rest) d g = (Game.Ok d, g, ["Goodbye."])).
Proof.
  split.
  - intros Hb. cbn [Game.loop]. unfold Game.step. rewrite (strip_blank line Hb).
    change ("" =? "")%string with true. cbv iota. rewrite bind_ret. reflexivity.
  - intros p args Hs Hq. cbn [Game.loop]. unfold Game.step.
    destruct (String.eqb_spec (Py.strip line) "") as [E|_].
    { rewrite E in Hs. discriminate. }
    rewrite Hs. rewrite bind_assoc.
    rewrite (bind_ok _ _ _ _ _ _ (command_quit _ args d g Hq)).
    reflexivity.
Qed.

Lemma X18_witness :
  Game.loop ["   "; "look"] None at_gala = Game.loop ["look"] None at_gala
  /\ Game.loop ["  EXIT now "; "look"] None at_gala
     = (Game.Ok None, at_gala, ["Goodbye."]).
Proof.
  split.
  - apply (proj1 (X18_blank_lines_and_quit "   " ["look"] None at_gala)).
    reflexivity.
  - apply (proj2 (X18_blank_lines_and_quit "  EXIT now " ["look"] None at_gala)
             "EXIT" ["now"]); reflexivity.
Defined.

(** How [command] leaves the loop body. *)
Lemma command_ctl cmd args d g c d' g' o :
  Game.command cmd args d g = (Game.Ok (c, d'), g', o) ->
  c = if Py.mem cmd ["quit"; "exit"] then Game.Break
      else if Py.mem cmd ["go"; "move"] && match args with [] => true | _ => false end
           then Game.Skip else Game.Fall.
Proof.
  unfold Game.command.
  destruct (Py.mem cmd ["quit"; "exit"]) eqn:Eq.
  { intros H. inversion H. reflexivity. }
  destruct (Py.mem cmd ["go"; "move"]) eqn:Eg.
  - apply mem_In in Eg. destruct Eg as [<-|[<-|[]]]; destruct args as [|a args];
      intros H;
      repeat (apply bind_ok_inv in H;
              destruct H as (? & ? & ? & ? & _ & H & _));
      inversion H; subst; reflexivity.
  - cbn [andb].
    repeat match goal with
           | |- context [if ?b then _ else _] =>
               match type of b with bool => destruct b end
           end;
      intros H;
      repeat (apply bind_ok_inv in H;
              destruct H as (? & ? & ? & ? & _ & H & _));
      inversion H; subst; reflexivity.
Qed.

Lemma reminder_run g : Game.reminder g = (Game.Ok tt, g, alarm_text g).
Proof.
  unfold Game.reminder, alarm_text. rewrite bind_self.
  destruct (_ && _)%bool; reflexivity.
Qed.

(** X19: the reminder. Every line that is not blank, does not quit and is
    not a [go] without a direction ends, when its command returns, with the
    reminder: the loop goes on, and the output ends with the alarm line
    exactly when the timer the command left is between 1 and 15; the
    reminder itself changes nothing. *)
Theorem X19_reminder_follows line d g b d' g' o :
  falls_through line = true ->
  Game.step line d g = (Game.Ok (b, d'), g', o) ->
  b = true
  /\ exists o1, o = o1 ++ alarm_text g'
                /\ exists p args c,
                     Py.split (Py.strip line) = p :: args
                     /\ Game.command (Py.lower p) args d g = (Game.Ok (c, d'), g', o1).
Proof.
  unfold falls_through, Game.step. intros Hf H.
  destruct (Py.split (Py.strip line)) as [|p args] eqn:Es; [discriminate|].
  destruct (String.eqb_spec (Py.strip line) "") as [E|_].
  { rewrite E in Es. discriminate. }
  apply bind_ok_inv in H. destruct H as ([c d1] & g1 & o1 & o2 & Ec & H & ->).
  assert (Hc := command_ctl _ _ _ _ _ _ _ _ Ec). cbn [fst snd] in H.
  apply andb_prop in Hf. destruct Hf as (Hq & Hg).
  apply negb_true_iff in Hq. apply negb_true_iff in Hg.
  rewrite Hq, Hg in Hc. subst c.
  rewrite (bind_ok _ _ _ _ _ _ (reminder_run g1)) in H.
  unfold prepend, Game.ret in H. inversion H; subst.
  split; [reflexivity|]. exists o1. split; [rewrite app_nil_r; reflexivity|].
  exists p, args, Game.Fall. auto.
Qed.

Lemma X19_witness :
  falls_through "look" = true
  /\ exists g' o1,
       Game.step "look" None at_last_minute
       = (Game.Ok (true, None), g', o1 ++ alarm_text g')
       /\ alarm_text g' = ["(Alarms intensify: 1 minutes left.)"].
Proof.
  split; [reflexivity|].
  destruct (Game.step "look" None at_last_minute) as [[[[b d']|e] g'] o] eqn:E.
  - destruct (X19_reminder_follows "look" None at_last_minute b d' g' o eq_refl E)
      as (-> & o1 & -> & _).
    exists g', o1. revert E. vm_compute. intros E. inversion E. split; reflexivity.
  - exfalso. revert E. vm_compute. discriminate.
Defined.

(** ** Setup, once more *)
Lemma choice_index {A} (seq : list A) (dflt : A) g :
  seq <> [] ->
  Game.choice seq g
  = (Game.Ok (nth (Nat.modulo (Rng.draws (Game.rng g) (Rng.pos (Game.rng g)))
                              (length seq)) seq dflt),
     Game.set_rng g (Rng.next (Game.rng g)), []).
Proof.
  intros Hne. unfold Game.choice. destruct seq as [|x seq]; [congruence|].
  set (l := x :: seq). rewrite bind_self. unfold Rng.randbelow. rewrite bind_modify.
  assert (H : (Rng.draws (Game.rng g) (Rng.pos (Game.rng g)) mod length l < length l)%nat).
  { apply Nat.mod_upper_bound. subst l. simpl. lia. }
  rewrite (nth_error_nth' l dflt H). reflexivity.
Qed.

Lemma seed_case_culprit r :
  exists r' ev,
    Game._seed_case (fresh_world r) = (Game.Ok tt, opening r' (culprit_of r) ev, []).
Proof.
  unfold Game._seed_case. rewrite bind_self.
  change (Py.keys (Game.npcs (fresh_world r))) with (Py.keys world_npcs).
  assert (Ek := choice_index (Py.keys world_npcs) "" (fresh_world r)).
  run_with (Ek ltac:(discriminate)). run.
  set (g1 := Game.set_killer_id _ _).
  destruct (evidence_draws (Py.keys world_npcs) g1 world_pools)
    as (ev & r' & E & Hkeys & Hev).
  run_with E. run.
  exists r', (Game.dict_of ev). reflexivity.
Qed.

(** X20: what [__init__] builds. For every generator it succeeds, printing
    nothing, and leaves 60 minutes, the player in the atrium with empty
    hands, the tables as authored and nobody arrested. No item is scattered:
    every portable item has its authored room, so the loop that would drop
    the others at random never draws. No room lists an NPC yet: the lists
    are empty until the first move or arrest recomputes them. The culprit is
    the suspect whose position among the six is the first number of the
    generator modulo 6. *)
Theorem X20_setup_as_authored r :
  exists g,
    Game.__init__ (Game.blank r) = (Game.Ok tt, g, [])
    /\ Game.time g = 60%Z /\ Game.player_room g = "atrium" /\ Game.inv g = []
    /\ Game.rooms g = world_rooms /\ Game.items g = world_items
    /\ Game.npcs g = world_npcs
    /\ Game.killer_id g = culprit_of r
    /\ (forall i, In i portable_ids -> In i (all_items g))
    /\ (forall rid room, Py.get (Game.rooms g) rid = Some room -> Room.npcs room = [])
    /\ (forall nid n, Py.get (Game.npcs g) nid = Some n -> NPC.arrested n = false).
Proof.
  destruct (seed_case_culprit r) as (r' & ev & E).
  exists (opening r' (culprit_of r) ev). split.
  { unfold Game.__init__. run_with (build_world_run r). exact E. }
  do 7 (split; [reflexivity|]). split; [|split].
  - intros i Hi. vm_compute in Hi. vm_compute. tauto.
  - intros rid room H. apply (world_room_facts rid room H).
  - intros nid n H. apply (world_npc_free nid n H).
Qed.

(** X21: at the first prompt nobody is in sight. When [__init__] and the
    first [look] are done every room's NPC list is still empty, although
    Prof. Das has the atrium, where the player stands, as her room: whatever
    name is given, [talk] answers that they are not here and changes
    nothing. *)
Theorem X21_nobody_in_sight_at_start r g a args :
  start r = Some g ->
  (forall rid room, Py.get (Game.rooms g) rid = Some room -> Room.npcs room = [])
  /\ (exists n, Py.get (Game.npcs g) "das" = Some n
                /\ NPC.room n = Game.player_room g /\ NPC.arrested n = false)
  /\ Game.talk (a :: args) g = (Game.Ok tt, g, ["They aren’t here."]).
Proof.
  unfold start. intros Hs.
  destruct (boot (Game.blank r)) as [[[[]|e] g0] o] eqn:E; [|discriminate].
  inversion Hs; subst g0.
  destruct (boot_run r g o E) as (HI & r' & k & ev & _ & _ & ->).
  split; [|split].
  - intros rid room H. apply (world_room_facts rid room H).
  - eexists. split; [reflexivity|]. split; reflexivity.
  - destruct (Inv_current_room _ HI) as (room & Hg).
    destruct (Inv_room_known _ room HI Hg) as (_ & Hkn).
    apply (talk_absent _ a args room Hg Hkn).
    destruct (world_room_facts _ room Hg) as (_ & -> & _). reflexivity.
Qed.

Lemma X21_witness :
  start vale_rng = Some vale_game
  /\ Game.talk ["Prof."; "Mira"; "Das"] vale_game
     = (Game.Ok tt, vale_game, ["They aren’t here."]).
Proof.
  assert (Hs : start vale_rng = Some vale_game) by (vm_compute; reflexivity).
  split; [exact Hs|].
  apply (X21_nobody_in_sight_at_start vale_rng vale_game "Prof." ["Mira"; "Das"] Hs).
Defined.

(** ** The number-guessing script *)
Lemma secret_range r : (1 <= secret r <= 100)%Z.
Proof.
  unfold secret, Guess.randint, Rng.randbelow. cbn [fst].
  change (Z.to_nat (100 - 1 + 1)) with 100%nat.
  assert (H : (Rng.draws r (Rng.pos r) mod 100 < 100)%nat)
    by (apply Nat.mod_upper_bound; discriminate).
  lia.
Qed.

Lemma guess_loop_hit number before : forall count rest,
  Forall (fun z => z <> number) before ->
  Guess.loop number count (map Some before ++ Some number :: rest)
  = (Guess.Guessed,
     map (hint number) before
     ++ [congratulation number (count + Z.of_nat (length before) + 1)]).
Proof.
  induction before as [|z before IH]; intros count rest Hb.
  - cbn [map app Guess.loop length]. rewrite Z.gtb_ltb, Z.ltb_irrefl.
    unfold congratulation. repeat f_equal. lia.
  - inversion Hb as [|? ? Hz Hrest]; subst. cbn [map app Guess.loop length].
    rewrite (IH (count + 1)%Z rest Hrest). unfold hint.
    replace (count + 1 + Z.of_nat (length before) + 1)%Z
      with (count + Z.of_nat (S (length before)) + 1)%Z by lia.
    destruct (Z.ltb_spec z number); [reflexivity|].
    destruct (Z.gtb_spec z number); [reflexivity|]. lia.
Qed.

Lemma guess_loop_guessed number inputs : forall count,
  fst (Guess.loop number count inputs) = Guess.Guessed -> In (Some number) inputs.
Proof.
  induction inputs as [|[z|] inputs IH]; intros count; cbn [Guess.loop];
    try discriminate.
  destruct (Z.ltb_spec z number) as [Hlt|Hge].
  { specialize (IH (count + 1)%Z). destruct (Guess.loop _ _ _). cbn [fst] in *.
    intros Hg. right. auto. }
  destruct (Z.gtb_spec z number) as [Hgt|Hle].
  { specialize (IH (count + 1)%Z). destruct (Guess.loop _ _ _). cbn [fst] in *.
    intros Hg. right. auto. }
  intros _. left. f_equal. lia.
Qed.

(** X22: the number-guessing script. The number drawn lies between 1 and
    100. When the player types integers and the number is among them, the
    script ends at its first occurrence: every guess before it gets the hint
    that tells the truth (too low when it is smaller, too high when it is
    larger), the congratulation names the number and counts the guesses made
    up to and including that one, and what is typed afterwards is not read.
    The script never congratulates unless the number was typed. *)
Theorem X22_guessing_ends_at_first_hit r before rest :
  Forall (fun z => z <> secret r) before ->
  (1 <= secret r <= 100)%Z
  /\ Guess.guess_the_number r (map Some before ++ Some (secret r) :: rest)
     = (Guess.Guessed,
        "Welcome to Guess the Number!"
        :: map (hint (secret r)) before
        ++ [congratulation (secret r) (Z.of_nat (length before) + 1)])
  /\ forall inputs,
       fst (Guess.guess_the_number r inputs) = Guess.Guessed ->
       In (Some (secret r)) inputs.
Proof.
  intros Hb. split; [apply secret_range|]. split.
  - unfold Guess.guess_the_number. unfold secret in *.
    destruct (Guess.randint 1 100 r) as [n r'] eqn:E. cbn [fst] in *.
    rewrite (guess_loop_hit n before 0 rest Hb). reflexivity.
  - intros inputs. unfold Guess.guess_the_number, secret.
    destruct (Guess.randint 1 100 r) as [n r'] eqn:E. cbn [fst].
    assert (H := guess_loop_guessed n inputs 0).
    destruct (Guess.loop n 0 inputs) as [e o]. exact H.
Qed.

Lemma X22_witness :
  Guess.guess_the_number demo_rng [Some 50; Some 1; Some 7]%Z
  = (Guess.Guessed,
     ["Welcome to Guess the Number!"; "Too high!";
      "Congratulations! You've guessed the number 1 in 2 guesses!"]).
Proof.
  assert (Hb : Forall (fun z => z <> secret demo_rng) [50%Z]).
  { constructor; [|constructor]. vm_compute. discriminate. }
  exact (proj1 (proj2 (X22_guessing_ends_at_first_hit demo_rng [50%Z] [Some 7%Z] Hb))).
Defined.

(** ** What is never printed, and what always is *)
Lemma not_in_spend_output s m g :
  s <> loss_text -> ~ In s (output (Game.spend m g)).
Proof.
  intros Hs. rewrite spend_run. cbv zeta.
  destruct (_ =? _)%Z; unfold output; cbn [snd]; [|tauto].
  intros [H|[]]. apply Hs. symmetry. exact H.
Qed.

(** X23: the answer Already restrained is dead code. [arrest] looks for its
    target in the NPC list of the room, which never holds an arrested NPC,
    so the test of the arrested flag that follows never succeeds: at no
    prompt and for no arguments does [arrest] print that line. *)
Theorem X23_already_restrained_never_printed g d args :
  reachable g d ->
  ~ In "Already restrained." (output (Game.arrest args g)).
Proof.
  intros Hr. destruct (reachable_Inv g d Hr) as (HI & _).
  destruct args as [|a args]; [simpl; intuition discriminate|].
  destruct (Inv_current_room g HI) as (r & Hg).
  assert (Hs := inv_static _ HI).
  destruct (Inv_room_known g r HI Hg) as (_ & Hkn).
  rewrite (arrest_run g a args r Hg Hkn (static_nodup_rooms g Hs)). cbv zeta.
  destruct (negb _); [simpl; intuition discriminate|].
  destruct (Game.truthy _) as [tid|] eqn:Et; [|simpl; intuition discriminate].
  apply truthy_some in Et. destruct Et as (Et & _). apply find_some_in in Et.
  destruct (known_get _ _ _ Hkn Et) as (n & Hn). rewrite Hn.
  assert (Ha : NPC.arrested n = false).
  { destruct (NPC.arrested n) eqn:Ea; [|reflexivity].
    exfalso. apply (inv_hidden _ HI _ _ _ Hg Et). exists n. auto. }
  rewrite Ha.
  assert (Hout : forall g1,
            ~ In "Already restrained."
                 (output (prepend [("You restrain " ++ NPC.name n
                                    ++ ". Security drones escort them to the Brig.")%string]
                                  (Game.spend 3 g1)))).
  { intros g1. rewrite output_prepend. intros [H|H]; [discriminate H|].
    revert H. apply not_in_spend_output. discriminate. }
  destruct (tid =? Game.killer_id g)%string; [|apply Hout].
  destruct (Py.get (Game.rooms (cuffed g tid n)) (Game.brigrm g)) as [brig|];
    [|simpl; tauto].
  destruct (negb _); apply Hout.
Qed.

Lemma X23_witness :
  reachable at_gala_cuffs_dropped None
  /\ ~ In "Already restrained." (output (Game.arrest ["chen"] at_gala_cuffs_dropped)).
Proof.
  split; [exact at_gala_cuffs_dropped_reachable|].
  exact (X23_already_restrained_never_printed at_gala_cuffs_dropped None ["chen"]
           at_gala_cuffs_dropped_reachable).
Defined.

Lemma command_use_console args d g :
  is_use_console "use" args = true ->
  Game.command "use" args d g
  = Game.bind Game.use_console (fun _ => Game.ret (Game.Fall, d)) g.
Proof.
  unfold is_use_console. intros H. unfold Game.command.
  change (Py.mem "use" ["quit"; "exit"]) with false.
  change (Py.mem "use" ["go"; "move"]) with false.
  change (Py.mem "use" ["inv"; "inventory"]) with false.
  cbv iota.
  repeat match goal with
         | |- context [("use" =? ?s)%string] =>
             lazymatch s with
             | "use" => fail
             | _ => change ("use" =? s)%string with false
             end
         end.
  cbv iota. rewrite H. reflexivity.
Qed.

(** X24: the console anywhere else. A line that asks for [use console],
    in any case, with any spacing and whatever follows the two words, typed
    while the player is not in the command room, prints the location
    requirement and then the reminder when it is due; it costs nothing and
    changes nothing, whoever is arrested. *)
Theorem X24_console_needs_the_command_room line d g :
  asks_console line = true ->
  Game.player_room g <> Game.cmdrm g ->
  Game.step line d g
  = (Game.Ok (true, d), g,
     "You must be at the Master Console on the Command Deck." :: alarm_text g).
Proof.
  unfold asks_console. intros Ha Hp. unfold Game.step.
  destruct (Py.split (Py.strip line)) as [|p args] eqn:Es; [discriminate|].
  destruct (String.eqb_spec (Py.strip line) "") as [E|_].
  { rewrite E in Es. discriminate. }
  assert (Hu : Py.lower p = "use").
  { unfold is_use_console in Ha. apply andb_prop in Ha. destruct Ha as (Hu & _).
    apply String.eqb_eq. exact Hu. }
  rewrite Hu in *.
  assert (Ec : Game.command "use" args d g
               = (Game.Ok (Game.Fall, d), g,
                  ["You must be at the Master Console on the Command Deck."])).
  { rewrite (command_use_console args d g Ha). unfold Game.use_console.
    rewrite bind_assoc, bind_self.
    destruct (String.eqb_spec (Game.player_room g) (Game.cmdrm g)); [contradiction|].
    reflexivity. }
  rewrite (bind_ok _ _ _ _ _ _ Ec). cbn [fst snd].
  rewrite (bind_ok _ _ _ _ _ _ (reminder_run g)).
  unfold Game.ret, prepend. rewrite app_nil_r. reflexivity.
Qed.

Lemma X24_witness :
  asks_console "  USE   Console please" = true
  /\ Game.player_room at_gala <> Game.cmdrm at_gala
  /\ Game.step "  USE   Console please" None at_gala
     = (Game.Ok (true, None), at_gala,
        "You must be at the Master Console on the Command Deck." :: alarm_text at_gala).
Proof.
  assert (Ha : asks_console "  USE   Console please" = true) by reflexivity.
  assert (Hp : Game.player_room at_gala <> Game.cmdrm at_gala)
    by (vm_compute; discriminate).
  split; [exact Ha|]. split; [exact Hp|].
  exact (X24_console_needs_the_command_room _ None at_gala Ha Hp).
Defined.

Lemma portable_ids_portable i :
  In i portable_ids ->
  exists it, Py.get world_items i = Some it /\ Item.portable it = true.
Proof.
  unfold portable_ids. simpl. intros H.
  repeat (destruct H as [<-|H]; [eexists; split; reflexivity|]).
  destruct H.
Qed.

(** X25: what can be carried. At every prompt every identifier in the
    inventory names a portable item of the table, the token is never among
    them, and a room that holds the token is the detention room. *)
Theorem X25_inventory_is_portable g d :
  reachable g d ->
  (forall i, In i (Game.inv g) ->
     exists it, Py.get (Game.items g) i = Some it /\ Item.portable it = true)
  /\ ~ In "codes_token" (Game.inv g)
  /\ (forall rid r, Py.get (Game.rooms g) rid = Some r ->
        In "codes_token" (Room.items r) -> rid = "brig").
Proof.
  intros Hr. destruct (reachable_Inv g d Hr) as (HI & _).
  destruct (inv_token _ HI) as (T1 & T2 & T3).
  destruct (inv_ids _ HI) as (_ & I2 & _).
  destruct (inv_static _ HI) as (_ & _ & _ & Hb & _).
  split; [|split; [exact T2|]].
  - intros i Hi. rewrite (Inv_items g HI).
    destruct (known_get _ _ _ I2 Hi) as (it & Hit).
    rewrite (Inv_items g HI) in Hit.
    destruct (world_item_kinds i) as [Hp| ->]; [congruence| |tauto].
    apply portable_ids_portable. exact Hp.
  - intros rid r Hg Hin. rewrite <- Hb. apply (T3 _ _ Hg Hin).
Qed.

Lemma X25_witness :
  reachable at_console None
  /\ ~ In "codes_token" (Game.inv at_console)
  /\ (forall rid r, Py.get (Game.rooms at_console) rid = Some r ->
        In "codes_token" (Room.items r) -> rid = "brig").
Proof.
  split; [exact at_console_reachable|].
  exact (proj2 (X25_inventory_is_portable at_console None at_console_reachable)).
Defined.

(** X26: the first screen. Whatever the generator, the typed lines and the
    save file, a run begins by printing the welcome and the description of
    the atrium with the cuffs as the only item and north as the only exit; no
    NPC is announced, although Prof. Das stands there. *)
Theorem X26_first_screen r lines d :
  exists o, output (Game.main r lines d) = opening_screen ++ o.
Proof.
  rewrite main_boot. destruct (init_run r) as (r' & k & ev & E & _).
  unfold boot. rewrite bind_assoc, (bind_ok _ _ _ _ _ _ E), prepend_nil.
  rewrite bind_assoc, bind_say, output_prepend.
  assert (El : Game.look (opening r' k ev)
               = (Game.Ok tt, opening r' k ev, tl opening_screen)).
  { vm_compute. reflexivity. }
  rewrite (bind_ok _ _ _ _ _ _ El), output_prepend.
  exists (output (Game.loop lines d (opening r' k ev))). reflexivity.
Qed.

(** ** A culprit within reach *)

(** X27: a game whose culprit is not Orin Vale or Pax Morita can be won,
    whatever the generator: from a start without a save file the lines of
    [winning_lines] for the culprit end the run in a win, with time to
    spare. The four culprits this covers, Voss, Rourke, Chen and Das, are
    the only ones against whom the game can be won. *)
Theorem X27_culprit_within_reach r g :
  start r = Some g -> ~ In (Game.killer_id g) cut_off ->
  result (Game.main r (winning_lines (Game.killer_id g)) None) = Game.Raise Game.Win.
Proof.
  unfold start. intros Hs Hc.
  destruct (boot (Game.blank r)) as [[[[]|e] g0] o] eqn:E; [|discriminate].
  inversion Hs; subst g0.
  rewrite main_boot, (bind_ok _ _ _ _ _ _ E), result_prepend.
  destruct (boot_run r g o E) as (_ & r' & k & ev & Hk & _ & ->).
  change (Game.killer_id (opening r' k ev)) with k in *.
  simpl in Hk.
  destruct Hk as [<-|[<-|[<-|[<-|[<-|[<-|[]]]]]]];
    try (vm_compute; reflexivity);
    exfalso; apply Hc; vm_compute; tauto.
Qed.

Lemma X27_witness :
  start demo_rng = Some (state_after [])
  /\ ~ In (Game.killer_id (state_after [])) cut_off
  /\ result (Game.main demo_rng (winning_lines (Game.killer_id (state_after []))) None)
     = Game.Raise Game.Win.
Proof.
  assert (Hs : start demo_rng = Some (state_after [])) by (vm_compute; reflexivity).
  assert (Hc : ~ In (Game.killer_id (state_after [])) cut_off)
    by (vm_compute; intuition discriminate).
  split; [exact Hs|]. split; [exact Hc|].
  exact (X27_culprit_within_reach demo_rng (state_after []) Hs Hc).
Defined.

(** ** Names and exits *)

(** X28: names are never ambiguous. At every prompt a typed name matches
    at most one item of the table and at most one NPC, and never an item and
    an NPC at once: the order in which the search loops go through a
    collection does not matter, and the items [inspect] looks at first never
    hide an NPC. *)
Theorem X28_names_unambiguous g d name :
  reachable g d ->
  (forall i j, item_matches (Game.items g) name i = true ->
               item_matches (Game.items g) name j = true -> i = j)
  /\ (forall i j, npc_matches (Game.npcs g) name i = true ->
                  npc_matches (Game.npcs g) name j = true -> i = j)
  /\ (forall i j, item_matches (Game.items g) name i = true ->
                  npc_matches (Game.npcs g) name j = true -> False).
Proof.
  intros Hr. destruct (reachable_Inv g d Hr) as (HI & _).
  assert (Hs := inv_static _ HI). rewrite (Inv_items g HI).
  split; [|split].
  - intros i j. apply item_match_unique.
  - intros i j. rewrite !(static_npc_matches g name _ Hs). apply npc_match_unique.
  - intros i j. rewrite (static_npc_matches g name _ Hs). apply item_npc_disjoint.
Qed.

Lemma X28_witness :
  reachable at_gala None
  /\ forall i j, item_matches (Game.items at_gala) "cuffs" i = true ->
                 npc_matches (Game.npcs at_gala) "cuffs" j = true -> False.
Proof.
  split; [exact at_gala_reachable|].
  exact (proj2 (proj2 (X28_names_unambiguous at_gala None "cuffs" at_gala_reachable))).
Defined.

Lemma dirs_nonzero dir dx dy :
  Py.get Game.DIRS dir = Some (dx, dy) -> (dx <> 0 \/ dy <> 0)%Z.
Proof.
  intros H. apply get_in in H. simpl in H.
  repeat (destruct H as [H|H];
          [apply pair_equal_spec in H; destruct H as (_ & H);
           apply pair_equal_spec in H; destruct H as (<- & <-); lia|]).
  destruct H.
Qed.

Lemma in_exits g r dir :
  In dir (exits_of g r)
  <-> exists dx dy target,
        Py.get Game.DIRS dir = Some (dx, dy)
        /\ Game.room_at_xy g (Room.x r + dx) (Room.y r + dy) = Some target.
Proof.
  unfold exits_of. rewrite in_map_iff. split.
  - intros ([k [dx dy]] & <- & Hin). apply filter_In in Hin.
    destruct Hin as (Hin & Hf). cbn [fst snd] in *.
    destruct (Game.room_at_xy g _ _) as [target|] eqn:Et; [|discriminate].
    exists dx, dy, target. split; [|exact Et].
    apply in_get; [apply nodup_strings; reflexivity|exact Hin].
  - intros (dx & dy & target & Hd & Et). exists (dir, (dx, dy)). split; [reflexivity|].
    apply filter_In. split; [apply get_in; exact Hd|].
    cbn [snd]. rewrite Et. reflexivity.
Qed.

(** X29: the exits [look] lists are the moves that work. At every prompt
    a word, lowercased, is among the exits of the current room exactly when
    [move] with that word puts the player in another room. *)
Theorem X29_exits_are_the_moves g d dir :
  reachable g d ->
  exists r,
    Py.get (Game.rooms g) (Game.player_room g) = Some r
    /\ (In (Py.lower dir) (exits_of g r)
        <-> Game.player_room (state (Game.move dir g)) <> Game.player_room g).
Proof.
  intros Hr. destruct (reachable_Full g d Hr) as (HF & _).
  assert (HI := proj1 HF). assert (Hs := inv_static _ HI).
  destruct (Inv_current_room g HI) as (r & Hg). exists r. split; [exact Hg|].
  rewrite in_exits. split.
  - intros (dx & dy & target & Hd & Et).
    assert (Hm := move_full g r dir HF Hg). unfold move_outcome in Hm.
    rewrite Hd, Et in Hm. cbv zeta in Hm. destruct Hm as (Em & _).
    rewrite Em, state_prepend, state_spend. simpl. intros Eid.
    assert (Ht := room_at_xy_known g _ _ target Hs Et). rewrite Eid, Hg in Ht.
    inversion Ht; subst target.
    destruct (room_at_xy_coords g _ _ r Et) as (Ex & Ey).
    destruct (dirs_nonzero _ dx dy Hd); lia.
  - intros Hne.
    destruct (move_state_room g r dir (move_full g r dir HF Hg))
      as [E|(dx & dy & target & Hd & Et & _)]; [contradiction|].
    exists dx, dy, target. auto.
Qed.

Lemma X29_witness :
  reachable at_gala None
  /\ exists r,
       Py.get (Game.rooms at_gala) (Game.player_room at_gala) = Some r
       /\ (In (Py.lower "W") (exits_of at_gala r)
           <-> Game.player_room (state (Game.move "W" at_gala))
               <> Game.player_room at_gala).
Proof.
  split; [exact at_gala_reachable|].
  exact (X29_exits_are_the_moves at_gala None "W" at_gala_reachable).
Defined.

(** ** Text outside ASCII

    What is typed may hold any character. U+00A0, the no-break space, is a
    separator for [str.strip()] and [str.split()] like the space, and U+212A,
    the Kelvin sign, is a capital of [k] for [str.lower()]. *)
Example no_break_space_separates :
  Game.step ("take" ++ Py.of_bytes [194; 160] ++ "cuffs") None vale_game
  = Game.step "take cuffs" None vale_game
  /\ asks_console ("use" ++ Py.of_bytes [194; 160] ++ "console") = true
  /\ is_load ("load" ++ Py.of_bytes [194; 160]) = true
  /\ Game.step (Py.of_bytes [194; 160]) None vale_game = (Game.Ok (true, None), vale_game, []).
Proof. repeat split; vm_compute; reflexivity. Qed.

Example kelvin_sign_is_a_capital_k :
  Game.take [("cufflin" ++ Py.of_bytes [226; 132; 170])%string] at_gala_empty_handed
  = Game.take ["cufflink"] at_gala_empty_handed
  /\ output (Game.take ["cufflink"] at_gala_empty_handed)
     = ["You take the Bloodied Cufflink."]
  /\ Game.accuse ["Admiral"; (Py.of_bytes [226; 132; 170] ++ "ade")%string; "Rourke"] at_gala
     = prepend (accuse_text at_gala "rourke") (Game.spend 3 at_gala).
Proof. repeat split; vm_compute; reflexivity. Qed.
